(** * TPDbCollectionMaker: the content model of [main.py]

    A shallow embedding of the classes [Content] and [ContentList] of
    [src/main.py], and the properties of title parsing, season linking,
    collision marking and rendering.

    Python strings are modelled as [string]: sequences of code points in the
    range 0..255.  In that range the class [\d] of Python's [re] is exactly
    the ten characters 0..9, [.] is every character but the line feed, and
    [$] holds at the end of the text or just before a final line feed.
    Poster ids are integers, as annotated; [int] has no bound on the length
    of its argument.  Objects are kept in a store and named by addresses,
    so that a season held by a show and by the list of seasons is one
    object. *)

From Stdlib Require Import ZArith NArith Ascii String DecimalString.
From Stdlib Require DecimalPos DecimalN.
From stdpp Require Import base list strings sorting.

Local Open Scope string_scope.

(** ** Strings *)

Definition chars (s : string) : list ascii := list_ascii_of_string s.
Definition text (l : list ascii) : string := string_of_list_ascii l.

(** [needle in hay] of Python: [needle] occurs as a contiguous run. *)
Fixpoint starts_with (p s : list ascii) : bool :=
  match p, s with
  | [], _ => true
  | a :: p', b :: s' => if Ascii.eqb a b then starts_with p' s' else false
  | _ :: _, [] => false
  end.

Fixpoint occurs_in (p s : list ascii) : bool :=
  if starts_with p s then true
  else match s with
       | [] => false
       | _ :: s' => occurs_in p s'
       end.

Definition str_in (needle hay : string) : bool :=
  occurs_in (chars needle) (chars hay).

(** [str(n)] for an integer. *)
Definition str_of_N (n : N) : string := NilZero.string_of_uint (N.to_uint n).
Definition str_of_Z (z : Z) : string := NilZero.string_of_int (Z.to_int z).

(** [int(s)] for a text of decimal digits. *)
Definition is_digit (a : ascii) : bool :=
  let n := nat_of_ascii a in (48 <=? n)%nat && (n <=? 57)%nat.

Definition digit_value (a : ascii) : N := N.of_nat (nat_of_ascii a - 48).

Definition int_of_chars (l : list ascii) : N :=
  fold_left (fun acc a => (10 * acc + digit_value a)%N) l 0%N.

Definition int (s : string) : N := int_of_chars (chars s).

Definition dquote : string := String "034"%char "".

(** [sep.join(parts)] *)
Fixpoint join (sep : string) (parts : list string) : string :=
  match parts with
  | [] => ""
  | [p] => p
  | p :: rest => p ++ sep ++ join sep rest
  end.

(** ** The fragment of Python's [re] used by [Content]

    A backtracking matcher in continuation-passing style: alternatives are
    tried left to right, repetition is greedy and gives characters back one
    at a time.  Repetition is only ever applied to a character class in the
    two patterns of the program. *)

Module Re.

Inductive cls := Dot | Digit.

Inductive regex :=
| Bol                          (* ^ *)
| Eol                          (* $ *)
| Lit (s : string)             (* literal text *)
| Star (c : cls)               (* c* *)
| Plus (c : cls)               (* c+ *)
| Seq (r1 r2 : regex)
| Alt (r1 r2 : regex)          (* r1|r2 *)
| Group (n : nat) (r : regex). (* the n-th capturing group *)

Definition in_cls (c : cls) (a : ascii) : bool :=
  match c with
  | Dot => negb (Ascii.eqb a "010"%char)
  | Digit => is_digit a
  end.

(** The groups that took part in a match, most recent first. *)
Definition Match := list (nat * list ascii).

Fixpoint lookup_group (m : Match) (n : nat) : option (list ascii) :=
  match m with
  | [] => None
  | (i, s) :: m' => if Nat.eqb i n then Some s else lookup_group m' n
  end.

(** [m.group(n)]: the text of group [n], [None] if it took no part. *)
Definition group (m : Match) (n : nat) : option string :=
  text <$> lookup_group m n.

Fixpoint strip (p s : list ascii) : option (list ascii) :=
  match p, s with
  | [], _ => Some s
  | a :: p', b :: s' => if Ascii.eqb a b then strip p' s' else None
  | _ :: _, [] => None
  end.

Section Star.
Context {A : Type}.

(** [c*], greedy: take a character of the class and go on; when the rest
    of the pattern fails from there, give the character back. *)
Fixpoint star (c : cls) (s : list ascii) (k : list ascii -> option A)
  : option A :=
  match s with
  | a :: s' =>
      if in_cls c a then
        match star c s' k with
        | Some r => Some r
        | None => k s
        end
      else k s
  | [] => k []
  end.

(** [c+]: one character of the class, then [c*]. *)
Definition plus (c : cls) (s : list ascii) (k : list ascii -> option A)
  : option A :=
  match s with
  | a :: s' => if in_cls c a then star c s' k else None
  | [] => None
  end.
End Star.

Definition at_eol (s : list ascii) : bool :=
  match s with
  | [] => true
  | [a] => Ascii.eqb a "010"%char
  | _ => false
  end.

(** [run r inp s m k]: match [r] at the suffix [s] of the subject [inp],
    then continue with [k] on what is left. *)
Fixpoint run (r : regex) (inp s : list ascii) (m : Match)
    (k : list ascii -> Match -> option Match) : option Match :=
  match r with
  | Bol => if Nat.eqb (length s) (length inp) then k s m else None
  | Eol => if at_eol s then k s m else None
  | Lit p => match strip (chars p) s with
             | Some s' => k s' m
             | None => None
             end
  | Star c => star c s (fun s' => k s' m)
  | Plus c => plus c s (fun s' => k s' m)
  | Seq r1 r2 => run r1 inp s m (fun s' m' => run r2 inp s' m' k)
  | Alt r1 r2 => match run r1 inp s m k with
                 | Some res => Some res
                 | None => run r2 inp s m k
                 end
  | Group n r1 =>
      run r1 inp s m
        (fun s' m' => k s' ((n, take (length s - length s') s) :: m'))
  end.

(** [pattern.match(subject)]: anchored at the start, free at the end. *)
Definition match_ (r : regex) (subject : string) : option Match :=
  run r (chars subject) (chars subject) [] (fun _ m => Some m).

End Re.

(** ** [class Content] *)

Abbreviation addr := nat.

Record Content := mkContent {
  poster_id : Z;
  content_type : string;
  title : string;
  use_year : bool;
  must_quote : bool;
  url : string;
  yearless_title : string;
  season_number : option N;
  (* a dict in insertion order: season number -> the child object *)
  sub_content : list (option N * addr)
}.

Definition POSTER_URL (id : Z) : string :=
  "https://theposterdb.com/api/assets/" ++ str_of_Z id.

(** Line 31: start of text; group 1, any run of characters; a space and a
    parenthesised run of digits; group 2, one of: end of text, or " - "
    and group 3 ("Season " and digits), or group 4 ("Specials"). *)
Definition YEARLESS_REGEX : Re.regex :=
  Re.Seq Re.Bol
 (Re.Seq (Re.Group 1 (Re.Star Re.Dot))
 (Re.Seq (Re.Lit " (")
 (Re.Seq (Re.Plus Re.Digit)
 (Re.Seq (Re.Lit ")")
         (Re.Group 2
            (Re.Alt Re.Eol
            (Re.Alt (Re.Seq (Re.Lit " - ")
                            (Re.Group 3 (Re.Seq (Re.Lit "Season ")
                                                (Re.Plus Re.Digit))))
                    (Re.Group 4 (Re.Lit "Specials"))))))))).

(** Line 32: start of text; any run of characters; " - "; then "Season "
    and group 1 (digits), or group 2 ("Specials"); end of text. *)
Definition SEASON_REGEX : Re.regex :=
  Re.Seq Re.Bol
 (Re.Seq (Re.Star Re.Dot)
 (Re.Seq (Re.Lit " - ")
 (Re.Seq (Re.Alt (Re.Seq (Re.Lit "Season ") (Re.Group 1 (Re.Plus Re.Digit)))
                 (Re.Group 2 (Re.Lit "Specials")))
         Re.Eol))).

(** [Content.__init__].  When [YEARLESS_REGEX] matches, its group 1 always
    took part, and when [SEASON_REGEX] matches without group 2, its group 1
    did (lemmas [yearless_group1] and [season_groups] below), so the two
    [None] branches written out here are never taken. *)
Definition Content_init (poster_id : Z) (content_type title : string)
    (must_quote : bool) : Content :=
  let yearless_title :=
    match Re.match_ YEARLESS_REGEX title with
    | None => title
    | Some group => default title (Re.group group 1)
    end in
  let '(content_type, season_number) :=
    match Re.match_ SEASON_REGEX title with
    | None => (content_type, None)
    | Some season_group =>
        ("Season",
         if decide (Re.group season_group 2 = Some "Specials") then Some 0%N
         else Some (int (default "" (Re.group season_group 1))))
    end in
  {| poster_id := poster_id;
     content_type := content_type;
     title := title;
     use_year := false;
     must_quote := must_quote || str_in ": " title;
     url := POSTER_URL poster_id;
     yearless_title := yearless_title;
     season_number := season_number;
     sub_content := [] |}.

(** The property [final_title]. *)
Definition final_title (self : Content) : string :=
  let t := if use_year self then title self else yearless_title self in
  if must_quote self then dquote ++ t ++ dquote else t.

(** ** Exceptions and the object store *)

Inductive exn :=
| KeyError (key : string)
| TypeError
| RecursionError.

Inductive outcome (A : Type) :=
| Ok (a : A)
| Raise (e : exn).
Arguments Ok {A} a.
Arguments Raise {A} e.

Definition bind {A B} (x : outcome A) (f : A -> outcome B) : outcome B :=
  match x with
  | Ok a => f a
  | Raise e => Raise e
  end.

Notation "'do' x <- e1 ; e2" := (bind e1 (fun x => e2))
  (at level 10, x name, e1 at level 100, e2 at level 200).

Fixpoint each {A B} (f : A -> outcome B) (l : list A) : outcome (list B) :=
  match l with
  | [] => Ok []
  | a :: l' => do b <- f a; do bs <- each f l'; Ok (b :: bs)
  end.

(** Objects live in a store and are named by their address; lists and
    dicts hold addresses, so that an object reached along two paths is one
    object. *)
Abbreviation heap := (list Content).

Definition blank : Content :=
  mkContent 0 "" "" false false "" "" None [].

#[global] Instance Content_inhabited : Inhabited Content := populate blank.

Definition set_use_year (b : bool) (c : Content) : Content :=
  mkContent (poster_id c) (content_type c) (title c) b (must_quote c)
            (url c) (yearless_title c) (season_number c) (sub_content c).

Definition set_sub_content (d : list (option N * addr)) (c : Content)
  : Content :=
  mkContent (poster_id c) (content_type c) (title c) (use_year c)
            (must_quote c) (url c) (yearless_title c) (season_number c) d.

(** [d[k] = v] on a dict: a known key keeps its place, a new key goes
    last. *)
Fixpoint dict_set {V} (d : list (option N * V)) (k : option N) (v : V)
  : list (option N * V) :=
  match d with
  | [] => [(k, v)]
  | (k', v') :: d' =>
      if decide (k' = k) then (k', v) :: d' else (k', v') :: dict_set d' k v
  end.

Fixpoint dict_get {V} (d : list (option N * V)) (k : option N) : option V :=
  match d with
  | [] => None
  | (k', v) :: d' => if decide (k' = k) then Some v else dict_get d' k
  end.

Definition dict_keys {V} (d : list (option N * V)) : list (option N) := d.*1.

(** ** Methods of [Content] that link seasons and shows *)

(** [self.is_sub_content_of(content)] *)
Definition is_sub_content_of (self content : Content) : bool :=
  if negb (String.eqb (content_type self) "Season")
     || negb (String.eqb (content_type content) "Show")
  then false
  else String.eqb (yearless_title content) (yearless_title self)
       && str_in (title content) (title self).

Definition is_parent_content_of (self content : Content) : bool :=
  is_sub_content_of content self.

(** [self.add_sub_content(content)], on addresses. *)
Definition add_sub_content (h : heap) (self content : addr) : heap :=
  alter (fun c => set_sub_content
                    (dict_set (sub_content c)
                              (season_number (h !!! content)) content) c)
        self h.

(** ** [class ContentList]

    [self.content] is a dict with the four keys below, created by
    [__init__] and never given another key: only the four lists grow. *)

Record ContentList := mkContentList {
  Collection : list addr;
  Movie : list addr;
  Show : list addr;
  Season : list addr
}.

Definition ContentList_init : ContentList := mkContentList [] [] [] [].

(** [self.content.items()], in the order of insertion of the keys. *)
Definition items (cl : ContentList) : list (string * list addr) :=
  [("Collection", Collection cl); ("Movie", Movie cl);
   ("Show", Show cl); ("Season", Season cl)].

(** [self.content[key]]; a [KeyError] for any other key. *)
Definition getitem (cl : ContentList) (key : string)
  : outcome (list addr) :=
  if String.eqb key "Collection" then Ok (Collection cl)
  else if String.eqb key "Movie" then Ok (Movie cl)
  else if String.eqb key "Show" then Ok (Show cl)
  else if String.eqb key "Season" then Ok (Season cl)
  else Raise (KeyError key).

(** [self.content[key].append(new)] *)
Definition append (cl : ContentList) (key : string) (new : addr)
  : outcome ContentList :=
  if String.eqb key "Collection" then
    Ok (mkContentList (Collection cl ++ [new]) (Movie cl) (Show cl) (Season cl))
  else if String.eqb key "Movie" then
    Ok (mkContentList (Collection cl) (Movie cl ++ [new]) (Show cl) (Season cl))
  else if String.eqb key "Show" then
    Ok (mkContentList (Collection cl) (Movie cl) (Show cl ++ [new]) (Season cl))
  else if String.eqb key "Season" then
    Ok (mkContentList (Collection cl) (Movie cl) (Show cl) (Season cl ++ [new]))
  else Raise (KeyError key).

(** The store and the [ContentList] object. *)
Record state := mkState {
  objs : heap;
  content : ContentList
}.

(** Lines 134-138: the first show that [new] is a season of takes it. *)
Fixpoint attach_to_show (h : heap) (new : addr) (shows : list addr) : heap :=
  match shows with
  | [] => h
  | existing :: rest =>
      if is_sub_content_of (h !!! new) (h !!! existing)
      then add_sub_content h existing new
      else attach_to_show h new rest
  end.

(** Lines 141-144: [new] takes every season it is the show of. *)
Fixpoint adopt_seasons (h : heap) (new : addr) (seasons : list addr) : heap :=
  match seasons with
  | [] => h
  | existing :: rest =>
      let h' := if is_parent_content_of (h !!! new) (h !!! existing)
                then add_sub_content h new existing
                else h in
      adopt_seasons h' new rest
  end.

(** Lines 147-150: [new] is marked at the first equal title. *)
Fixpoint mark_collision (h : heap) (new : addr) (bucket : list addr) : heap :=
  match bucket with
  | [] => h
  | existing :: rest =>
      if String.eqb (title (h !!! existing)) (title (h !!! new))
      then alter (set_use_year true) new h
      else mark_collision h new rest
  end.

(** [ContentList.add_content]: the three loops, then the append; the list
    of [new]'s content type is looked up after the first two loops. *)
Definition add_content (st : state) (new : addr) : outcome state :=
  let h1 := attach_to_show (objs st) new (Show (content st)) in
  let h2 := adopt_seasons h1 new (Season (content st)) in
  do bucket <- getitem (content st) (content_type (h2 !!! new));
  let h3 := mark_collision h2 new bucket in
  do cl <- append (content st) (content_type (h3 !!! new)) new;
  Ok (mkState h3 cl).

(** ** Rendering *)

(** Sorting numbers in ascending order, by insertion. *)
Fixpoint insert_sorted (n : N) (l : list N) : list N :=
  match l with
  | [] => [n]
  | m :: l' => if (n <=? m)%N then n :: l else m :: insert_sorted n l'
  end.

Definition sort (l : list N) : list N := foldr insert_sorted [] l.

(** The keys as numbers, if none of them is [None]. *)
Fixpoint all_some (l : list (option N)) : option (list N) :=
  match l with
  | [] => Some []
  | Some n :: l' => cons n <$> all_some l'
  | None :: _ => None
  end.

(** [sorted(keys)]: comparing [None] with a number raises [TypeError]; a
    list of fewer than two keys is compared with nothing. *)
Definition sorted (keys : list (option N)) : outcome (list (option N)) :=
  match keys with
  | [] | [_] => Ok keys
  | _ => match all_some keys with
         | Some ns => Ok (Some <$> sort ns)
         | None => Raise TypeError
         end
  end.

(** [f'{self.season_number}'] *)
Definition str_of_season (n : option N) : string :=
  match n with
  | Some n => str_of_N n
  | None => "None"
  end.

Definition nl : string := String "010"%char "".

(** The text shared by the first three branches of [__str__]. *)
Definition title_block (self : Content) : string :=
  final_title self ++ ":" ++ nl ++ "  url_poster: " ++ url self.

(** [Content.__str__].  [depth] is the number of nested calls of [__str__]
    the interpreter still allows; a show calls [str] on each child. *)
Fixpoint str (depth : nat) (h : heap) (self : Content) : outcome string :=
  if String.eqb (content_type self) "Collection"
     || String.eqb (content_type self) "Movie"
  then Ok (title_block self)
  else if String.eqb (content_type self) "Show" then
    let base := title_block self in
    if (0 <? length (sub_content self))%nat then
      do seasons <- sorted (dict_keys (sub_content self));
      do lines <-
         each (fun season =>
                 match depth, dict_get (sub_content self) season with
                 | S d, Some child => str d h (h !!! child)
                 | S d, None => Raise (KeyError "")
                 | O, _ => Raise RecursionError
                 end) seasons;
      Ok (base ++ nl ++ "  seasons:" ++ nl ++ "    "
               ++ join (nl ++ "    ") lines)
    else Ok base
  else if String.eqb (content_type self) "Season" then
    Ok (str_of_season (season_number self) ++ ": " ++ "{url_poster: "
          ++ url self ++ "}")
  else Ok ("<Bad content type " ++ dquote ++ content_type self ++ dquote ++ ">").

(** [ContentList.print]: the texts handed to [print], in order, and the
    exception that ended the method, if one did. *)
Fixpoint print_each (depth : nat) (h : heap) (l : list addr)
  : list string * option exn :=
  match l with
  | [] => ([], None)
  | a :: l' =>
      match str depth h (h !!! a) with
      | Raise e => ([], Some e)
      | Ok s => let '(out, e) := print_each depth h l' in (s :: out, e)
      end
  end.

Definition divider : string :=
  "# --------------------------------------------------------------------------------".

Fixpoint print_groups (depth : nat) (h : heap)
    (groups : list (string * list addr)) : list string * option exn :=
  match groups with
  | [] => ([], None)
  | (content_type, content_list) :: rest =>
      if (length content_list =? 0)%nat || String.eqb content_type "Season"
      then print_groups depth h rest
      else
        let header := divider ++ nl ++ "# " ++ content_type ++ "s" in
        match print_each depth h content_list with
        | (out, Some e) => (header :: out, Some e)
        | (out, None) =>
            let '(out', e) := print_groups depth h rest in
            (header :: out ++ out', e)
        end
  end.

Definition print (depth : nat) (st : state) : list string * option exn :=
  print_groups depth (objs st) (items (content st)).

(** ** The main loop (lines 184-197) *)

Record poster := mkPoster {
  data_poster_id : Z;
  data_poster_type : string;
  poster_title : string
}.

Definition empty_state : state := mkState [] ContentList_init.

(** One turn of the loop: build the object, then [add_content]. *)
Definition add_poster (always_quote : bool) (st : state) (p : poster)
  : outcome state :=
  let new := length (objs st) in
  let c := Content_init (data_poster_id p) (data_poster_type p)
                        (poster_title p) always_quote in
  add_content (mkState (objs st ++ [c])%list (content st)) new.

Fixpoint add_posters (always_quote : bool) (st : state) (ps : list poster)
  : outcome state :=
  match ps with
  | [] => Ok st
  | p :: ps' => do st' <- add_poster always_quote st p;
                add_posters always_quote st' ps'
  end.

Definition main (depth : nat) (always_quote : bool) (ps : list poster)
  : list string * option exn :=
  match add_posters always_quote empty_state ps with
  | Ok st => print depth st
  | Raise e => ([], Some e)
  end.

(** ** Vocabulary of the properties *)

(** A text without a line feed. *)
Definition single_line (s : string) : bool :=
  forallb (Re.in_cls Re.Dot) (chars s).

(** A non-empty run of the digits 0..9. *)
Definition digits (s : string) : bool :=
  match chars s with
  | [] => false
  | l => forallb is_digit l
  end.

(** A text that holds no digit. *)
Definition no_digit (p : list ascii) : bool :=
  forallb (fun a => negb (is_digit a)) p.

(** Group 2 of [YEARLESS_REGEX]: what may follow the year. *)
Definition year_tail : Re.regex :=
  Re.Group 2
    (Re.Alt Re.Eol
    (Re.Alt (Re.Seq (Re.Lit " - ")
                    (Re.Group 3 (Re.Seq (Re.Lit "Season ")
                                        (Re.Plus Re.Digit))))
            (Re.Group 4 (Re.Lit "Specials")))).

(** The texts [year_tail] accepts at their start: the empty text, a lone
    line feed, " - Season " and a digit, or "Specials". *)
Definition year_tail_ok (s : list ascii) : bool :=
  Re.at_eol s
  || match Re.strip (chars " - Season ") s with
     | Some (d :: _) => is_digit d
     | _ => false
     end
  || starts_with (chars "Specials") s.

(** The texts after the year at which the pattern is meant to stop: the
    empty text, a lone line feed, or " - Season " and a digit. *)
Definition year_tail_plain (s : list ascii) : bool :=
  Re.at_eol s
  || match Re.strip (chars " - Season ") s with
     | Some (d :: _) => is_digit d
     | _ => false
     end.

(** A text that starts by naming the specials, with or without " - "
    before the word. *)
Definition specials_tail (s : list ascii) : bool :=
  starts_with (chars "Specials") s || starts_with (chars " - Specials") s.

(** What [__init__] fixes for good: every field but [use_year] and
    [sub_content]. *)
Definition static (c : Content) : Content :=
  set_use_year false (set_sub_content [] c).

(** Two stores with the same objects up to [use_year] and [sub_content]. *)
Definition same_static (h h' : heap) : Prop := static <$> h = static <$> h'.

(** What the third loop of [add_content] decides: some record of the list
    has the title of [new]. *)
Definition collides (h : heap) (new : addr) (bucket : list addr) : bool :=
  existsb (fun e => String.eqb (title (h !!! e)) (title (h !!! new))) bucket.

(** What the second loop of [add_content] makes of the dict [d] of
    [new]. *)
Definition adopted (h : heap) (new : addr) (seasons : list addr)
    (d : list (option N * addr)) : list (option N * addr) :=
  fold_left
    (fun d e => if is_parent_content_of (h !!! new) (h !!! e)
                then dict_set d (season_number (h !!! e)) e else d)
    seasons d.

(** A run is a sequence of calls of the constructor, each putting a new
    object in the store, and of [add_content]. *)
Inductive event :=
| New (poster_id : Z) (content_type title : string) (must_quote : bool)
| Add (a : addr).

(** A new object goes to the end of the store. *)
Definition alloc (st : state) (c : Content) : state :=
  mkState (objs st ++ [c])%list (content st).

Fixpoint exec (st : state) (es : list event) : outcome state :=
  match es with
  | [] => Ok st
  | New id ty t q :: es' => exec (alloc st (Content_init id ty t q)) es'
  | Add a :: es' => do st' <- add_content st a; exec st' es'
  end.

(** The values of [self.sub_content]. *)
Definition children (c : Content) : list addr := (sub_content c).*2.

(** Every list holds records of its own content type; a child is a season
    filed under its own number in a show; a dict has each key once; a
    record in the store has the URL of its id. *)
Record wf (st : state) : Prop := mkWf {
  wf_typed : forall key l a,
    getitem (content st) key = Ok l -> a ∈ l ->
    content_type (objs st !!! a) = key;
  wf_child : forall p k a,
    (k, a) ∈ sub_content (objs st !!! p) ->
    is_sub_content_of (objs st !!! a) (objs st !!! p) = true
    /\ season_number (objs st !!! a) = k;
  wf_keys : forall p, NoDup (sub_content (objs st !!! p)).*1;
  wf_url : forall p, p < length (objs st) ->
    url (objs st !!! p) = POSTER_URL (poster_id (objs st !!! p))
}.

(** The states of a run that starts with an empty store and
    [ContentList()]. *)
Definition reachable (st : state) : Prop :=
  exists es, exec empty_state es = Ok st.

(** The shows of the registry that hold the record [a] as a child. *)
Definition is_child_of (h : heap) (a p : addr) : bool :=
  existsb (Nat.eqb a) (children (h !!! p)).

Definition parents (st : state) (a : addr) : list addr :=
  List.filter (is_child_of (objs st) a) (Show (content st)).

(** The keys of a dict that are numbers. *)
Definition numbers {V} (d : list (option N * V)) : list N := omap fst d.

(** The line of season [n] with poster [id]. *)
Definition season_line (n : N) (id : Z) : string :=
  str_of_N n ++ ": " ++ "{url_poster: " ++ POSTER_URL id ++ "}".

(** The line of the child filed under [n] in the dict [d]. *)
Definition child_line (h : heap) (d : list (option N * addr)) (n : N)
  : string :=
  match dict_get d (Some n) with
  | Some a => season_line n (poster_id (h !!! a))
  | None => ""
  end.

Definition season_lines (h : heap) (d : list (option N * addr))
  : list string :=
  child_line h d <$> sort (numbers d).

(** The show of the example of C7: seasons 2, 0 and 1 arrive in this
    order. *)
Definition bar_three_seasons : state :=
  Eval vm_compute in
    match add_posters false empty_state
            [mkPoster 3 "Show" "Bar (2020)";
             mkPoster 4 "Show" "Bar (2020) - Season 2";
             mkPoster 6 "Show" "Bar (2020) - Season 0";
             mkPoster 7 "Show" "Bar (2020) - Season 1"] with
    | Ok st => st
    | Raise _ => empty_state
    end.

(** A show that holds season 1 (poster 4), and a second poster of season 1
    (poster 5) just built. *)
Definition bar_season_twice : state :=
  Eval vm_compute in
    match exec empty_state
            [New 3 "Show" "Bar (2020)" false; Add 0;
             New 4 "Show" "Bar (2020) - Season 1" false; Add 1;
             New 5 "Show" "Bar (2020) - Season 1" false] with
    | Ok st => st
    | Raise _ => empty_state
    end.

(** Every Season record of the store has a season number. *)
Definition numbered (h : heap) : Prop :=
  forall a, content_type (h !!! a) = "Season" ->
            is_Some (season_number (h !!! a)).

(** No record of the run is declared a Season by its poster: the input
    declares Collection, Show or Movie. *)
Definition declared_ok (es : list event) : Prop :=
  forall id ty t q, New id ty t q ∈ es -> ty <> "Season".

(** The run of the main loop on the posters [ps]: each poster is built at
    the next free address and added. *)
Fixpoint events_of (always_quote : bool) (next : addr) (ps : list poster)
  : list event :=
  match ps with
  | [] => []
  | p :: ps' =>
      New (data_poster_id p) (data_poster_type p) (poster_title p)
          always_quote
      :: Add next :: events_of always_quote (S next) ps'
  end.

(** The record [__init__] builds for a poster. *)
Definition record_of (always_quote : bool) (p : poster) : Content :=
  Content_init (data_poster_id p) (data_poster_type p) (poster_title p)
               always_quote.

(** The four keys of [self.content]. *)
Definition known (key : string) : bool :=
  String.eqb key "Collection" || String.eqb key "Movie"
  || String.eqb key "Show" || String.eqb key "Season".

(** The addresses of the records of one content type, in the order of the
    store. *)
Definition of_type (h : heap) (key : string) : list addr :=
  List.filter (fun a => String.eqb (content_type (h !!! a)) key)
              (seq 0 (length h)).

(** Some record before [a] in the store has the content type and the raw
    title of [a]. *)
Definition dup_before (h : heap) (a : addr) : bool :=
  existsb (fun b => String.eqb (content_type (h !!! b))
                               (content_type (h !!! a))
                    && String.eqb (title (h !!! b)) (title (h !!! a)))
          (seq 0 a).

(** What [print] writes for one list, given the texts of its records:
    nothing when there is none, else the header and then the texts. *)
Definition section_of (key : string) (texts : list string) : list string :=
  match texts with
  | [] => []
  | _ => (divider ++ nl ++ "# " ++ key ++ "s") :: texts
  end.

(** * Properties *)

(** ** Strings and lists of characters *)

Lemma chars_app (a b : string) : chars (a ++ b) = (chars a ++ chars b)%list.
Proof. induction a as [|c a IH]; simpl; [done|]. by rewrite <- IH. Qed.

Lemma text_chars (s : string) : text (chars s) = s.
Proof. apply string_of_list_ascii_of_string. Qed.

Lemma chars_text (l : list ascii) : chars (text l) = l.
Proof. apply list_ascii_of_string_of_list_ascii. Qed.

Lemma chars_inj (a b : string) : chars a = chars b -> a = b.
Proof. intros H. by rewrite <- (text_chars a), <- (text_chars b), H. Qed.

(** ** The matcher *)

Section StarFacts.
Context {A : Type}.
Implicit Types (k : list ascii -> option A) (s pre post : list ascii).

Lemma star_sound c s k r :
    Re.star c s k = Some r ->
    exists pre post, s = (pre ++ post)%list
                     /\ forallb (Re.in_cls c) pre = true /\ k post = Some r.
Proof.
    induction s as [|a s IH]; simpl.
    - intros H. by exists [], [].
    - destruct (Re.in_cls c a) eqn:Ha.
      + destruct (Re.star c s k) as [r'|] eqn:Hs.
        * intros [= ->]. destruct (IH eq_refl) as (pre & post & -> & Hp & Hk).
          exists (a :: pre), post. simpl. by rewrite Ha, Hp.
        * intros H. by exists [], (a :: s).
      + intros H. by exists [], (a :: s).
Qed.

  (** Nothing after the head of [post] lets [k] through: the star gives
      back every character it took. *)
Lemma star_all_fail c post k :
    (forall u post', u <> [] -> post = (u ++ post')%list -> k post' = None) ->
    Re.star c post k = k post.
Proof.
    induction post as [|a post IH]; intros Hf; simpl; [done|].
    destruct (Re.in_cls c a); [|done].
    rewrite IH.
    - by rewrite (Hf [a] post).
    - intros u post' Hu ->. apply (Hf (a :: u)); done.
Qed.

Lemma star_longest c pre post k r :
    forallb (Re.in_cls c) pre = true ->
    k post = Some r ->
    (forall u post', u <> [] -> post = (u ++ post')%list -> k post' = None) ->
    Re.star c (pre ++ post) k = Some r.
Proof.
    intros Hpre Hk Hf. induction pre as [|a pre IH]; simpl in *.
    - by rewrite star_all_fail.
    - apply andb_prop in Hpre as [-> Hpre]. by rewrite IH.
Qed.

  (** The star stops at a character outside the class; if [k] accepts
      there, that is the answer. *)
Lemma star_maximal c pre post k r :
    forallb (Re.in_cls c) pre = true ->
    match post with a :: _ => Re.in_cls c a = false | [] => True end ->
    k post = Some r ->
    Re.star c (pre ++ post) k = Some r.
Proof.
    intros Hpre Hpost Hk. induction pre as [|a pre IH]; simpl in *.
    - destruct post as [|b post]; simpl; [done|]. by rewrite Hpost.
    - apply andb_prop in Hpre as [-> Hpre]. by rewrite IH.
Qed.

Lemma plus_sound c s k r :
    Re.plus c s k = Some r ->
    exists a pre post, s = (a :: pre ++ post)%list
                       /\ forallb (Re.in_cls c) (a :: pre) = true
                       /\ k post = Some r.
Proof.
    destruct s as [|a s]; simpl; [done|].
    destruct (Re.in_cls c a) eqn:Ha; [|done].
    intros H. apply star_sound in H as (pre & post & -> & Hp & Hk).
    exists a, pre, post. simpl. by rewrite Ha, Hp.
Qed.

Lemma plus_maximal c pre post k r :
    pre <> [] ->
    forallb (Re.in_cls c) pre = true ->
    match post with a :: _ => Re.in_cls c a = false | [] => True end ->
    k post = Some r ->
    Re.plus c (pre ++ post) k = Some r.
Proof.
    destruct pre as [|a pre]; [done|]. simpl.
    intros _ [-> Hpre]%andb_prop Hpost Hk. by apply star_maximal.
Qed.

Lemma plus_all c s k r :
    s <> [] -> forallb (Re.in_cls c) s = true -> k [] = Some r ->
    Re.plus c s k = Some r.
Proof.
    intros Hs Hc Hk. rewrite <- (app_nil_r s). by apply plus_maximal.
Qed.
End StarFacts.

Lemma strip_sound p s s' : Re.strip p s = Some s' -> s = (p ++ s')%list.
Proof.
  revert s. induction p as [|a p IH]; intros [|b s]; simpl; try done.
  - by intros [= ->].
  - by intros [= ->].
  - destruct (Ascii.eqb_spec a b) as [->|]; [|done].
    intros H. by rewrite (IH _ H).
Qed.

Lemma strip_app p s : Re.strip p (p ++ s) = Some s.
Proof.
  induction p as [|a p IH]; simpl; [done|].
  by rewrite Ascii.eqb_refl.
Qed.

Lemma starts_with_strip p s : starts_with p s = false -> Re.strip p s = None.
Proof.
  revert s. induction p as [|a p IH]; intros [|b s]; simpl; try done.
  destruct (Ascii.eqb a b); auto.
Qed.

(** A text in which [p] does not occur has no suffix that begins with it. *)
Lemma occurs_in_suffix p u s :
  occurs_in p (u ++ s) = false -> Re.strip p s = None.
Proof.
  induction u as [|a u IH]; simpl.
  - destruct s; simpl; destruct (starts_with p _) eqn:E; try done;
      intros _; by apply starts_with_strip.
  - destruct (starts_with p (a :: u ++ s)); [done|]. apply IH.
Qed.

Lemma starts_with_before_digit p s d l :
  no_digit p = true -> is_digit d = true ->
  starts_with p s = false -> starts_with p (s ++ d :: l) = false.
Proof.
  revert s. induction p as [|a p IH]; intros s Hp Hd; [done|].
  apply andb_prop in Hp as [Ha Hp]. destruct s as [|b s]; simpl.
  - intros _. destruct (Ascii.eqb_spec a d) as [->|]; [|done].
    by rewrite Hd in Ha.
  - destruct (Ascii.eqb a b); [by apply IH|done].
Qed.

Lemma occurs_in_digits_then p D l :
  no_digit p = true -> forallb is_digit D = true ->
  occurs_in p l = false -> occurs_in p (D ++ l) = false.
Proof.
  intros Hp HD Hl. induction D as [|d D IH]; [done|].
  apply andb_prop in HD as [Hd HD]. cbn [app occurs_in].
  rewrite (IH HD). destruct p as [|a p]; [by destruct l|].
  pose proof (starts_with_before_digit (a :: p) [] d (D ++ l) Hp Hd eq_refl)
    as E.
  cbn [app] in E. by rewrite E.
Qed.

(** A text without digits that occurs neither before nor after a run of
    digits does not occur across it. *)
Lemma occurs_in_around_digits p l1 d D l3 :
  no_digit p = true -> forallb is_digit (d :: D) = true ->
  occurs_in p l1 = false -> occurs_in p l3 = false ->
  occurs_in p (l1 ++ d :: D ++ l3) = false.
Proof.
  intros Hp HD H1 H3. induction l1 as [|b l1 IH].
  - by apply (occurs_in_digits_then p (d :: D) l3).
  - cbn [app occurs_in] in *.
    destruct (starts_with p (b :: l1)) eqn:E; [done|].
    apply andb_prop in HD as [Hd HD].
    pose proof (starts_with_before_digit p (b :: l1) d (D ++ l3) Hp Hd E)
      as E'.
    cbn [app] in E'. rewrite E'. by apply IH.
Qed.

Lemma season_match_numbered (X D : string) :
  single_line X = true -> digits D = true ->
  Re.match_ SEASON_REGEX (X ++ " - Season " ++ D) = Some [(1, chars D)].
Proof.
  unfold single_line, digits, Re.match_, SEASON_REGEX. intros HX HD.
  cbn [Re.run]. rewrite Nat.eqb_refl, !chars_app.
  destruct (chars D) as [|d D'] eqn:ED; [done|].
  apply star_longest; [done| |].
  - cbn -[Re.plus]. erewrite plus_all; [done|done|done|].
    cbn. by rewrite firstn_all.
  - intros [|a u] post' Hu Hpost; [done|]. injection Hpost as _ Hpost.
    rewrite (occurs_in_suffix (chars " - ") u post'); [done|].
    rewrite <- Hpost, <- (app_nil_r D').
    by apply (occurs_in_around_digits _ (chars "- Season ")).
Qed.

Lemma season_match_specials (X : string) :
  single_line X = true ->
  Re.match_ SEASON_REGEX (X ++ " - Specials") = Some [(2, chars "Specials")].
Proof.
  unfold single_line, Re.match_, SEASON_REGEX. intros HX.
  cbn [Re.run]. rewrite Nat.eqb_refl, !chars_app.
  apply star_longest; [done|done|].
  intros [|a u] post' Hu Hpost; [done|]. injection Hpost as _ Hpost.
  by rewrite (occurs_in_suffix (chars " - ") u post'); [|rewrite <- Hpost].
Qed.

Lemma at_eol_cases s :
  Re.at_eol s = true -> s = [] \/ s = ["010"%char].
Proof.
  destruct s as [|a [|b s]]; simpl; try done; [by left|].
  destruct (Ascii.eqb_spec a "010"%char) as [->|]; [by right|done].
Qed.

Lemma take_app_sub {A} (l1 l2 : list A) :
  take (length (l1 ++ l2) - length l2) (l1 ++ l2) = l1.
Proof.
  rewrite length_app, Nat.add_sub. by rewrite take_app_length.
Qed.

(** What a match of [SEASON_REGEX] says about the title. *)
Lemma season_match_sound (t : string) (m : Re.Match) :
  Re.match_ SEASON_REGEX t = Some m ->
  exists X e, forallb (Re.in_cls Re.Dot) X = true
    /\ (e = [] \/ e = ["010"%char])
    /\ ((exists D, D <> [] /\ forallb is_digit D = true
           /\ chars t = (X ++ chars " - Season " ++ D ++ e)%list
           /\ m = [(1, D)])
        \/ (chars t = (X ++ chars " - Specials" ++ e)%list
            /\ m = [(2, chars "Specials")])).
Proof.
  unfold Re.match_, SEASON_REGEX. cbn [Re.run]. rewrite Nat.eqb_refl.
  intros H. apply star_sound in H as (X & post & Ht & HX & H).
  exists X.
  destruct (Re.strip (chars " - ") post) as [s0|] eqn:E0; [|done].
  apply strip_sound in E0 as ->.
  destruct (Re.strip (chars "Season ") s0) as [s1|] eqn:E1.
  - apply strip_sound in E1 as ->.
    destruct (Re.plus _ _ _) as [r|] eqn:Ep in H.
    + injection H as ->. apply plus_sound in Ep as (a & pre & e & -> & Hd & He).
      destruct (Re.at_eol e) eqn:Ee; [|done]. injection He as <-.
      exists e. split; [done|]. split; [by apply at_eol_cases|]. left.
      exists (a :: pre). split; [done|]. split; [done|]. split.
      * by rewrite Ht.
      * do 2 f_equal. exact (take_app_sub (a :: pre) e).
    + by cbn in H.
  - destruct (Re.strip (chars "Specials") s0) as [s1|] eqn:E2; [|done].
    apply strip_sound in E2 as ->.
    destruct (Re.at_eol s1) eqn:Ee; [|done]. injection H as <-.
    exists s1. split; [done|]. split; [by apply at_eol_cases|]. right.
    split; [by rewrite Ht|]. do 2 f_equal.
    exact (take_app_sub (chars "Specials") s1).
Qed.

(** *** The year pattern *)

Lemma YEARLESS_REGEX_eq :
  YEARLESS_REGEX =
  Re.Seq Re.Bol
 (Re.Seq (Re.Group 1 (Re.Star Re.Dot))
 (Re.Seq (Re.Lit " (")
 (Re.Seq (Re.Plus Re.Digit)
 (Re.Seq (Re.Lit ")") year_tail)))).
Proof. reflexivity. Qed.

Lemma star_total {A} c s (k : list ascii -> option A) :
  (forall s', k s' <> None) -> Re.star c s k <> None.
Proof.
  intros Hk. induction s as [|a s IH]; simpl; [apply Hk|].
  destruct (Re.in_cls c a); [|apply Hk].
  by destruct (Re.star c s k).
Qed.

Lemma starts_with_is_strip p s :
  starts_with p s = match Re.strip p s with Some _ => true | None => false end.
Proof.
  revert s. induction p as [|a p IH]; intros [|b s]; simpl; try done.
  destruct (Ascii.eqb a b); auto.
Qed.

Lemma strip_app_pat p1 p2 s :
  Re.strip (p1 ++ p2) s =
  match Re.strip p1 s with
  | Some s' => Re.strip p2 s'
  | None => None
  end.
Proof.
  revert s. induction p1 as [|a p1 IH]; intros s; simpl; [done|].
  destruct s as [|b s]; [done|]. destruct (Ascii.eqb a b); auto.
Qed.

Lemma year_tail_run inp s m0 :
  match Re.run year_tail inp s m0 (fun _ m => Some m) with
  | Some m => year_tail_ok s = true
              /\ Re.lookup_group m 1 = Re.lookup_group m0 1
  | None => year_tail_ok s = false
  end.
Proof.
  unfold year_tail, year_tail_ok. cbn [Re.run].
  destruct (Re.at_eol s) eqn:Ee; [done|]. cbn [orb].
  change (chars " - Season ") with (chars " - " ++ chars "Season ")%list.
  rewrite strip_app_pat, starts_with_is_strip.
  destruct (Re.strip (chars " - ") s) as [s1|] eqn:E1.
  - apply strip_sound in E1 as ->.
    destruct (Re.strip (chars "Season ") s1) as [s2|] eqn:E2; [|done].
    destruct s2 as [|d s2]; [done|]. cbn [Re.plus Re.in_cls].
    destruct (is_digit d); [|done].
    destruct (Re.star _ _ _) as [r|] eqn:Es.
    + by apply star_sound in Es as (pre & post & _ & _ & [= <-]).
    + by apply star_total in Es.
  - by destruct (Re.strip (chars "Specials") s).
Qed.

Lemma year_tail_accepts inp s m0 :
  year_tail_ok s = true ->
  exists m, Re.run year_tail inp s m0 (fun _ m => Some m) = Some m
            /\ Re.lookup_group m 1 = Re.lookup_group m0 1.
Proof.
  intros Hok. pose proof (year_tail_run inp s m0) as H.
  destruct (Re.run _ _ _ _ _) as [m|]; [|congruence].
  exists m. by destruct H.
Qed.

Lemma yearless_match_prefix (X D : string) (tail : list ascii) :
  single_line X = true -> digits D = true ->
  year_tail_ok tail = true -> occurs_in (chars " (") tail = false ->
  exists m,
    Re.run YEARLESS_REGEX
           (chars X ++ chars " (" ++ chars D ++ chars ")" ++ tail)
           (chars X ++ chars " (" ++ chars D ++ chars ")" ++ tail)
           [] (fun _ m => Some m) = Some m
    /\ Re.group m 1 = Some X.
Proof.
  unfold single_line, digits. intros HX HD Hok Hocc.
  rewrite YEARLESS_REGEX_eq. cbn [Re.run]. rewrite Nat.eqb_refl.
  destruct (chars D) as [|d D'] eqn:ED; [done|].
  set (post := (chars " (" ++ (d :: D') ++ chars ")" ++ tail)%list).
  destruct (year_tail_accepts (chars X ++ post) tail
              [(1, take (length (chars X ++ post) - length post)
                        (chars X ++ post))] Hok) as (m & Hm & Hg).
  exists m. split.
  - apply star_longest; [done| |].
    + cbv beta.
      replace (Re.strip (chars " (") post)
        with (Some ((d :: D') ++ chars ")" ++ tail)%list)
        by (symmetry; apply strip_app).
      apply plus_maximal; [done|done|done|]. by rewrite strip_app.
    + intros [|a u] post' Hu Hpost; [done|]. injection Hpost as _ Hpost.
      rewrite (occurs_in_suffix (chars " (") u post'); [done|].
      rewrite <- Hpost.
      by apply (occurs_in_around_digits _ (chars "(") d D' (chars ")" ++ tail)).
  - unfold Re.group. rewrite Hg. cbn [Re.lookup_group Nat.eqb fmap option_fmap option_map].
    by rewrite take_app_sub, text_chars.
Qed.

Lemma single_line_app (a b : string) :
  single_line (a ++ b) = single_line a && single_line b.
Proof. unfold single_line. by rewrite chars_app, forallb_app. Qed.

Lemma yearless_match_year (X D : string) :
  single_line X = true -> digits D = true ->
  exists m, Re.match_ YEARLESS_REGEX (X ++ " (" ++ D ++ ")") = Some m
            /\ Re.group m 1 = Some X.
Proof.
  intros HX HD. unfold Re.match_. rewrite !chars_app.
  rewrite <- (app_nil_r (chars ")")).
  by apply yearless_match_prefix.
Qed.

Lemma yearless_match_season (X D N : string) :
  single_line X = true -> digits D = true -> digits N = true ->
  exists m,
    Re.match_ YEARLESS_REGEX (X ++ " (" ++ D ++ ") - Season " ++ N) = Some m
    /\ Re.group m 1 = Some X.
Proof.
  intros HX HD HN. unfold Re.match_. rewrite !chars_app.
  change (chars ") - Season ") with (chars ")" ++ chars " - Season ")%list.
  rewrite <- (app_assoc (chars ")")).
  unfold digits in HN. destruct (chars N) as [|n N'] eqn:EN; [done|].
  apply yearless_match_prefix; [done|done| |].
  - unfold year_tail_ok. rewrite strip_app. cbn [Re.at_eol app chars].
    cbn. apply andb_prop in HN as [Hn _]. by rewrite Hn.
  - rewrite <- (app_nil_r N').
    by apply (occurs_in_around_digits _ (chars " - Season ")).
Qed.

(** What a match of [YEARLESS_REGEX] says about the title. *)
Lemma yearless_match_sound (t : string) (m : Re.Match) :
  Re.match_ YEARLESS_REGEX t = Some m ->
  exists P D rest,
    chars t = (P ++ chars " (" ++ D ++ chars ")" ++ rest)%list
    /\ forallb (Re.in_cls Re.Dot) P = true
    /\ D <> [] /\ forallb is_digit D = true
    /\ year_tail_ok rest = true
    /\ Re.group m 1 = Some (text P).
Proof.
  unfold Re.match_. rewrite YEARLESS_REGEX_eq. cbn [Re.run].
  rewrite Nat.eqb_refl. intros H.
  apply star_sound in H as (P & post & Ht & HP & H).
  destruct (Re.strip (chars " (") post) as [s0|] eqn:E0; [|done].
  apply strip_sound in E0 as ->.
  apply plus_sound in H as (d & D & s1 & -> & HD & H).
  destruct (Re.strip (chars ")") s1) as [rest|] eqn:E1; [|done].
  apply strip_sound in E1 as ->.
  pose proof (year_tail_run (chars t) rest
                [(1, take (length (chars t) - length
                       (chars " (" ++ d :: D ++ chars ")" ++ rest)%list)
                       (chars t))]) as Hr.
  rewrite H in Hr. destruct Hr as [Hok Hg].
  exists P, (d :: D), rest. repeat split; try done.
  unfold Re.group. rewrite Hg. cbn [Re.lookup_group Nat.eqb].
  rewrite Ht. by rewrite take_app_sub.
Qed.

Lemma text_app (a b : list ascii) : text (a ++ b) = text a ++ text b.
Proof. apply chars_inj. by rewrite chars_app, !chars_text. Qed.

(** ** [Content.__init__] *)

Lemma Content_init_yearless id ty t q :
  yearless_title (Content_init id ty t q) =
  match Re.match_ YEARLESS_REGEX t with
  | None => t
  | Some group => default t (Re.group group 1)
  end.
Proof. unfold Content_init. by destruct (Re.match_ SEASON_REGEX t). Qed.

Lemma Content_init_season id ty t q :
  (content_type (Content_init id ty t q),
   season_number (Content_init id ty t q)) =
  match Re.match_ SEASON_REGEX t with
  | None => (ty, None)
  | Some season_group =>
      ("Season",
       if decide (Re.group season_group 2 = Some "Specials") then Some 0%N
       else Some (int (default "" (Re.group season_group 1))))
  end.
Proof. unfold Content_init. by destruct (Re.match_ SEASON_REGEX t). Qed.

(** The two [None] branches of [Content_init] are never reached. *)
Lemma yearless_group1 (t : string) (m : Re.Match) :
  Re.match_ YEARLESS_REGEX t = Some m -> is_Some (Re.group m 1).
Proof.
  intros (P & _ & _ & _ & _ & _ & _ & _ & ->)%yearless_match_sound. eauto.
Qed.

Lemma season_groups (t : string) (m : Re.Match) :
  Re.match_ SEASON_REGEX t = Some m ->
  Re.group m 2 = Some "Specials" \/ is_Some (Re.group m 1).
Proof.
  intros (X & e & _ & _ & [(D & _ & _ & _ & ->)|[_ ->]])%season_match_sound.
  - right. by eexists.
  - by left.
Qed.

(** ** [int] and [str] on numbers *)

Lemma int_of_uint_acc (u : Decimal.uint) (acc : positive) :
  fold_left (fun acc a => (10 * acc + digit_value a)%N)
            (chars (NilEmpty.string_of_uint u)) (Npos acc)
  = Npos (Pos.of_uint_acc u acc).
Proof.
  revert acc. induction u as [|u IH|u IH|u IH|u IH|u IH|u IH|u IH|u IH|u IH|u IH];
    intros acc; [done|..]; cbn [NilEmpty.string_of_uint chars
                                list_ascii_of_string fold_left Pos.of_uint_acc];
    rewrite <- IH; f_equal; vm_compute digit_value; lia.
Qed.

Lemma int_of_uint (u : Decimal.uint) :
  int_of_chars (chars (NilEmpty.string_of_uint u)) = Pos.of_uint u.
Proof.
  unfold int_of_chars.
  induction u as [|u IH|u IH|u IH|u IH|u IH|u IH|u IH|u IH|u IH|u IH];
    [done|exact IH|..];
    cbn [NilEmpty.string_of_uint chars list_ascii_of_string fold_left
         Pos.of_uint];
    exact (int_of_uint_acc u _).
Qed.

Lemma uint_digits (u : Decimal.uint) :
  forallb is_digit (chars (NilEmpty.string_of_uint u)) = true.
Proof. induction u; [done|exact IHu..]. Qed.

Lemma str_of_N_nonnil (n : N) :
  str_of_N n = NilEmpty.string_of_uint (N.to_uint n)
  /\ N.to_uint n <> Decimal.Nil.
Proof.
  unfold str_of_N. destruct n as [|p]; [done|].
  pose proof (DecimalPos.Unsigned.to_uint_nonnil p) as H.
  cbn [N.to_uint] in *. by destruct (Pos.to_uint p).
Qed.

(** [int] reads back the decimal text of a number. *)
Lemma int_str_of_N (n : N) : int (str_of_N n) = n.
Proof.
  destruct (str_of_N_nonnil n) as [-> _]. unfold int.
  rewrite int_of_uint. apply DecimalN.Unsigned.of_to.
Qed.

Lemma digits_str_of_N (n : N) : digits (str_of_N n) = true.
Proof.
  destruct (str_of_N_nonnil n) as [-> Hn]. unfold digits.
  pose proof (uint_digits (N.to_uint n)) as H.
  destruct (N.to_uint n); [done|exact H..].
Qed.

(** The number in a season suffix is the season number. *)
Lemma season_number_of_suffix (id : Z) (ty X : string) (n : N) (q : bool) :
  single_line X = true ->
  season_number (Content_init id ty (X ++ " - Season " ++ str_of_N n) q)
  = Some n.
Proof.
  intros HX.
  pose proof (Content_init_season id ty (X ++ " - Season " ++ str_of_N n) q)
    as E.
  rewrite (season_match_numbered X _ HX (digits_str_of_N n)) in E.
  injection E as _ ->. unfold Re.group. cbn.
  by rewrite text_chars, int_str_of_N.
Qed.

(** ** C6: the season suffix *)

Lemma single_line_no_nl (l1 l2 : list ascii) :
  forallb (Re.in_cls Re.Dot) (l1 ++ l2 ++ ["010"%char]) = false.
Proof.
  rewrite !forallb_app. cbn. by rewrite !andb_false_r.
Qed.

(** C6, as amended: for a raw title without a line feed, the suffix
    " - Season N" (N a run of digits) makes the record a Season numbered
    [int N], the suffix " - Specials" makes it Season 0, and any other title
    leaves the declared type and no season number; [int] of the decimal
    text of a number n is n. *)
Theorem season_parse_single_line (id : Z) (ty t : string) (q : bool) :
  single_line t = true ->
  (forall X D, digits D = true -> t = X ++ " - Season " ++ D ->
     content_type (Content_init id ty t q) = "Season"
     /\ season_number (Content_init id ty t q) = Some (int D))
  /\ (forall X, t = X ++ " - Specials" ->
     content_type (Content_init id ty t q) = "Season"
     /\ season_number (Content_init id ty t q) = Some 0%N)
  /\ ((forall X D, digits D = true -> t <> X ++ " - Season " ++ D) ->
      (forall X, t <> X ++ " - Specials") ->
      content_type (Content_init id ty t q) = ty
      /\ season_number (Content_init id ty t q) = None)
  /\ (forall X n, t = X ++ " - Season " ++ str_of_N n ->
                  season_number (Content_init id ty t q) = Some n).
Proof.
  intros Ht. pose proof (Content_init_season id ty t q) as E.
  split; [|split; [|split]]; [| | |intros X n ->;
    rewrite !single_line_app in Ht; apply andb_prop in Ht as [HX _];
    by apply season_number_of_suffix].
  - intros X D HD ->. rewrite !single_line_app in Ht.
    apply andb_prop in Ht as [HX _].
    rewrite (season_match_numbered X D HX HD) in E.
    injection E as -> ->. split; [done|].
    unfold Re.group. cbn. by rewrite text_chars.
  - intros X ->. rewrite single_line_app in Ht.
    apply andb_prop in Ht as [HX _].
    rewrite (season_match_specials X HX) in E. by injection E as -> ->.
  - intros Hnum Hspec.
    destruct (Re.match_ SEASON_REGEX t) as [m|] eqn:Em;
      [exfalso|by injection E as -> ->].
    apply season_match_sound in Em
      as (X & e & HX & [He|He] & [(D & HD0 & HD & Hc & _)|[Hc _]]);
      subst e.
    + apply (Hnum (text X) (text D)).
      * unfold digits. rewrite chars_text. by destruct D.
      * apply chars_inj. rewrite Hc, !chars_app, !chars_text.
        by rewrite app_nil_r.
    + apply (Hspec (text X)). apply chars_inj.
      rewrite Hc, !chars_app, !chars_text. by rewrite app_nil_r.
    + unfold single_line in Ht. rewrite Hc in Ht.
      by rewrite (app_assoc (chars " - Season ")), single_line_no_nl in Ht.
    + unfold single_line in Ht. rewrite Hc in Ht.
      by rewrite single_line_no_nl in Ht.
Qed.

Lemma season_parse_single_line_witness :
  content_type (Content_init 4 "Show" "Bar (2020) - Season 1" false)
  = "Season"
  /\ season_number (Content_init 4 "Show" "Bar (2020) - Season 1" false)
     = Some (int "1").
Proof.
  apply (proj1 (season_parse_single_line 4 "Show" "Bar (2020) - Season 1"
                  false eq_refl) "Bar (2020)" "1"); reflexivity.
Defined.

(** C6 as stated fails on a title that holds a line feed before the
    suffix: the record keeps its declared type. *)
Lemma season_parse_line_feed :
  let t := "Foo" ++ nl ++ "Bar - Season 1" in
  t = ("Foo" ++ nl ++ "Bar") ++ " - Season " ++ "1"
  /\ digits "1" = true
  /\ content_type (Content_init 4 "Show" t false) = "Show"
  /\ season_number (Content_init 4 "Show" t false) = None.
Proof. vm_compute. done. Qed.

(** ** C1: the yearless title *)

(** C1, as amended: a title "X (D)" or "X (D) - Season N", with X free of
    line feeds and D, N runs of digits, has the yearless title X; a title
    in which no prefix "P (D)" is followed by the end of the title, a final
    line feed or " - Season " and a digit keeps its raw title as yearless
    title.  Titles in which such a prefix is followed by "Specials" or
    " - Specials" are left out: nothing is said of them. *)
Theorem yearless_title_parse (id : Z) (ty : string) (q : bool) :
  (forall X D, single_line X = true -> digits D = true ->
     yearless_title (Content_init id ty (X ++ " (" ++ D ++ ")") q) = X)
  /\ (forall X D N,
        single_line X = true -> digits D = true -> digits N = true ->
        yearless_title
          (Content_init id ty (X ++ " (" ++ D ++ ") - Season " ++ N) q) = X)
  /\ (forall t,
        (forall P D rest,
            single_line P = true -> digits D = true ->
            year_tail_plain (chars rest) = true
            \/ specials_tail (chars rest) = true ->
            t <> P ++ " (" ++ D ++ ")" ++ rest) ->
        yearless_title (Content_init id ty t q) = t).
Proof.
  split; [|split].
  - intros X D HX HD. rewrite Content_init_yearless.
    destruct (yearless_match_year X D HX HD) as (m & -> & Hg).
    by rewrite Hg.
  - intros X D N HX HD HN. rewrite Content_init_yearless.
    destruct (yearless_match_season X D N HX HD HN) as (m & -> & Hg).
    by rewrite Hg.
  - intros t Hno. rewrite Content_init_yearless.
    destruct (Re.match_ YEARLESS_REGEX t) as [m|] eqn:Em; [exfalso|done].
    apply yearless_match_sound in Em
      as (P & D & rest & Hc & HP & HD0 & HD & Hok & _).
    apply (Hno (text P) (text D) (text rest)).
    + unfold single_line. by rewrite chars_text.
    + unfold digits. rewrite chars_text. by destruct D.
    + rewrite chars_text. unfold year_tail_ok in Hok.
      apply orb_prop in Hok as [Hok|Hok]; [by left|right].
      unfold specials_tail. by rewrite Hok.
    + apply chars_inj. by rewrite Hc, !chars_app, !chars_text.
Qed.

Lemma yearless_title_parse_witness :
  yearless_title (Content_init 3 "Show" "Bar (2020)" false) = "Bar"
  /\ yearless_title (Content_init 4 "Show" "Bar (2020) - Season 1" false)
     = "Bar"
  /\ yearless_title (Content_init 1 "Movie" "Up" false) = "Up".
Proof.
  split; [|split].
  - apply (proj1 (yearless_title_parse 3 "Show" false) "Bar" "2020");
      reflexivity.
  - apply (proj1 (proj2 (yearless_title_parse 4 "Show" false))
             "Bar" "2020" "1"); reflexivity.
  - apply (proj2 (proj2 (yearless_title_parse 1 "Movie" false)) "Up").
    intros [|a [|b [|c P]]] D rest _ _ _ E; simpl in E; discriminate E.
Defined.

Lemma last_chars_app (a b : string) (c : ascii) :
  last (chars b) = Some c -> last (chars (a ++ b)) = Some c.
Proof. intros H. by rewrite chars_app, last_app, H. Qed.

Lemma last_digits (N : string) :
  digits N = true -> exists d, last (chars N) = Some d /\ is_digit d = true.
Proof.
  unfold digits. destruct (chars N) as [|n l]; [done|].
  revert n. induction l as [|b l IH]; intros n [Hn Hl]%andb_prop.
  - by exists n.
  - rewrite last_cons_cons. by apply IH.
Qed.

(** C1 as stated fails both ways: a title "X (2020)" whose X holds a line
    feed is not stripped, and a title of none of the three shapes, with
    text after the season number, is stripped all the same. *)
Lemma yearless_title_not_as_stated :
  (let t := "Foo" ++ nl ++ "Bar (2020)" in
   t = ("Foo" ++ nl ++ "Bar") ++ " (" ++ "2020" ++ ")"
   /\ yearless_title (Content_init 3 "Show" t false) = t)
  /\ (let t := "Bar (2020) - Season 1 Part B" in
      (forall X D, t <> X ++ " (" ++ D ++ ")")
      /\ (forall X D N, digits N = true ->
                        t <> X ++ " (" ++ D ++ ") - Season " ++ N)
      /\ (forall X D, t <> X ++ " (" ++ D ++ ") - Specials")
      /\ yearless_title (Content_init 3 "Show" t false) = "Bar").
Proof.
  split; [by vm_compute|]. cbv zeta. repeat split.
  - intros X D E. apply (f_equal (fun s => last (chars s))) in E.
    rewrite (last_chars_app _ _ ")"%char) in E
      by (by repeat apply last_chars_app).
    vm_compute in E. discriminate E.
  - intros X D N (d & Hl & Hd)%last_digits E.
    apply (f_equal (fun s => last (chars s))) in E.
    rewrite (last_chars_app _ _ d) in E
      by (by repeat apply last_chars_app).
    vm_compute in E. injection E as <-. vm_compute in Hd. discriminate Hd.
  - intros X D E. apply (f_equal (fun s => last (chars s))) in E.
    rewrite (last_chars_app _ _ "s"%char) in E
      by (by repeat apply last_chars_app).
    vm_compute in E. discriminate E.
Qed.

(** The third alternative of group 2 is "Specials" alone, not " - Specials":
    the title of a specials season is not stripped, and the season is not
    taken for a season of its show. *)
Lemma yearless_title_specials :
  yearless_title (Content_init 5 "Show" "Bar (2020) - Specials" false)
  = "Bar (2020) - Specials"
  /\ yearless_title (Content_init 5 "Show" "Bar (2020)Specials" false) = "Bar"
  /\ is_sub_content_of
       (Content_init 5 "Show" "Bar (2020) - Specials" false)
       (Content_init 3 "Show" "Bar (2020)" false) = false
  /\ main 2 false [mkPoster 3 "Show" "Bar (2020)";
                   mkPoster 5 "Show" "Bar (2020) - Specials"]
     = ([divider ++ nl ++ "# Shows";
         "Bar:" ++ nl ++ "  url_poster: https://theposterdb.com/api/assets/3"],
        None).
Proof. by vm_compute. Qed.

(** ** The object store *)

Lemma static_set_use_year b c : static (set_use_year b c) = static c.
Proof. done. Qed.

Lemma static_set_sub_content d c : static (set_sub_content d c) = static c.
Proof. done. Qed.

Lemma set_sub_content_id c : set_sub_content (sub_content c) c = c.
Proof. by destruct c. Qed.

Lemma same_static_refl h : same_static h h.
Proof. done. Qed.

Lemma same_static_trans h1 h2 h3 :
  same_static h1 h2 -> same_static h2 h3 -> same_static h1 h3.
Proof. unfold same_static. congruence. Qed.

Lemma same_static_alter f a h :
  (forall c, static (f c) = static c) -> same_static (alter f a h) h.
Proof.
  intros Hf. unfold same_static. revert a.
  induction h as [|c h IH]; intros [|a]; simpl; try done.
  - by rewrite Hf.
  - f_equal. apply IH.
Qed.

Lemma same_static_lookup h h' a :
  same_static h h' -> static (h !!! a) = static (h' !!! a).
Proof.
  intros H. rewrite !list_lookup_total_alt.
  assert (static <$> h !! a = static <$> h' !! a) as E
    by (by rewrite <- !list_lookup_fmap, H).
  destruct (h !! a), (h' !! a); simpl in *; congruence.
Qed.

Lemma same_static_length h h' : same_static h h' -> length h = length h'.
Proof.
  intros H. by rewrite <- (length_fmap static h), H, length_fmap.
Qed.

Lemma content_type_static c : content_type c = content_type (static c).
Proof. done. Qed.
Lemma title_static c : title c = title (static c).
Proof. done. Qed.
Lemma season_number_static c : season_number c = season_number (static c).
Proof. done. Qed.
Lemma is_sub_content_of_static c1 c2 :
  is_sub_content_of c1 c2 = is_sub_content_of (static c1) (static c2).
Proof. done. Qed.

(** Rewrite the fixed fields read in [h'] to the same fields in [h]. *)
Ltac to_static H :=
  repeat match goal with
  | |- context [content_type (?h' !!! ?a)] =>
      lazymatch type of H with same_static h' ?h =>
        rewrite (content_type_static (h' !!! a)), (same_static_lookup h' h a H),
          <- (content_type_static (h !!! a)) end
  | |- context [title (?h' !!! ?a)] =>
      lazymatch type of H with same_static h' ?h =>
        rewrite (title_static (h' !!! a)), (same_static_lookup h' h a H),
          <- (title_static (h !!! a)) end
  | |- context [season_number (?h' !!! ?a)] =>
      lazymatch type of H with same_static h' ?h =>
        rewrite (season_number_static (h' !!! a)),
          (same_static_lookup h' h a H),
          <- (season_number_static (h !!! a)) end
  | |- context [is_sub_content_of (?h' !!! ?a) (?h' !!! ?b)] =>
      lazymatch type of H with same_static h' ?h =>
        rewrite (is_sub_content_of_static (h' !!! a) (h' !!! b)),
          (same_static_lookup h' h a H), (same_static_lookup h' h b H),
          <- (is_sub_content_of_static (h !!! a) (h !!! b)) end
  end.

Lemma add_sub_content_static h self content :
  same_static (add_sub_content h self content) h.
Proof. by apply same_static_alter. Qed.

(** *** The three loops of [add_content] in closed form *)

Lemma mark_collision_eq h new bucket :
  mark_collision h new bucket =
  if collides h new bucket then alter (set_use_year true) new h else h.
Proof.
  induction bucket as [|e bucket IH]; simpl; [done|].
  by destruct (String.eqb _ _).
Qed.

Lemma mark_collision_static h new bucket :
  same_static (mark_collision h new bucket) h.
Proof.
  rewrite mark_collision_eq. destruct (collides _ _ _); [|done].
  by apply same_static_alter.
Qed.

Lemma collides_static h h' new bucket :
  same_static h' h -> collides h' new bucket = collides h new bucket.
Proof.
  intros H. unfold collides. induction bucket as [|e b IH]; simpl; [done|].
  rewrite IH. f_equal. by to_static H.
Qed.

Lemma adopted_static h h' new seasons d :
  same_static h' h -> adopted h' new seasons d = adopted h new seasons d.
Proof.
  intros H. unfold adopted. revert d.
  induction seasons as [|e l IH]; intros d; simpl; [done|].
  unfold is_parent_content_of. to_static H. apply IH.
Qed.

Lemma adopted_cons h new e l d :
  adopted h new (e :: l) d =
  adopted h new l (if is_parent_content_of (h !!! new) (h !!! e)
                   then dict_set d (season_number (h !!! e)) e else d).
Proof. done. Qed.

Lemma adopt_seasons_eq h new seasons :
  adopt_seasons h new seasons =
  alter (fun c => set_sub_content (adopted h new seasons (sub_content c)) c)
        new h.
Proof.
  revert h. induction seasons as [|e l IH]; intros h; simpl.
  - symmetry. apply list_alter_id. apply set_sub_content_id.
  - destruct (is_parent_content_of (h !!! new) (h !!! e)) eqn:E.
    + rewrite IH. unfold add_sub_content at 2. rewrite list_alter_alter_eq.
      apply list_alter_ext; [|done]. intros c _.
      cbv [compose]. cbn [sub_content set_sub_content].
      by rewrite (adopted_static h _ new l _ (add_sub_content_static h new e)).
    + by rewrite IH.
Qed.

Lemma adopt_seasons_static h new seasons :
  same_static (adopt_seasons h new seasons) h.
Proof. rewrite adopt_seasons_eq. by apply same_static_alter. Qed.

Lemma attach_to_show_eq h new shows :
  attach_to_show h new shows =
  match find (fun e => is_sub_content_of (h !!! new) (h !!! e)) shows with
  | Some e => add_sub_content h e new
  | None => h
  end.
Proof.
  induction shows as [|e l IH]; simpl; [done|].
  by destruct (is_sub_content_of _ _).
Qed.

Lemma attach_to_show_static h new shows :
  same_static (attach_to_show h new shows) h.
Proof.
  rewrite attach_to_show_eq. destruct (find _ _); [|done].
  apply add_sub_content_static.
Qed.

(** *** [add_content] on a season and on a show *)

Lemma is_sub_content_of_types c1 c2 :
  is_sub_content_of c1 c2 = true ->
  content_type c1 = "Season" /\ content_type c2 = "Show".
Proof.
  unfold is_sub_content_of.
  destruct (String.eqb_spec (content_type c1) "Season") as [->|]; [|done].
  by destruct (String.eqb_spec (content_type c2) "Show") as [->|].
Qed.

Lemma find_none_iff {A} (f : A -> bool) (l : list A) :
  (forall x, x ∈ l -> f x = false) -> find f l = None.
Proof.
  induction l as [|a l IH]; intros H; simpl; [done|].
  rewrite (H a) by apply list_elem_of_here.
  apply IH. intros x Hx. apply H. by apply list_elem_of_further.
Qed.

Lemma find_snoc {A} (f : A -> bool) (l : list A) (a : A) :
  find f l = None -> find f (l ++ [a]) = if f a then Some a else None.
Proof.
  induction l as [|b l IH]; simpl; [done|]. by destruct (f b).
Qed.

Lemma attach_to_show_other h new shows :
  content_type (h !!! new) <> "Season" -> attach_to_show h new shows = h.
Proof.
  intros Hty. rewrite attach_to_show_eq, find_none_iff; [done|].
  intros e _. destruct (is_sub_content_of _ _) eqn:E; [|done].
  by apply is_sub_content_of_types in E as [? _].
Qed.

Lemma adopted_other h new seasons d :
  content_type (h !!! new) <> "Show" -> adopted h new seasons d = d.
Proof.
  intros Hty. revert d. induction seasons as [|e l IH]; intros d; [done|].
  rewrite adopted_cons, IH. unfold is_parent_content_of.
  destruct (is_sub_content_of _ _) eqn:E; [|done].
  by apply is_sub_content_of_types in E as [_ ?].
Qed.

Lemma adopt_seasons_other h new seasons :
  content_type (h !!! new) <> "Show" -> adopt_seasons h new seasons = h.
Proof.
  intros Hty. rewrite adopt_seasons_eq. apply list_alter_id. intros c.
  rewrite adopted_other by done. apply set_sub_content_id.
Qed.

Lemma add_content_season (st : state) (new : addr) :
  content_type (objs st !!! new) = "Season" ->
  add_content st new =
  Ok (mkState
        (mark_collision (attach_to_show (objs st) new (Show (content st)))
                        new (Season (content st)))
        (mkContentList (Collection (content st)) (Movie (content st))
                       (Show (content st)) (Season (content st) ++ [new]))).
Proof.
  intros Hty. unfold add_content.
  pose proof (attach_to_show_static (objs st) new (Show (content st))) as H1.
  rewrite adopt_seasons_other by (to_static H1; by rewrite Hty).
  pose proof (mark_collision_static
                (attach_to_show (objs st) new (Show (content st)))
                new (Season (content st))) as H2.
  to_static H1. rewrite Hty. cbn [getitem String.eqb Ascii.eqb Bool.eqb bind].
  to_static H2. to_static H1. by rewrite Hty.
Qed.

Lemma add_content_show (st : state) (new : addr) :
  content_type (objs st !!! new) = "Show" ->
  add_content st new =
  Ok (mkState
        (mark_collision (adopt_seasons (objs st) new (Season (content st)))
                        new (Show (content st)))
        (mkContentList (Collection (content st)) (Movie (content st))
                       (Show (content st) ++ [new]) (Season (content st)))).
Proof.
  intros Hty. unfold add_content.
  rewrite attach_to_show_other by (by rewrite Hty).
  pose proof (adopt_seasons_static (objs st) new (Season (content st))) as H1.
  pose proof (mark_collision_static
                (adopt_seasons (objs st) new (Season (content st)))
                new (Show (content st))) as H2.
  to_static H1. rewrite Hty. cbn [getitem String.eqb Ascii.eqb Bool.eqb bind].
  to_static H2. to_static H1. by rewrite Hty.
Qed.

Lemma dict_get_set {V} (d : list (option N * V)) k v :
  dict_get (dict_set d k v) k = Some v.
Proof.
  induction d as [|[k' v'] d IH]; simpl.
  - by rewrite decide_True.
  - destruct (decide (k' = k)) as [->|Hne]; simpl.
    + by rewrite decide_True.
    + by rewrite decide_False.
Qed.

Lemma adopted_snoc h new l e d :
  adopted h new (l ++ [e]) d =
  if is_parent_content_of (h !!! new) (h !!! e)
  then dict_set (adopted h new l d) (season_number (h !!! e)) e
  else adopted h new l d.
Proof. unfold adopted. by rewrite fold_left_app. Qed.

Lemma lookup_total_type_lt (h : heap) (a : addr) :
  content_type (h !!! a) <> "" -> a < length h.
Proof.
  intros H. destruct (decide (a < length h)) as [|Hge]; [done|].
  rewrite list_lookup_total_alt, lookup_ge_None_2 in H by lia. done.
Qed.

Lemma find_parent_static h h' new shows :
  same_static h' h ->
  find (fun e => is_sub_content_of (h' !!! new) (h' !!! e)) shows =
  find (fun e => is_sub_content_of (h !!! new) (h !!! e)) shows.
Proof.
  intros H. induction shows as [|e l IH]; simpl; [done|].
  rewrite IH. by to_static H.
Qed.

(** The loops run on a store [h'] that differs from [h] in [use_year] and
    [sub_content] only take the decisions they take on [h]. *)
Lemma mark_collision_on h h' new bucket :
  same_static h' h ->
  mark_collision h' new bucket =
  if collides h new bucket then alter (set_use_year true) new h' else h'.
Proof.
  intros H. by rewrite mark_collision_eq, (collides_static h h').
Qed.

Lemma adopt_seasons_on h h' new seasons :
  same_static h' h ->
  adopt_seasons h' new seasons =
  alter (fun c => set_sub_content (adopted h new seasons (sub_content c)) c)
        new h'.
Proof.
  intros H. rewrite adopt_seasons_eq. apply list_alter_ext; [|done].
  intros c _. by rewrite (adopted_static h h').
Qed.

Lemma attach_to_show_on h h' new shows :
  same_static h' h ->
  attach_to_show h' new shows =
  match find (fun e => is_sub_content_of (h !!! new) (h !!! e)) shows with
  | Some e =>
      alter (fun c => set_sub_content
                        (dict_set (sub_content c)
                                  (season_number (h !!! new)) new) c) e h'
  | None => h'
  end.
Proof.
  intros H. rewrite attach_to_show_eq, (find_parent_static h h') by done.
  destruct (find _ _); [|done]. unfold add_sub_content. by to_static H.
Qed.

Lemma same_static_mark h h' new bucket :
  same_static h' h -> same_static (mark_collision h' new bucket) h.
Proof.
  intros H. eapply same_static_trans; [apply mark_collision_static|done].
Qed.

Lemma same_static_adopt h h' new seasons :
  same_static h' h -> same_static (adopt_seasons h' new seasons) h.
Proof.
  intros H. eapply same_static_trans; [apply adopt_seasons_static|done].
Qed.

Lemma same_static_attach h h' new shows :
  same_static h' h -> same_static (attach_to_show h' new shows) h.
Proof.
  intros H. eapply same_static_trans; [apply attach_to_show_static|done].
Qed.

Create HintDb static discriminated.
#[global] Hint Resolve same_static_refl same_static_mark same_static_adopt
  same_static_attach : static.

(** ** C4: a season and its show, in either order *)

(** Where the two orders agree: for a show and a season of it (equal
    yearless titles, the show's title inside the season's), with no earlier
    show in the registry that the season belongs to, adding the season then
    the show and adding the show then the season both succeed and leave the
    very same store and registry, in which the show holds the season under
    its number. *)
Theorem season_show_order_independent (st : state) (season show : addr) :
  is_sub_content_of (objs st !!! season) (objs st !!! show) = true ->
  (forall e, e ∈ Show (content st) ->
             is_sub_content_of (objs st !!! season) (objs st !!! e) = false) ->
  exists st',
    (do st1 <- add_content st season; add_content st1 show) = Ok st'
    /\ (do st1 <- add_content st show; add_content st1 season) = Ok st'
    /\ dict_get (sub_content (objs st' !!! show))
                (season_number (objs st !!! season)) = Some season.
Proof.
  destruct st as [h cl]. cbn [objs content]. intros Hsub Hfree.
  destruct (is_sub_content_of_types _ _ Hsub) as [Hts Htw].
  assert (season <> show) as Hne by (intros ->; congruence).
  assert (show < length h) as Hlt
    by (apply lookup_total_type_lt; by rewrite Htw).
  (* the season first *)
  rewrite (add_content_season (mkState h cl) season Hts).
  cbn [bind objs content].
  rewrite (attach_to_show_eq h season), (find_none_iff _ _ Hfree).
  pose proof (mark_collision_static h season (Season cl)) as Hs1.
  rewrite add_content_show by (cbn [objs]; to_static Hs1; done).
  (* the show first *)
  rewrite (add_content_show (mkState h cl) show Htw). cbn [bind objs content].
  assert (same_static
            (mark_collision (adopt_seasons h show (Season cl)) show (Show cl))
            h) as Hw by eauto with static.
  rewrite add_content_season by (cbn [objs]; to_static Hw; done).
  cbn [objs content Collection Movie Show Season].
  (* both stores, from the decisions taken on [h] *)
  rewrite (mark_collision_on h _ show), (adopt_seasons_on h _ show),
    (mark_collision_on h h season) by eauto with static.
  rewrite (mark_collision_on h _ season), (attach_to_show_on h _ season),
    (mark_collision_on h _ show), (adopt_seasons_on h h show)
    by eauto with static.
  rewrite find_snoc, Hsub by (by apply find_none_iff).
  assert (forall d, adopted h show (Season cl ++ [season]) d
                    = dict_set (adopted h show (Season cl) d)
                               (season_number (h !!! season)) season) as Ead.
  { intros d. rewrite adopted_snoc. unfold is_parent_content_of.
    by rewrite Hsub. }
  eexists. split; [reflexivity|]. split.
  - do 2 f_equal.
    destruct (collides h season (Season cl)), (collides h show (Show cl));
      rewrite ?list_alter_alter_eq;
      rewrite ?(list_alter_alter_ne _ _ h season show Hne);
      rewrite ?list_alter_alter_eq;
      (apply list_alter_ext; [|done]); intros c _; cbv [compose];
      cbn [sub_content set_sub_content set_use_year]; by rewrite Ead.
  - cbn [objs].
    assert (forall (f : Content -> Content) (g : heap),
              length g = length h ->
              sub_content (alter f show g !!! show)
              = sub_content (f (g !!! show))) as Hl.
    { intros f g Hg. rewrite list_lookup_total_alter_eq; [done|lia]. }
    destruct (collides h season (Season cl)), (collides h show (Show cl));
      rewrite ?list_alter_alter_eq;
      (rewrite Hl by (by rewrite ?length_alter)); cbv [compose];
      cbn [sub_content set_sub_content set_use_year];
      rewrite Ead; apply dict_get_set.
Qed.

Lemma season_show_order_independent_witness :
  exists st',
    (do st1 <- add_content
                 (mkState [Content_init 3 "Show" "Bar (2020)" false;
                           Content_init 4 "Show" "Bar (2020) - Season 1" false]
                          ContentList_init) 1;
     add_content st1 0) = Ok st'
    /\ (do st1 <- add_content
                    (mkState [Content_init 3 "Show" "Bar (2020)" false;
                              Content_init 4 "Show" "Bar (2020) - Season 1"
                                           false]
                             ContentList_init) 0;
        add_content st1 1) = Ok st'
    /\ dict_get (sub_content (objs st' !!! 0)) (Some 1%N) = Some 1.
Proof.
  apply (season_show_order_independent
           (mkState [Content_init 3 "Show" "Bar (2020)" false;
                     Content_init 4 "Show" "Bar (2020) - Season 1" false]
                    ContentList_init) 1 0).
  - vm_compute. reflexivity.
  - intros e He. by apply elem_of_nil in He.
Defined.

(** C4 fails on the code when the registry already holds a show that the
    season belongs to: the loop over the seasons hands a season to the new
    show even though an earlier show holds it, so the order of the two
    records matters.  With the show "Bar (2020)" in the registry, a second
    record of that show and the record of its season 1 are a show and a
    matching season.  Added show first, the season goes to the earlier show
    only; added season first, the new show takes it as well, and the page
    is printed with the season under both shows.  The two runs print what
    the program prints for the pages with the posters in these orders. *)
Theorem season_show_order_differs :
  exists st st1 st2,
    exec empty_state
      [New 3 "Show" "Bar (2020)" false; Add 0;
       New 5 "Show" "Bar (2020)" false;
       New 4 "Show" "Bar (2020) - Season 1" false] = Ok st
    /\ is_sub_content_of (objs st !!! 2) (objs st !!! 1) = true
    /\ (do s <- add_content st 1; add_content s 2) = Ok st1
    /\ (do s <- add_content st 2; add_content s 1) = Ok st2
    /\ content st1 = content st2
    /\ main 2 false [mkPoster 3 "Show" "Bar (2020)";
                     mkPoster 5 "Show" "Bar (2020)";
                     mkPoster 4 "Show" "Bar (2020) - Season 1"]
       = print 2 st1
    /\ main 2 false [mkPoster 3 "Show" "Bar (2020)";
                     mkPoster 4 "Show" "Bar (2020) - Season 1";
                     mkPoster 5 "Show" "Bar (2020)"]
       = print 2 st2
    /\ sub_content <$> objs st1 = [[(Some 1%N, 2)]; []; []]
    /\ sub_content <$> objs st2 = [[(Some 1%N, 2)]; [(Some 1%N, 2)]; []]
    /\ print 2 st1
       = ([divider ++ nl ++ "# Shows";
           "Bar:" ++ nl
           ++ "  url_poster: https://theposterdb.com/api/assets/3" ++ nl
           ++ "  seasons:" ++ nl
           ++ "    1: {url_poster: https://theposterdb.com/api/assets/4}";
           "Bar (2020):" ++ nl
           ++ "  url_poster: https://theposterdb.com/api/assets/5"],
          None)
    /\ print 2 st2
       = ([divider ++ nl ++ "# Shows";
           "Bar:" ++ nl
           ++ "  url_poster: https://theposterdb.com/api/assets/3" ++ nl
           ++ "  seasons:" ++ nl
           ++ "    1: {url_poster: https://theposterdb.com/api/assets/4}";
           "Bar (2020):" ++ nl
           ++ "  url_poster: https://theposterdb.com/api/assets/5" ++ nl
           ++ "  seasons:" ++ nl
           ++ "    1: {url_poster: https://theposterdb.com/api/assets/4}"],
          None).
Proof.
  do 3 eexists. split; [by vm_compute|]. split; [by vm_compute|].
  split; [by vm_compute|]. split; [by vm_compute|]. by vm_compute.
Qed.

(** ** Runs of the program *)

Lemma add_content_inv (st st' : state) (new : addr) :
  add_content st new = Ok st' ->
  exists bucket,
    getitem (content st) (content_type (objs st !!! new)) = Ok bucket
    /\ objs st' =
       mark_collision
         (adopt_seasons (attach_to_show (objs st) new (Show (content st)))
                        new (Season (content st))) new bucket
    /\ append (content st) (content_type (objs st !!! new)) new
       = Ok (content st').
Proof.
  unfold add_content.
  set (h2 := adopt_seasons _ _ _).
  assert (same_static h2 (objs st)) as H2 by (subst h2; eauto with static).
  to_static H2.
  destruct (getitem _ _) as [bucket|] eqn:Eb; [|done]. cbn [bind].
  assert (same_static (mark_collision h2 new bucket) (objs st)) as H3
    by eauto with static.
  to_static H3.
  destruct (append _ _ _) as [cl|] eqn:Ea; [|done]. cbn [bind].
  intros [= <-]. by exists bucket.
Qed.

Lemma add_content_static (st st' : state) (new : addr) :
  add_content st new = Ok st' -> same_static (objs st') (objs st).
Proof.
  intros (bucket & _ & -> & _)%add_content_inv. eauto with static.
Qed.

Lemma proj_alter {B} (p : Content -> B) f a (h : heap) b :
  (forall c, p (f c) = p c) -> p (alter f a h !!! b) = p (h !!! b).
Proof.
  intros Hf. rewrite list_lookup_total_alter.
  case_decide as Hd; [|done]. destruct Hd as [-> _]. apply Hf.
Qed.

Lemma use_year_links h new shows seasons b :
  use_year (adopt_seasons (attach_to_show h new shows) new seasons !!! b)
  = use_year (h !!! b).
Proof.
  rewrite adopt_seasons_eq, proj_alter by done.
  rewrite attach_to_show_eq. destruct (find _ _); [|done].
  by apply proj_alter.
Qed.

Lemma add_content_use_year_other (st st' : state) (new b : addr) :
  add_content st new = Ok st' -> b <> new ->
  use_year (objs st' !!! b) = use_year (objs st !!! b).
Proof.
  intros (bucket & _ & -> & _)%add_content_inv Hne.
  rewrite mark_collision_eq. destruct (collides _ _ _).
  - rewrite list_lookup_total_alter_ne by done. apply use_year_links.
  - apply use_year_links.
Qed.

Lemma add_content_use_year_mono (st st' : state) (new b : addr) :
  add_content st new = Ok st' ->
  use_year (objs st !!! b) = true -> use_year (objs st' !!! b) = true.
Proof.
  intros (bucket & _ & -> & _)%add_content_inv Hb.
  rewrite mark_collision_eq. destruct (collides _ _ _).
  - rewrite list_lookup_total_alter. case_decide; [done|].
    by rewrite use_year_links.
  - by rewrite use_year_links.
Qed.

Lemma getitem_append cl key new cl' key' l :
  append cl key new = Ok cl' -> getitem cl key' = Ok l ->
  getitem cl' key' = Ok (if String.eqb key key' then l ++ [new] else l)%list.
Proof.
  unfold append, getitem.
  destruct (String.eqb_spec key "Collection") as [->|?];
    [|destruct (String.eqb_spec key "Movie") as [->|?];
      [|destruct (String.eqb_spec key "Show") as [->|?];
        [|destruct (String.eqb_spec key "Season") as [->|?]; [|done]]]];
    intros [= <-]; cbn [Collection Movie Show Season];
    (destruct (String.eqb_spec key' "Collection") as [->|?];
     [|destruct (String.eqb_spec key' "Movie") as [->|?];
       [|destruct (String.eqb_spec key' "Show") as [->|?];
         [|destruct (String.eqb_spec key' "Season") as [->|?]; [|done]]]]);
    intros [= <-]; try done;
    by (destruct (String.eqb_spec key key') as [->|?]).
Qed.

Lemma append_getitem cl key new l :
  getitem cl key = Ok l -> exists cl', append cl key new = Ok cl'.
Proof.
  unfold append, getitem. repeat case_match; try done; eauto.
Qed.

Lemma add_content_ok (st : state) (new : addr) (bucket : list addr) :
  getitem (content st) (content_type (objs st !!! new)) = Ok bucket ->
  exists st', add_content st new = Ok st'.
Proof.
  intros Hb. unfold add_content.
  set (h2 := adopt_seasons _ _ _).
  assert (same_static h2 (objs st)) as H2 by (subst h2; eauto with static).
  to_static H2. rewrite Hb. cbn [bind].
  assert (same_static (mark_collision h2 new bucket) (objs st)) as H3
    by eauto with static.
  to_static H3.
  destruct (append_getitem _ _ new _ Hb) as [cl' ->]. cbn [bind]. eauto.
Qed.




Lemma add_content_grows (st st' : state) (new : addr) key l :
  add_content st new = Ok st' -> getitem (content st) key = Ok l ->
  exists l', getitem (content st') key = Ok (l ++ l')%list.
Proof.
  intros (bucket & _ & _ & Ha)%add_content_inv Hl.
  rewrite (getitem_append _ _ _ _ _ _ Ha Hl).
  destruct (String.eqb _ _); [by exists [new]|exists []].
  by rewrite app_nil_r.
Qed.

(** What a run keeps: objects stay where they are with the fields
    [__init__] gave them, the four lists only grow, [use_year] is never
    reset, and it is set on no object but one handed to [add_content]. *)
Lemma exec_inv (es : list event) (st st' : state) :
  exec st es = Ok st' ->
  length (objs st) <= length (objs st')
  /\ (forall a, a < length (objs st) ->
                static (objs st' !!! a) = static (objs st !!! a))
  /\ (forall key l, getitem (content st) key = Ok l ->
                    exists l', getitem (content st') key = Ok (l ++ l')%list)
  /\ (forall b, use_year (objs st !!! b) = true ->
                use_year (objs st' !!! b) = true)
  /\ (forall b, b < length (objs st) -> Add b ∉ es ->
                use_year (objs st' !!! b) = use_year (objs st !!! b)).
Proof.
  revert st. induction es as [|[id ty t q|a] es IH]; intros st; cbn [exec].
  - intros [= <-]. repeat split; try done.
    intros key l ->. exists []. by rewrite app_nil_r.
  - intros H. apply IH in H as (Hlen & Hst & Hb & Hm & Hu).
    unfold alloc in *. cbn [objs content] in *. rewrite length_app in *. cbn [length] in *.
    split; [lia|]. split; [|split; [done|split]].
    + intros a Ha. rewrite Hst by lia. by rewrite lookup_total_app_l.
    + intros b Hb1. apply Hm.
      destruct (decide (b < length (objs st))) as [?|Hge].
      * by rewrite lookup_total_app_l.
      * by rewrite list_lookup_total_alt, lookup_ge_None_2 in Hb1 by lia.
    + intros b Hb1 Hno. rewrite Hu; [by rewrite lookup_total_app_l|lia|].
      intros Hin. apply Hno. by apply list_elem_of_further.
  - destruct (add_content st a) as [st1|] eqn:E1; [|done]. cbn [bind].
    intros H. apply IH in H as (Hlen & Hst & Hb & Hm & Hu).
    pose proof (add_content_static _ _ _ E1) as Hs1.
    pose proof (same_static_length _ _ Hs1) as Hl1.
    split; [lia|]. split; [|split; [|split]].
    + intros b Hb1. rewrite Hst by lia. by apply same_static_lookup.
    + intros key l Hl.
      destruct (add_content_grows _ _ _ _ _ E1 Hl) as [l1 Hl1'].
      destruct (Hb _ _ Hl1') as [l2 Hl2]. exists (l1 ++ l2)%list.
      by rewrite app_assoc.
    + intros b Hb1. apply Hm. by apply (add_content_use_year_mono st st1 a).
    + intros b Hb1 Hno. rewrite Hu.
      * apply (add_content_use_year_other st st1 a); [done|].
        intros ->. apply Hno. apply list_elem_of_here.
      * lia.
      * intros Hin. apply Hno. by apply list_elem_of_further.
Qed.

Lemma getitem_known cl key l : getitem cl key = Ok l -> key <> "".
Proof. intros H ->. by vm_compute in H. Qed.


(** ** C5: the collision mark *)



(** ** Registries the program can reach *)

Lemma dict_set_elem {V} (d : list (option N * V)) k' v k a :
  (k, a) ∈ dict_set d k' v -> (k, a) ∈ d \/ (k, a) = (k', v).
Proof.
  induction d as [|[k0 v0] d IH]; simpl.
  - intros ->%list_elem_of_singleton. by right.
  - destruct (decide (k0 = k')) as [->|Hne].
    + intros [->|H]%elem_of_cons; [by right|]. left. by apply list_elem_of_further.
    + intros [->|H]%elem_of_cons; [left; apply list_elem_of_here|].
      destruct (IH H) as [?|?]; [left|by right].
      by apply list_elem_of_further.
Qed.

Lemma dict_set_keys {V} (d : list (option N * V)) k v :
  (dict_set d k v).*1 = if decide (k ∈ d.*1) then d.*1 else (d.*1 ++ [k])%list.
Proof.
  induction d as [|[k0 v0] d IH]; [done|]. cbn [dict_set].
  destruct (decide (k0 = k)) as [->|Hne]; rewrite !fmap_cons; cbn [fst].
  - rewrite decide_True; [done|]. apply list_elem_of_here.
  - rewrite IH. destruct (decide (k ∈ d.*1)) as [Hin|Hnin].
    + rewrite decide_True; [done|]. by apply list_elem_of_further.
    + rewrite decide_False; [done|].
      intros [?|?]%elem_of_cons; congruence.
Qed.

Lemma dict_set_nodup {V} (d : list (option N * V)) k v :
  NoDup d.*1 -> NoDup (dict_set d k v).*1.
Proof.
  intros Hd. rewrite dict_set_keys. case_decide; [done|].
  apply NoDup_app. split; [done|]. split; [|apply NoDup_singleton].
  intros x Hx ->%list_elem_of_singleton. done.
Qed.

Lemma adopted_elem h new l d k a :
  (k, a) ∈ adopted h new l d ->
  (k, a) ∈ d
  \/ (is_sub_content_of (h !!! a) (h !!! new) = true
      /\ season_number (h !!! a) = k).
Proof.
  revert d. induction l as [|e l IH]; intros d; [by left|].
  rewrite adopted_cons. intros [H|H]%IH; [|by right].
  destruct (is_parent_content_of _ _) eqn:E; [|by left].
  apply dict_set_elem in H as [?|[= -> ->]]; [by left|by right].
Qed.

Lemma adopted_nodup h new l d : NoDup d.*1 -> NoDup (adopted h new l d).*1.
Proof.
  revert d. induction l as [|e l IH]; intros d Hd; [done|].
  rewrite adopted_cons. apply IH. destruct (is_parent_content_of _ _); [|done].
  by apply dict_set_nodup.
Qed.

(** The children of [p] after [add_content st new]. *)
Lemma add_content_sub_content (st st' : state) (new p : addr) :
  add_content st new = Ok st' ->
  sub_content (objs st' !!! p) = sub_content (objs st !!! p)
  \/ (p = new
      /\ sub_content (objs st' !!! p)
         = adopted (objs st) new (Season (content st))
                   (sub_content (objs st !!! p)))
  \/ (is_sub_content_of (objs st !!! new) (objs st !!! p) = true
      /\ sub_content (objs st' !!! p)
         = dict_set (sub_content (objs st !!! p))
                    (season_number (objs st !!! new)) new).
Proof.
  intros (bucket & _ & -> & _)%add_content_inv.
  rewrite mark_collision_eq.
  assert (forall g : heap, sub_content
            ((if collides (adopt_seasons (attach_to_show (objs st) new
                   (Show (content st))) new (Season (content st))) new bucket
              then alter (set_use_year true) new g else g) !!! p)
          = sub_content (g !!! p)) as ->.
  { intros g. destruct (collides _ _ _); [|done]. by apply proj_alter. }
  destruct (decide (content_type (objs st !!! new) = "Season")) as [Hs|Hs].
  - rewrite adopt_seasons_other.
    2:{ pose proof (attach_to_show_static (objs st) new (Show (content st)))
          as H1. to_static H1. by rewrite Hs. }
    rewrite attach_to_show_eq.
    destruct (find _ _) as [e|] eqn:Ef; [|by left].
    apply find_some in Ef as [_ Ef]. unfold add_sub_content.
    rewrite list_lookup_total_alter. case_decide as Hd; [|by left].
    destruct Hd as [-> _]. right. right. by cbn.
  - rewrite attach_to_show_other by done.
    rewrite adopt_seasons_eq, list_lookup_total_alter.
    case_decide as Hd; [|by left]. destruct Hd as [-> _].
    right. left. by cbn.
Qed.

Lemma getitem_keys cl cl' key l' :
  getitem cl' key = Ok l' -> exists l, getitem cl key = Ok l.
Proof. unfold getitem. repeat case_match; try done; eauto. Qed.

Lemma url_static c : url c = url (static c).
Proof. done. Qed.
Lemma poster_id_static c : poster_id c = poster_id (static c).
Proof. done. Qed.
Lemma must_quote_static c : must_quote c = must_quote (static c).
Proof. done. Qed.

Lemma add_content_wf (st st' : state) (new : addr) :
  wf st -> add_content st new = Ok st' -> wf st'.
Proof.
  intros [Ht Hc Hk Hu] Hadd.
  pose proof (add_content_static _ _ _ Hadd) as Hs.
  destruct (add_content_inv _ _ _ Hadd) as (bucket & Hb & _ & Ha).
  split.
  - intros key l' a Hl' Hin. to_static Hs.
    destruct (getitem_keys (content st) _ _ _ Hl') as [l Hl].
    rewrite (getitem_append _ _ _ _ _ _ Ha Hl) in Hl'. injection Hl' as <-.
    destruct (String.eqb_spec (content_type (objs st !!! new)) key)
      as [<-|Hne]; [|by eapply Ht].
    apply elem_of_app in Hin as [Hin| ->%list_elem_of_singleton]; [|done].
    by eapply Ht.
  - intros p k a Hin. to_static Hs.
    destruct (add_content_sub_content _ _ new p Hadd)
      as [E|[[-> E]|[Hsub E]]]; rewrite E in Hin.
    + by apply Hc.
    + apply adopted_elem in Hin as [Hin|Hin]; [by apply Hc|done].
    + apply dict_set_elem in Hin as [Hin|[= -> ->]]; [by apply Hc|done].
  - intros p.
    destruct (add_content_sub_content _ _ new p Hadd)
      as [E|[[-> E]|[Hsub E]]]; rewrite E.
    + apply Hk.
    + apply adopted_nodup, Hk.
    + apply dict_set_nodup, Hk.
  - intros p Hp. rewrite (same_static_length _ _ Hs) in Hp.
    rewrite (url_static (objs st' !!! p)), (poster_id_static (objs st' !!! p)),
      (same_static_lookup _ _ p Hs), <- url_static, <- poster_id_static.
    by apply Hu.
Qed.

Lemma Content_init_fields id ty t q :
  poster_id (Content_init id ty t q) = id
  /\ title (Content_init id ty t q) = t
  /\ url (Content_init id ty t q) = POSTER_URL id
  /\ use_year (Content_init id ty t q) = false
  /\ must_quote (Content_init id ty t q) = q || str_in ": " t
  /\ sub_content (Content_init id ty t q) = [].
Proof. unfold Content_init. by destruct (Re.match_ SEASON_REGEX t). Qed.

Lemma lookup_total_alloc (st : state) (c : Content) (a : addr) :
  objs (alloc st c) !!! a =
  if decide (a < length (objs st)) then objs st !!! a
  else if decide (a = length (objs st)) then c else blank.
Proof.
  unfold alloc. cbn [objs]. case_decide.
  - by rewrite lookup_total_app_l.
  - rewrite lookup_total_app_r by lia. case_decide as E.
    + by rewrite E, Nat.sub_diag.
    + rewrite list_lookup_total_alt, lookup_ge_None_2; [done|].
      cbn [length]. lia.
Qed.

Lemma sub_lt (h : heap) (a p : addr) :
  is_sub_content_of (h !!! a) (h !!! p) = true ->
  a < length h /\ p < length h.
Proof.
  intros [Ha Hp]%is_sub_content_of_types.
  split; apply lookup_total_type_lt; by rewrite ?Ha, ?Hp.
Qed.

Lemma alloc_wf (st : state) id ty t q :
  wf st -> wf (alloc st (Content_init id ty t q)).
Proof.
  intros [Ht Hc Hk Hu].
  destruct (Content_init_fields id ty t q) as (Hid & _ & Hurl & _ & _ & Hsc).
  split.
  - intros key l a Hl Hin. cbn [alloc content] in Hl.
    pose proof (Ht _ _ _ Hl Hin) as Hty. rewrite lookup_total_alloc.
    rewrite decide_True; [done|]. apply lookup_total_type_lt.
    rewrite Hty. by eapply getitem_known.
  - intros p k a. rewrite !lookup_total_alloc.
    destruct (decide (p < length (objs st))) as [Hp|Hp].
    + intros Hin. destruct (Hc _ _ _ Hin) as [Hsub Hn].
      destruct (sub_lt _ _ _ Hsub) as [Ha _]. by rewrite decide_True.
    + case_decide; [by rewrite Hsc; intros ?%elem_of_nil|].
      by intros ?%elem_of_nil.
  - intros p. rewrite lookup_total_alloc.
    repeat case_decide; [apply Hk|rewrite Hsc|]; apply NoDup_nil_2.
  - intros p Hp. rewrite lookup_total_alloc.
    case_decide; [by apply Hu|].
    unfold alloc in Hp. cbn [objs] in Hp. rewrite length_app in Hp.
    cbn [length] in Hp. rewrite decide_True by lia. by rewrite Hurl, Hid.
Qed.

Lemma exec_wf (es : list event) (st st' : state) :
  wf st -> exec st es = Ok st' -> wf st'.
Proof.
  revert st. induction es as [|[id ty t q|a] es IH]; intros st Hwf;
    cbn [exec].
  - by intros [= <-].
  - apply IH. by apply alloc_wf.
  - destruct (add_content st a) as [st1|] eqn:E; [|done]. cbn [bind].
    apply IH. by eapply add_content_wf.
Qed.

Lemma empty_wf : wf empty_state.
Proof.
  split.
  - intros key l a Hl Hin. unfold getitem in Hl. cbn in Hl.
    repeat case_match; try done; injection Hl as <-;
      by apply elem_of_nil in Hin.
  - intros p k a Hin. rewrite list_lookup_total_alt in Hin.
    by apply elem_of_nil in Hin.
  - intros p. rewrite list_lookup_total_alt. apply NoDup_nil_2.
  - intros p Hp. cbn in Hp. lia.
Qed.

Lemma reachable_wf (st : state) : reachable st -> wf st.
Proof. intros [es H]. by eapply exec_wf; [apply empty_wf|]. Qed.

(** ** Rendering *)

Lemma str_eq (depth : nat) (h : heap) (self : Content) :
  str depth h self =
  if String.eqb (content_type self) "Collection"
     || String.eqb (content_type self) "Movie"
  then Ok (title_block self)
  else if String.eqb (content_type self) "Show" then
    if (0 <? length (sub_content self))%nat then
      do seasons <- sorted (dict_keys (sub_content self));
      do lines <-
         each (fun season =>
                 match depth, dict_get (sub_content self) season with
                 | S d, Some child => str d h (h !!! child)
                 | S d, None => Raise (KeyError "")
                 | O, _ => Raise RecursionError
                 end) seasons;
      Ok (title_block self ++ nl ++ "  seasons:" ++ nl ++ "    "
               ++ join (nl ++ "    ") lines)
    else Ok (title_block self)
  else if String.eqb (content_type self) "Season" then
    Ok (str_of_season (season_number self) ++ ": " ++ "{url_poster: "
          ++ url self ++ "}")
  else Ok ("<Bad content type " ++ dquote ++ content_type self ++ dquote ++ ">").
Proof. by destruct depth. Qed.

Lemma each_ext {A B} (f g : A -> outcome B) (l : list A) :
  (forall x, x ∈ l -> f x = g x) -> each f l = each g l.
Proof.
  induction l as [|a l IH]; intros H; simpl; [done|].
  rewrite (H a) by apply list_elem_of_here.
  rewrite IH; [done|]. intros x Hx. apply H. by apply list_elem_of_further.
Qed.

Lemma each_ok {A B} (f : A -> outcome B) (g : A -> B) (l : list A) :
  (forall x, x ∈ l -> f x = Ok (g x)) -> each f l = Ok (g <$> l).
Proof.
  induction l as [|a l IH]; intros H; simpl; [done|].
  rewrite (H a) by apply list_elem_of_here. cbn [bind].
  rewrite IH; [done|]. intros x Hx. apply H. by apply list_elem_of_further.
Qed.

(** ** C2: a content type that is none of the four *)

Lemma getitem_unknown cl key :
  key <> "Collection" -> key <> "Movie" -> key <> "Show" ->
  key <> "Season" -> getitem cl key = Raise (KeyError key).
Proof.
  intros H1 H2 H3 H4. unfold getitem.
  destruct (String.eqb_spec key "Collection"); [done|].
  destruct (String.eqb_spec key "Movie"); [done|].
  destruct (String.eqb_spec key "Show"); [done|].
  by destruct (String.eqb_spec key "Season").
Qed.

(** C2, as amended: a record whose content type is none of the four known
    values has the bad-type placeholder as its text, but it cannot be added
    to the registry: [add_content] looks up the list of the record's content
    type and raises [KeyError], in the main loop as well, and the program
    ends without printing. *)
Theorem unknown_type_not_added (c : Content) :
  content_type c <> "Collection" -> content_type c <> "Movie" ->
  content_type c <> "Show" -> content_type c <> "Season" ->
  (forall depth h,
      str depth h c
      = Ok ("<Bad content type " ++ dquote ++ content_type c ++ dquote ++ ">"))
  /\ (forall st new,
        objs st !!! new = c ->
        add_content st new = Raise (KeyError (content_type c)))
  /\ (forall depth q st p ps,
        Content_init (data_poster_id p) (data_poster_type p) (poster_title p) q
        = c ->
        add_posters q st (p :: ps) = Raise (KeyError (content_type c))
        /\ main depth q (p :: ps) = ([], Some (KeyError (content_type c)))).
Proof.
  intros H1 H2 H3 H4.
  assert (forall st new, objs st !!! new = c ->
            add_content st new = Raise (KeyError (content_type c))) as Hadd.
  { intros st new Hc. unfold add_content.
    set (h2 := adopt_seasons _ _ _).
    assert (same_static h2 (objs st)) as Hs by (subst h2; eauto with static).
    to_static Hs. rewrite Hc. by rewrite getitem_unknown. }
  assert (forall q st p,
            Content_init (data_poster_id p) (data_poster_type p)
                         (poster_title p) q = c ->
            add_poster q st p = Raise (KeyError (content_type c))) as Hp.
  { intros q st p Hc. unfold add_poster. apply Hadd. cbn [objs].
    rewrite lookup_total_app_r by done. by rewrite Nat.sub_diag. }
  split; [|split; [done|]].
  - intros depth h. rewrite str_eq.
    destruct (String.eqb_spec (content_type c) "Collection"); [done|].
    destruct (String.eqb_spec (content_type c) "Movie"); [done|].
    destruct (String.eqb_spec (content_type c) "Show"); [done|].
    by destruct (String.eqb_spec (content_type c) "Season").
  - intros depth q st p ps Hc. unfold main. cbn [add_posters].
    by rewrite !Hp.
Qed.

Lemma unknown_type_not_added_witness :
  add_content (mkState [Content_init 1 "Episode" "Foo" false]
                       ContentList_init) 0
  = Raise (KeyError "Episode").
Proof.
  apply (proj1 (proj2 (unknown_type_not_added
                         (Content_init 1 "Episode" "Foo" false)
                         ltac:(discriminate) ltac:(discriminate)
                         ltac:(discriminate) ltac:(discriminate)))
           (mkState [Content_init 1 "Episode" "Foo" false] ContentList_init)
           0 eq_refl).
Defined.

(** C2 as stated fails: a poster of type "Episode" ends the program with a
    [KeyError] and nothing is printed. *)
Lemma unknown_type_raises :
  add_posters false empty_state [mkPoster 1 "Episode" "Foo"]
  = Raise (KeyError "Episode")
  /\ main 2 false [mkPoster 1 "Episode" "Foo"]
     = ([], Some (KeyError "Episode")).
Proof. by vm_compute. Qed.

(** ** C3: a season in two shows *)

(** C3 fails on the code: the loop over the seasons hands a season to a
    new show even when an earlier show already holds it.  After a show, its
    season and a second poster of the show, the season is a child of both
    shows, and it is printed under both. *)
Theorem season_in_two_shows :
  exists st,
    add_posters false empty_state
      [mkPoster 3 "Show" "Bar (2020)";
       mkPoster 4 "Show" "Bar (2020) - Season 1";
       mkPoster 5 "Show" "Bar (2020)"] = Ok st
    /\ content_type (objs st !!! 1) = "Season"
    /\ parents st 1 = [0; 2]
    /\ snd (print 2 st) = None
    /\ length (List.filter
                 (str_in "1: {url_poster: https://theposterdb.com/api/assets/4}")
                 (fst (print 2 st))) = 2.
Proof. eexists. split; [by vm_compute|]. by vm_compute. Qed.

(** ** The title line of a text *)

Lemma str_app_assoc (a b c : string) : (a ++ b) ++ c = a ++ b ++ c.
Proof. apply chars_inj. by rewrite !chars_app, app_assoc. Qed.

Lemma str_titled (depth : nat) (h : heap) (c : Content) (s : string) :
  content_type c = "Collection" \/ content_type c = "Movie"
  \/ content_type c = "Show" ->
  str depth h c = Ok s -> exists rest, s = final_title c ++ ":" ++ rest.
Proof.
  intros Hty. rewrite str_eq. unfold title_block.
  destruct Hty as [->|[->| ->]]; cbn [String.eqb Ascii.eqb Bool.eqb orb].
  - intros [= <-]. eauto.
  - intros [= <-]. eauto.
  - destruct (0 <? _)%nat; [|intros [= <-]; eauto].
    destruct (sorted _) as [seasons|]; [|done]. cbn [bind].
    destruct (each _ _) as [lines|]; [|done]. cbn [bind].
    intros [= <-]. eexists. by rewrite !str_app_assoc.
Qed.

(** ** C10: a season without a show *)

Lemma dict_get_elem {V} (d : list (option N * V)) k v :
  dict_get d k = Some v -> (k, v) ∈ d.
Proof.
  induction d as [|[k' v'] d IH]; simpl; [done|].
  destruct (decide (k' = k)) as [->|Hne].
  - intros [= ->]. apply list_elem_of_here.
  - intros H. apply list_elem_of_further. by apply IH.
Qed.

Lemma dict_get_child (c : Content) k a :
  dict_get (sub_content c) k = Some a -> a ∈ children c.
Proof.
  intros H%dict_get_elem. unfold children.
  apply list_elem_of_fmap. by exists (k, a).
Qed.

(** The text of a record does not read an object [x] that is the child of
    no show. *)
Lemma str_orphan (x : addr) (c' : Content) (h : heap) :
  (forall a, content_type (h !!! a) = "Show" -> x ∉ children (h !!! a)) ->
  forall depth c,
    (content_type c = "Show" -> x ∉ children c) ->
    str depth (<[x := c']> h) c = str depth h c.
Proof.
  intros Hh. induction depth as [|d IH]; intros c Hc; rewrite !str_eq.
  - done.
  - destruct (_ || _); [done|].
    destruct (String.eqb_spec (content_type c) "Show") as [Hty|]; [|done].
    destruct (0 <? _)%nat; [|done].
    destruct (sorted _) as [seasons|]; [|done]. cbn [bind].
    rewrite (each_ext _ (fun season =>
               match dict_get (sub_content c) season with
               | Some child => str d h (h !!! child)
               | None => Raise (KeyError "")
               end)); [done|].
    intros season _.
    destruct (dict_get (sub_content c) season) as [child|] eqn:E; [|done].
    apply dict_get_child in E.
    assert (x <> child) as Hne by (intros ->; by apply Hc).
    rewrite list_lookup_total_insert_ne by done. apply IH. apply Hh.
Qed.

Lemma print_each_orphan (x : addr) (c' : Content) (h : heap) depth l :
  (forall a, content_type (h !!! a) = "Show" -> x ∉ children (h !!! a)) ->
  x ∉ l ->
  print_each depth (<[x := c']> h) l = print_each depth h l.
Proof.
  intros Hh. induction l as [|a l IH]; intros Hx; simpl; [done|].
  apply not_elem_of_cons in Hx as [Hxa Hxl].
  rewrite list_lookup_total_insert_ne by done.
  rewrite str_orphan by auto. by rewrite IH.
Qed.

(** C10: in a registry the program can reach, a Season record that is the
    child of no Show has no part in what [print] writes: the output is the
    same with any other record in its place and any other list of
    seasons. *)
Theorem orphan_season_not_printed (depth : nat) (st : state) (season : addr)
    (c' : Content) (seasons' : list addr) :
  wf st ->
  content_type (objs st !!! season) = "Season" ->
  (forall p, content_type (objs st !!! p) = "Show" ->
             season ∉ children (objs st !!! p)) ->
  print depth
        (mkState (<[season := c']> (objs st))
                 (mkContentList (Collection (content st)) (Movie (content st))
                                (Show (content st)) seasons'))
  = print depth st.
Proof.
  intros Hwf Hty Horphan.
  assert (forall key l, getitem (content st) key = Ok l -> key <> "Season" ->
                        season ∉ l) as Hout.
  { intros key l Hl Hk Hin. apply Hk.
    by rewrite <- (wf_typed st Hwf key l season Hl Hin). }
  unfold print, items. cbn [objs content Collection Movie Show Season].
  cbn [print_groups String.eqb Ascii.eqb Bool.eqb orb].
  rewrite !orb_false_r, !orb_true_r.
  rewrite !(print_each_orphan season c' (objs st) depth); try done;
    first [by apply (Hout "Show") | by apply (Hout "Movie")
          | by apply (Hout "Collection")].
Qed.

Lemma orphan_season_not_printed_witness :
  print 2
    (mkState
       (<[1 := blank]>
          [Content_init 3 "Show" "Bar (2020)" false;
           Content_init 4 "Show" "Foo (2019) - Season 1" false])
       (mkContentList [] [] [0] []))
  = print 2
      (mkState [Content_init 3 "Show" "Bar (2020)" false;
                Content_init 4 "Show" "Foo (2019) - Season 1" false]
               (mkContentList [] [] [0] [1])).
Proof.
  apply (orphan_season_not_printed 2
           (mkState [Content_init 3 "Show" "Bar (2020)" false;
                     Content_init 4 "Show" "Foo (2019) - Season 1" false]
                    (mkContentList [] [] [0] [1])) 1 blank []).
  - apply reachable_wf.
    exists [New 3 "Show" "Bar (2020)" false; Add 0;
            New 4 "Show" "Foo (2019) - Season 1" false; Add 1].
    vm_compute. reflexivity.
  - vm_compute. reflexivity.
  - intros [|[|p]]; vm_compute; intros H; [|discriminate H|discriminate H].
    by intros ?%elem_of_nil.
Defined.

(** ** C7: the seasons of a show, in order *)

Lemma insert_sorted_perm (n : N) (l : list N) : insert_sorted n l ≡ₚ n :: l.
Proof.
  induction l as [|m l IH]; simpl; [done|].
  destruct (n <=? m)%N; [done|]. rewrite IH. apply Permutation_swap.
Qed.

Lemma sort_perm (l : list N) : sort l ≡ₚ l.
Proof.
  induction l as [|n l IH]; simpl; [done|].
  by rewrite insert_sorted_perm, IH.
Qed.

Lemma insert_sorted_ascending (n : N) (l : list N) :
  StronglySorted N.le l -> StronglySorted N.le (insert_sorted n l).
Proof.
  induction 1 as [|m l Hl IH Hm]; simpl.
  - by repeat constructor.
  - destruct (N.leb_spec n m) as [Hle|Hlt].
    + constructor; [by constructor|]. constructor; [done|].
      eapply Forall_impl; [exact Hm|]. intros x Hx. simpl in Hx. lia.
    + constructor; [done|]. rewrite insert_sorted_perm.
      constructor; [lia|done].
Qed.

Lemma sort_ascending (l : list N) : StronglySorted N.le (sort l).
Proof.
  induction l as [|n l IH]; simpl; [constructor|].
  by apply insert_sorted_ascending.
Qed.

Lemma ascending_strict (l : list N) :
  StronglySorted N.le l -> NoDup l -> StronglySorted N.lt l.
Proof.
  induction 1 as [|n l Hl IH Hn]; intros Hnd; [constructor|].
  apply NoDup_cons in Hnd as [Hnin Hnd]. constructor; [by apply IH|].
  apply Forall_forall. intros x Hx.
  rewrite Forall_forall in Hn. specialize (Hn x Hx).
  assert (n <> x) by (by intros ->). lia.
Qed.

Lemma sort_perm_eq (l1 l2 : list N) : l1 ≡ₚ l2 -> sort l1 = sort l2.
Proof.
  intros H. apply (StronglySorted_unique_strong N.le).
  - intros. lia.
  - apply sort_ascending.
  - apply sort_ascending.
  - by rewrite !sort_perm.
Qed.

Lemma keys_numbers {V} (d : list (option N * V)) :
  None ∉ d.*1 -> dict_keys d = Some <$> numbers d.
Proof.
  unfold dict_keys, numbers. induction d as [|[[n|] v] d IH]; intros H.
  - done.
  - rewrite fmap_cons in H. apply not_elem_of_cons in H as [_ H].
    cbn. f_equal. by apply IH.
  - exfalso. apply H. rewrite fmap_cons. apply list_elem_of_here.
Qed.

Lemma all_some_numbers (ns : list N) : all_some (Some <$> ns) = Some ns.
Proof. induction ns as [|n ns IH]; [done|]. cbn. by rewrite IH. Qed.

Lemma sorted_numbers (ns : list N) :
  sorted (Some <$> ns) = Ok (Some <$> sort ns).
Proof.
  destruct ns as [|n [|m ns]]; [done|done|].
  assert (sorted (Some <$> n :: m :: ns)
          = match all_some (Some <$> n :: m :: ns) with
            | Some ns' => Ok (Some <$> sort ns')
            | None => Raise TypeError
            end) as -> by reflexivity.
  by rewrite all_some_numbers.
Qed.

Lemma dict_get_nodup {V} (d : list (option N * V)) k v :
  NoDup d.*1 -> (k, v) ∈ d -> dict_get d k = Some v.
Proof.
  induction d as [|[k' v'] d IH]; intros Hd Hv.
  - by apply elem_of_nil in Hv.
  - rewrite fmap_cons in Hd. apply NoDup_cons in Hd as [Hk Hd]. simpl.
    destruct (decide (k' = k)) as [->|Hne].
    + apply elem_of_cons in Hv as [[= ->]|Hv]; [done|].
      exfalso. apply Hk. apply list_elem_of_fmap. by exists (k, v).
    + apply elem_of_cons in Hv as [[= -> ->]|Hv]; [done|]. by apply IH.
Qed.

Lemma dict_get_perm {V} (d d' : list (option N * V)) k :
  NoDup d.*1 -> d' ≡ₚ d -> dict_get d' k = dict_get d k.
Proof.
  intros Hnd Hp.
  assert (NoDup d'.*1) as Hnd' by (by rewrite Hp).
  destruct (dict_get d k) as [v|] eqn:E.
  - apply dict_get_nodup; [done|]. rewrite Hp. by apply dict_get_elem.
  - destruct (dict_get d' k) as [v'|] eqn:E'; [|done].
    apply dict_get_elem in E'. rewrite Hp in E'.
    by rewrite (dict_get_nodup d k v' Hnd E') in E.
Qed.

Lemma dict_get_some {V} (d : list (option N * V)) k v :
  (k, v) ∈ d -> is_Some (dict_get d k).
Proof.
  induction d as [|[k' v'] d IH]; [by intros ?%elem_of_nil|]. simpl.
  destruct (decide (k' = k)) as [->|Hne]; [by eauto|].
  intros [[= -> ->]|H]%elem_of_cons; [done|]. by apply IH.
Qed.

Lemma str_season (depth : nat) (h : heap) (c : Content) (n : N) :
  content_type c = "Season" -> season_number c = Some n ->
  url c = POSTER_URL (poster_id c) ->
  str depth h c = Ok (season_line n (poster_id c)).
Proof.
  intros Hty Hn Hurl. rewrite str_eq, Hty, Hn, Hurl. done.
Qed.

Lemma str_show_seasons (depth : nat) (h : heap) (c : Content) :
  content_type c = "Show" ->
  sub_content c <> [] ->
  None ∉ (sub_content c).*1 ->
  (forall k a, (k, a) ∈ sub_content c ->
               content_type (h !!! a) = "Season"
               /\ season_number (h !!! a) = k
               /\ url (h !!! a) = POSTER_URL (poster_id (h !!! a))) ->
  str (S depth) h c
  = Ok (title_block c ++ nl ++ "  seasons:" ++ nl ++ "    "
          ++ join (nl ++ "    ") (season_lines h (sub_content c))).
Proof.
  intros Hty Hne Hnone Hch. rewrite str_eq, Hty.
  cbn [String.eqb Ascii.eqb Bool.eqb orb].
  destruct (sub_content c) as [|e d] eqn:Ed; [done|]. rewrite <- Ed in *.
  replace (0 <? length (sub_content c))%nat with true
    by (by rewrite Ed).
  rewrite keys_numbers, sorted_numbers by done. cbn [bind].
  rewrite (each_ok _ (fun k => match k with
                               | Some n => child_line h (sub_content c) n
                               | None => ""
                               end)).
  - cbn [bind]. unfold season_lines. by rewrite <- list_fmap_compose.
  - intros k (n & -> & Hn)%list_elem_of_fmap.
    rewrite sort_perm in Hn. unfold numbers in Hn.
    apply list_elem_of_omap in Hn as ([k a] & Hin & Hk). simpl in Hk. subst k.
    destruct (dict_get_some _ _ _ Hin) as [a' Ha']. unfold child_line.
    rewrite Ha'. apply dict_get_elem in Ha'.
    destruct (Hch _ _ Ha') as (Hs & Hnum & Hurl). by apply str_season.
Qed.

(** C7: in a registry the program can reach, a Show whose children all have
    a season number is rendered, whatever the order in which they were
    attached, as its title and URL lines, the line "  seasons:" and one line
    per child, in strictly ascending order of the season numbers; the line
    of season n is "n: {url_poster: https://theposterdb.com/api/assets/id}"
    for the id of the child filed under n. *)
Theorem seasons_rendered_sorted (depth : nat) (st : state) (show : addr) :
  wf st ->
  content_type (objs st !!! show) = "Show" ->
  sub_content (objs st !!! show) <> [] ->
  None ∉ (sub_content (objs st !!! show)).*1 ->
  str (S depth) (objs st) (objs st !!! show)
  = Ok (title_block (objs st !!! show) ++ nl ++ "  seasons:" ++ nl ++ "    "
          ++ join (nl ++ "    ")
                  (child_line (objs st) (sub_content (objs st !!! show))
                     <$> sort (numbers (sub_content (objs st !!! show)))))
  /\ StronglySorted N.lt (sort (numbers (sub_content (objs st !!! show))))
  /\ sort (numbers (sub_content (objs st !!! show)))
     ≡ₚ numbers (sub_content (objs st !!! show))
  /\ (forall d',
        d' ≡ₚ sub_content (objs st !!! show) ->
        str (S depth) (objs st) (set_sub_content d' (objs st !!! show))
        = str (S depth) (objs st) (objs st !!! show))
  /\ (forall n id,
        season_line n id
        = str_of_N n ++ ": {url_poster: https://theposterdb.com/api/assets/"
            ++ str_of_Z id ++ "}").
Proof.
  intros Hwf Hty Hne Hnone.
  set (c := objs st !!! show) in *.
  assert (forall k a, (k, a) ∈ sub_content c ->
            content_type (objs st !!! a) = "Season"
            /\ season_number (objs st !!! a) = k
            /\ url (objs st !!! a) = POSTER_URL (poster_id (objs st !!! a)))
    as Hch.
  { intros k a Hin. destruct (wf_child st Hwf show k a Hin) as [Hsub Hn].
    destruct (is_sub_content_of_types _ _ Hsub) as [Hs _].
    destruct (sub_lt _ _ _ Hsub) as [Ha _].
    split; [done|]. split; [done|]. by apply (wf_url st Hwf). }
  pose proof (wf_keys st Hwf show) as Hnd. fold c in Hnd.
  split; [by apply str_show_seasons|]. split; [|split; [|split]].
  - apply ascending_strict; [apply sort_ascending|].
    rewrite sort_perm.
    change (NoDup (dict_keys (sub_content c))) in Hnd.
    rewrite keys_numbers in Hnd by done.
    by apply NoDup_fmap in Hnd; [|apply _].
  - apply sort_perm.
  - intros d' Hp.
    rewrite (str_show_seasons depth (objs st) (set_sub_content d' c)),
      (str_show_seasons depth (objs st) c); try done.
    + unfold season_lines. cbn [sub_content set_sub_content].
      do 7 f_equal.
      rewrite (sort_perm_eq (numbers d') (numbers (sub_content c)))
        by (unfold numbers; by rewrite Hp).
      apply list_fmap_ext. intros i n _. unfold child_line.
      by rewrite (dict_get_perm (sub_content c) d').
    + cbn. intros ->. by apply Permutation_nil in Hp.
    + cbn. by rewrite Hp.
    + cbn. intros k a Hin. rewrite Hp in Hin. by apply Hch.
  - intros n id. unfold season_line, POSTER_URL.
    by rewrite !str_app_assoc.
Qed.

Lemma seasons_rendered_sorted_witness :
  dict_keys (sub_content (objs bar_three_seasons !!! 0))
  = [Some 2%N; Some 0%N; Some 1%N]
  /\ str 1 (objs bar_three_seasons) (objs bar_three_seasons !!! 0)
     = Ok ("Bar:" ++ nl
           ++ "  url_poster: https://theposterdb.com/api/assets/3" ++ nl
           ++ "  seasons:" ++ nl
           ++ "    0: {url_poster: https://theposterdb.com/api/assets/6}" ++ nl
           ++ "    1: {url_poster: https://theposterdb.com/api/assets/7}" ++ nl
           ++ "    2: {url_poster: https://theposterdb.com/api/assets/4}").
Proof.
  split; [reflexivity|].
  refine (proj1 (seasons_rendered_sorted 0 bar_three_seasons 0 _ _ _ _)).
  - apply reachable_wf.
    exists [New 3 "Show" "Bar (2020)" false; Add 0;
            New 4 "Show" "Bar (2020) - Season 2" false; Add 1;
            New 6 "Show" "Bar (2020) - Season 0" false; Add 2;
            New 7 "Show" "Bar (2020) - Season 1" false; Add 3].
    vm_compute. reflexivity.
  - reflexivity.
  - discriminate.
  - change (None ∉ [Some 2%N; Some 0%N; Some 1%N]).
    rewrite !not_elem_of_cons.
    repeat split; try discriminate. apply not_elem_of_nil.
Defined.

(** ** C9: one season per number *)

Lemma str_leaf (depth : nat) (h h' : heap) (c : Content) :
  content_type c <> "Show" -> str depth h' c = str depth h c.
Proof.
  intros Hty. rewrite !str_eq. destruct (_ || _); [done|].
  by destruct (String.eqb_spec (content_type c) "Show").
Qed.

(** The text of a show reads the store at its children only. *)
Lemma str_local (depth : nat) (h h' : heap) (c : Content) :
  (forall a, a ∈ children c ->
             h' !!! a = h !!! a /\ content_type (h !!! a) <> "Show") ->
  str depth h' c = str depth h c.
Proof.
  intros Hch. rewrite !str_eq. destruct (_ || _); [done|].
  destruct (String.eqb (content_type c) "Show"); [|done].
  destruct (0 <? _)%nat; [|done].
  destruct (sorted _) as [seasons|]; [|done]. cbn [bind].
  rewrite (each_ext _ (fun season =>
             match depth, dict_get (sub_content c) season with
             | S d, Some child => str d h (h !!! child)
             | S d, None => Raise (KeyError "")
             | O, _ => Raise RecursionError
             end)); [done|].
  intros season _. destruct depth as [|d]; [done|].
  destruct (dict_get (sub_content c) season) as [child|] eqn:E; [|done].
  apply dict_get_child in E. destruct (Hch _ E) as [-> Hty].
  by apply str_leaf.
Qed.

(** C9: in a registry the program can reach, when a show holds the season
    [s1] and [add_sub_content] attaches another season [s2] with the same
    number, the show's dict has the same keys as before, each once, with
    [s2] under that number; [s1] is no longer among the children, and the
    text of the show no longer depends on the record [s1]. *)
Theorem later_season_replaces (depth : nat) (st : state)
    (show s1 s2 : addr) :
  wf st ->
  dict_get (sub_content (objs st !!! show)) (season_number (objs st !!! s1))
  = Some s1 ->
  content_type (objs st !!! s2) = "Season" ->
  season_number (objs st !!! s2) = season_number (objs st !!! s1) ->
  s2 <> s1 ->
  dict_get (sub_content (add_sub_content (objs st) show s2 !!! show))
           (season_number (objs st !!! s1)) = Some s2
  /\ dict_keys (sub_content (add_sub_content (objs st) show s2 !!! show))
     = dict_keys (sub_content (objs st !!! show))
  /\ NoDup (dict_keys
              (sub_content (add_sub_content (objs st) show s2 !!! show)))
  /\ (s1 ∉ children (add_sub_content (objs st) show s2 !!! show))
  /\ (forall c1,
        str depth (<[s1 := c1]> (add_sub_content (objs st) show s2))
            (add_sub_content (objs st) show s2 !!! show)
        = str depth (add_sub_content (objs st) show s2)
              (add_sub_content (objs st) show s2 !!! show)).
Proof.
  intros Hwf Hget Hty Hnum Hne.
  pose proof (wf_keys st Hwf show) as Hnd.
  pose proof (dict_get_elem _ _ _ Hget) as Hin1.
  assert (show < length (objs st)) as Hlt.
  { destruct (wf_child st Hwf show _ _ Hin1) as [Hsub _].
    by destruct (sub_lt _ _ _ Hsub). }
  assert (sub_content (add_sub_content (objs st) show s2 !!! show)
          = dict_set (sub_content (objs st !!! show))
                     (season_number (objs st !!! s1)) s2) as Esub.
  { unfold add_sub_content. rewrite list_lookup_total_alter_eq by done.
    by rewrite Hnum. }
  assert (s1 ∉ children (add_sub_content (objs st) show s2 !!! show)) as Hout.
  { unfold children. rewrite Esub.
    intros ([k a] & Hs1 & Hin)%list_elem_of_fmap. cbn [snd] in Hs1.
    subst a.
    assert (k = season_number (objs st !!! s1)) as ->.
    { apply dict_set_elem in Hin as [Hin|[= -> E]]; [|done].
      by destruct (wf_child st Hwf show _ _ Hin) as [_ <-]. }
    apply dict_get_nodup in Hin; [|by apply dict_set_nodup].
    rewrite dict_get_set in Hin. by injection Hin as ->. }
  rewrite Esub in *. split; [apply dict_get_set|]. split; [|split; [|split]].
  - unfold dict_keys. rewrite dict_set_keys, decide_True; [done|].
    apply list_elem_of_fmap.
    by exists (season_number (objs st !!! s1), s1).
  - by apply dict_set_nodup.
  - done.
  - intros c1. apply str_local. intros a Ha.
    assert (a <> s1) as Hna by (by intros ->).
    rewrite list_lookup_total_insert_ne by done. split; [done|].
    unfold children in Ha. rewrite Esub in Ha.
    apply list_elem_of_fmap in Ha as ([k a'] & -> & Hin). cbn [snd].
    pose proof (add_sub_content_static (objs st) show s2) as Hs.
    to_static Hs.
    apply dict_set_elem in Hin as [Hin|[= -> ->]]; [|by rewrite Hty].
    destruct (wf_child st Hwf show _ _ Hin) as [Hsub _].
    by destruct (is_sub_content_of_types _ _ Hsub) as [-> _].
Qed.

Lemma later_season_replaces_witness :
  dict_get (sub_content (add_sub_content (objs bar_season_twice) 0 2 !!! 0))
           (Some 1%N) = Some 2
  /\ (1 ∉ children (add_sub_content (objs bar_season_twice) 0 2 !!! 0)).
Proof.
  destruct (later_season_replaces 2 bar_season_twice 0 1 2)
    as (H1 & _ & _ & H2 & _).
  - apply reachable_wf.
    exists [New 3 "Show" "Bar (2020)" false; Add 0;
            New 4 "Show" "Bar (2020) - Season 1" false; Add 1;
            New 5 "Show" "Bar (2020) - Season 1" false].
    vm_compute. reflexivity.
  - reflexivity.
  - reflexivity.
  - reflexivity.
  - lia.
  - split; [exact H1|exact H2].
Defined.

(** The same through the main loop: only the later poster of season 1 is
    printed under the show. *)
Lemma duplicate_season_printed_once :
  main 2 false [mkPoster 3 "Show" "Bar (2020)";
                mkPoster 4 "Show" "Bar (2020) - Season 1";
                mkPoster 5 "Show" "Bar (2020) - Season 1"]
  = ([divider ++ nl ++ "# Shows";
      "Bar:" ++ nl
      ++ "  url_poster: https://theposterdb.com/api/assets/3" ++ nl
      ++ "  seasons:" ++ nl
      ++ "    1: {url_poster: https://theposterdb.com/api/assets/5}"],
     None).
Proof. by vm_compute. Qed.

(** ** The main loop is a run *)

Lemma add_posters_exec (always_quote : bool) (ps : list poster) (st : state) :
  add_posters always_quote st ps
  = exec st (events_of always_quote (length (objs st)) ps).
Proof.
  revert st. induction ps as [|p ps IH]; intros st; [done|].
  cbn [add_posters events_of exec]. unfold add_poster, alloc.
  destruct (add_content _ _) as [st'|] eqn:E; [|done]. cbn [bind].
  rewrite IH. apply add_content_static, same_static_length in E.
  cbn [objs] in E. rewrite length_app in E. cbn [length] in E.
  by replace (length (objs st')) with (S (length (objs st))) by lia.
Qed.

Lemma add_posters_reachable (always_quote : bool) (ps : list poster)
    (st : state) :
  add_posters always_quote empty_state ps = Ok st -> reachable st.
Proof. rewrite add_posters_exec. intros H. by eexists. Qed.

(** ** Season numbers under the input contract *)

Lemma Content_init_numbered id ty t q :
  ty <> "Season" ->
  content_type (Content_init id ty t q) = "Season" ->
  is_Some (season_number (Content_init id ty t q)).
Proof.
  intros Hty. pose proof (Content_init_season id ty t q) as E.
  destruct (Re.match_ SEASON_REGEX t); injection E as -> ->; [|done].
  intros _. by case_decide.
Qed.

Lemma exec_numbered (es : list event) (st st' : state) :
  declared_ok es -> numbered (objs st) -> exec st es = Ok st' ->
  numbered (objs st').
Proof.
  revert st. induction es as [|[id ty t q|a] es IH]; intros st Hd Hn;
    cbn [exec].
  - by intros [= <-].
  - apply IH.
    + intros id' ty' t' q' Hin. eapply Hd. by apply list_elem_of_further.
    + intros a. rewrite lookup_total_alloc.
      repeat case_decide; [apply Hn| |done].
      apply Content_init_numbered. eapply Hd. apply list_elem_of_here.
  - destruct (add_content st a) as [st1|] eqn:E; [|done]. cbn [bind].
    apply IH.
    + intros id' ty' t' q' Hin. eapply Hd. by apply list_elem_of_further.
    + pose proof (add_content_static _ _ _ E) as Hs. intros b.
      to_static Hs. apply Hn.
Qed.

Lemma keys_numbered_wf (st : state) (p : addr) :
  wf st -> numbered (objs st) -> None ∉ (sub_content (objs st !!! p)).*1.
Proof.
  intros Hwf Hn ([k a] & Hk & Hin)%list_elem_of_fmap. cbn [fst] in Hk.
  subst k. destruct (wf_child st Hwf p _ _ Hin) as [Hsub Hnum].
  destruct (is_sub_content_of_types _ _ Hsub) as [Hs _].
  destruct (Hn a Hs) as [n Hsome]. congruence.
Qed.

Lemma declared_ok_events_of (q : bool) (next : addr) (ps : list poster) :
  (forall p, p ∈ ps -> data_poster_type p <> "Season") ->
  declared_ok (events_of q next ps).
Proof.
  revert next. induction ps as [|p ps IH]; intros next Hps id ty t q' Hin.
  - by apply elem_of_nil in Hin.
  - cbn [events_of] in Hin.
    apply elem_of_cons in Hin as [[= -> -> -> ->]|Hin].
    + apply Hps, list_elem_of_here.
    + apply elem_of_cons in Hin as [?|Hin]; [done|].
      eapply IH; [|exact Hin]. intros p' Hp'. apply Hps.
      by apply list_elem_of_further.
Qed.

(** After the main loop on posters declared Collection, Show or Movie (or
    anything but Season), every child of every record has a season number:
    no dict of children has the key [None]. *)
Lemma main_keys_numbered (q : bool) (ps : list poster) (st : state)
    (p : addr) :
  (forall p, p ∈ ps -> data_poster_type p <> "Season") ->
  add_posters q empty_state ps = Ok st ->
  wf st /\ None ∉ (sub_content (objs st !!! p)).*1.
Proof.
  intros Hps Hrun. pose proof (add_posters_reachable _ _ _ Hrun) as Hr.
  apply reachable_wf in Hr. split; [done|]. apply keys_numbered_wf; [done|].
  rewrite add_posters_exec in Hrun.
  eapply exec_numbered; [by apply declared_ok_events_of| |exact Hrun].
  intros a. by rewrite list_lookup_total_alt.
Qed.

(** ** When [__str__] returns a text *)

Lemma all_some_none (l : list (option N)) : None ∈ l -> all_some l = None.
Proof.
  induction l as [|[n|] l IH]; [by intros ?%elem_of_nil| |done].
  intros [?|H]%elem_of_cons; [done|]. cbn. by rewrite IH.
Qed.

Lemma str_type_error (depth : nat) (h : heap) (c : Content) :
  content_type c = "Show" ->
  None ∈ dict_keys (sub_content c) -> 2 <= length (sub_content c) ->
  str depth h c = Raise TypeError.
Proof.
  intros Hty Hnone Hlen. rewrite str_eq, Hty.
  cbn [String.eqb Ascii.eqb Bool.eqb orb].
  replace (0 <? length (sub_content c))%nat with true
    by (symmetry; apply Nat.ltb_lt; lia).
  unfold dict_keys in *.
  destruct (sub_content c) as [|e1 [|e2 d]]; [cbn in Hlen; lia..|].
  rewrite !fmap_cons in *.
  assert (sorted (e1.1 :: e2.1 :: d.*1)
          = match all_some (e1.1 :: e2.1 :: d.*1) with
            | Some ns' => Ok (Some <$> sort ns')
            | None => Raise TypeError
            end) as -> by reflexivity.
  by rewrite all_some_none.
Qed.

Lemma str_one_child (depth : nat) (h : heap) (c : Content) k a :
  content_type c = "Show" -> sub_content c = [(k, a)] ->
  content_type (h !!! a) = "Season" ->
  exists s, str (S depth) h c = Ok s.
Proof.
  intros Hty Hd Ha. rewrite str_eq, Hty, Hd.
  cbn [String.eqb Ascii.eqb Bool.eqb orb length Nat.ltb Nat.leb dict_keys
       fmap list_fmap fst sorted bind each dict_get].
  rewrite decide_True by done. rewrite (str_eq depth h (h !!! a)), Ha.
  cbn [String.eqb Ascii.eqb Bool.eqb orb bind]. by eexists.
Qed.

(** [__str__] on a record of a well-formed registry. *)
Lemma str_wf (depth : nat) (st : state) (a : addr) :
  wf st ->
  ~ (content_type (objs st !!! a) = "Show"
     /\ None ∈ dict_keys (sub_content (objs st !!! a))
     /\ 2 <= length (sub_content (objs st !!! a))) ->
  exists s, str (S depth) (objs st) (objs st !!! a) = Ok s.
Proof.
  intros Hwf Hno. set (c := objs st !!! a) in *.
  destruct (decide (content_type c = "Show")) as [Hty|Hty].
  - assert (forall k b, (k, b) ∈ sub_content c ->
              content_type (objs st !!! b) = "Season"
              /\ season_number (objs st !!! b) = k
              /\ url (objs st !!! b) = POSTER_URL (poster_id (objs st !!! b)))
      as Hch.
    { intros k b Hin. destruct (wf_child st Hwf a k b Hin) as [Hsub Hn].
      destruct (is_sub_content_of_types _ _ Hsub) as [Hs _].
      destruct (sub_lt _ _ _ Hsub) as [Hb _].
      split; [done|]. split; [done|]. by apply (wf_url st Hwf). }
    destruct (decide (None ∈ dict_keys (sub_content c))) as [Hnone|Hnone].
    + destruct (sub_content c) as [|[k b] [|e2 d]] eqn:Ed.
      * rewrite str_eq, Hty, Ed. by eexists.
      * apply (str_one_child depth _ c k b); [done..|].
        apply (Hch k b), list_elem_of_here.
      * exfalso. apply Hno. cbn [length]. split; [done|]. split; [done|lia].
    + destruct (sub_content c) as [|e d] eqn:Ed.
      * rewrite str_eq, Hty, Ed. by eexists.
      * rewrite <- Ed in *. eexists. apply str_show_seasons; try done.
        by rewrite Ed.
  - rewrite str_eq.
    destruct (String.eqb_spec (content_type c) "Show"); [done|].
    repeat case_match; by eexists.
Qed.

(** ** C8: quoting *)

(** C8: a record built from a raw title that holds ": " has [must_quote]
    set whatever the always-quote flag is, and no run of the program
    changes [must_quote] of a record in the store; at any later moment
    (whatever [use_year] and [sub_content] have become) its final title is
    the raw or the yearless title between double quotes.  The text of such
    a Collection or Movie is that quoted title, a colon and the URL line.
    In a registry the program can reach, [__str__] returns for such a Show
    a text that begins with the quoted title and a colon, unless the show
    holds two or more children, one of them without a season number, where
    it raises [TypeError] and gives no text at all.  After the main loop
    on posters none of which is declared a Season, [__str__] returns for
    every such Collection, Movie or Show a text that begins with the
    quoted title and a colon. *)
Theorem colon_title_quoted (id : Z) (ty t : string) (q : bool) (c : Content) :
  str_in ": " t = true ->
  static c = static (Content_init id ty t q) ->
  must_quote c = true
  /\ final_title c
     = dquote ++ (if use_year c then t else yearless_title c) ++ dquote
  /\ (forall depth h,
        content_type c = "Collection" \/ content_type c = "Movie" ->
        str depth h c = Ok (title_block c))
  /\ (forall depth st a,
        reachable st -> objs st !!! a = c -> content_type c = "Show" ->
        (exists rest,
           str (S depth) (objs st) c
           = Ok (dquote ++ (if use_year c then t else yearless_title c)
                   ++ dquote ++ ":" ++ rest))
        \/ (None ∈ dict_keys (sub_content c)
            /\ 2 <= length (sub_content c)
            /\ str (S depth) (objs st) c = Raise TypeError))
  /\ (forall depth q' ps st a,
        (forall p, p ∈ ps -> data_poster_type p <> "Season") ->
        add_posters q' empty_state ps = Ok st ->
        objs st !!! a = c ->
        content_type c = "Collection" \/ content_type c = "Movie"
        \/ content_type c = "Show" ->
        exists rest,
          str (S depth) (objs st) c
          = Ok (dquote ++ (if use_year c then t else yearless_title c)
                  ++ dquote ++ ":" ++ rest))
  /\ (forall es st st' a,
        exec st es = Ok st' -> a < length (objs st) ->
        must_quote (objs st' !!! a) = must_quote (objs st !!! a)).
Proof.
  intros Hin Hst.
  destruct (Content_init_fields id ty t q) as (_ & Ht & _ & _ & Hq & _).
  assert (must_quote c = true) as Hmq.
  { rewrite must_quote_static, Hst, <- must_quote_static, Hq, Hin.
    apply orb_true_r. }
  assert (title c = t) as Htc
    by (by rewrite title_static, Hst, <- title_static).
  assert (final_title c
          = dquote ++ (if use_year c then t else yearless_title c) ++ dquote)
    as Hft by (unfold final_title; by rewrite Hmq, Htc).
  assert (forall depth h s,
            content_type c = "Collection" \/ content_type c = "Movie"
            \/ content_type c = "Show" ->
            str depth h c = Ok s ->
            exists rest,
              str depth h c
              = Ok (dquote ++ (if use_year c then t else yearless_title c)
                      ++ dquote ++ ":" ++ rest)) as Hquoted.
  { intros depth h s Hty Hs.
    destruct (str_titled depth h c s Hty Hs) as [rest ->].
    exists rest. by rewrite Hs, Hft, !str_app_assoc. }
  split; [done|]. split; [done|]. split; [|split; [|split]].
  - intros depth h Hty. rewrite str_eq.
    by destruct Hty as [->| ->].
  - intros depth st a Hr Ha Hty. apply reachable_wf in Hr.
    destruct (decide (None ∈ dict_keys (sub_content c)
                      /\ 2 <= length (sub_content c))) as [[Hnone Hlen]|Hno].
    + right. split; [done|]. split; [done|]. by apply str_type_error.
    + left. destruct (str_wf depth st a Hr) as [s Hs].
      { rewrite Ha. intros (_ & Hnone & Hlen). by apply Hno. }
      rewrite Ha in Hs. apply (Hquoted _ _ s); [by right; right|done].
  - intros depth q' ps st a Hps Hrun Ha Hty.
    destruct (main_keys_numbered q' ps st a Hps Hrun) as [Hwf Hn].
    destruct (str_wf depth st a Hwf) as [s Hs].
    { by intros (_ & Hnone & _). }
    rewrite Ha in Hs. by apply (Hquoted _ _ s).
  - intros es st st' a Hrun Ha.
    destruct (exec_inv _ _ _ Hrun) as (_ & Hs & _).
    by rewrite must_quote_static, Hs, <- must_quote_static.
Qed.

Lemma colon_title_quoted_witness :
  final_title (Content_init 7 "Movie" "Alien: Covenant (2017)" false)
  = dquote ++ "Alien: Covenant" ++ dquote
  /\ exists st,
       add_posters false empty_state
         [mkPoster 3 "Show" "Bar: Baz (2020)";
          mkPoster 4 "Show" "Bar: Baz (2020) - Season 1"] = Ok st
       /\ exists rest,
            str 1 (objs st) (objs st !!! 0)
            = Ok (dquote ++ "Bar: Baz" ++ dquote ++ ":" ++ rest).
Proof.
  split.
  - apply (proj1 (proj2 (colon_title_quoted 7 "Movie"
                           "Alien: Covenant (2017)" false _ eq_refl eq_refl))).
  - eexists. split; [vm_compute; reflexivity|].
    refine (proj1 (proj2 (proj2 (proj2 (proj2
              (colon_title_quoted 3 "Show" "Bar: Baz (2020)" false _
                 eq_refl _)))))
              0 false
              [mkPoster 3 "Show" "Bar: Baz (2020)";
               mkPoster 4 "Show" "Bar: Baz (2020) - Season 1"] _ 0 _ _
              eq_refl _).
    + vm_compute. reflexivity.
    + intros p Hp. rewrite !elem_of_cons in Hp.
      destruct Hp as [->|[->|Hp]]; [done..|]. by apply elem_of_nil in Hp.
    + vm_compute. reflexivity.
    + right. right. reflexivity.
Defined.

(** * Further properties of the code *)

(** ** The test [needle in hay] *)

Lemma starts_with_iff (p s : list ascii) :
  starts_with p s = true <-> exists post, s = (p ++ post)%list.
Proof.
  rewrite starts_with_is_strip. split.
  - destruct (Re.strip p s) as [post|] eqn:E; [|done].
    intros _. exists post. by apply strip_sound.
  - intros [post ->]. by rewrite strip_app.
Qed.

Lemma occurs_in_iff (p s : list ascii) :
  occurs_in p s = true <-> exists pre post, s = (pre ++ p ++ post)%list.
Proof.
  induction s as [|a s IH]; cbn [occurs_in].
  - destruct (starts_with p []) eqn:E.
    + apply starts_with_iff in E as [post E]. split; [|done].
      intros _. by exists [], post.
    + split; [done|]. intros (pre & post & H).
      destruct pre; [|done]. cbn in H.
      assert (starts_with p [] = true) as E'
        by (apply starts_with_iff; by exists post).
      congruence.
  - destruct (starts_with p (a :: s)) eqn:E.
    + apply starts_with_iff in E as [post E]. split; [|done].
      intros _. by exists [], post.
    + rewrite IH. split.
      * intros (pre & post & ->). by exists (a :: pre), post.
      * intros (pre & post & H). destruct pre as [|b pre].
        -- cbn in H.
           assert (starts_with p (a :: s) = true) as E'
             by (apply starts_with_iff; by exists post).
           congruence.
        -- injection H as _ ->. by exists pre, post.
Qed.

Lemma str_in_iff (needle hay : string) :
  str_in needle hay = true <-> exists pre post, hay = pre ++ needle ++ post.
Proof.
  unfold str_in. rewrite occurs_in_iff. split.
  - intros (pre & post & H). exists (text pre), (text post).
    apply chars_inj. by rewrite H, !chars_app, !chars_text.
  - intros (pre & post & ->). exists (chars pre), (chars post).
    by rewrite !chars_app.
Qed.

(** X1: a record must be quoted exactly when the caller asked for quotes or
    its raw title has the text ": " somewhere inside. *)
Theorem must_quote_iff (id : Z) (ty t : string) (q : bool) :
  must_quote (Content_init id ty t q) = true
  <-> q = true \/ exists pre post, t = pre ++ ": " ++ post.
Proof.
  destruct (Content_init_fields id ty t q) as (_ & _ & _ & _ & -> & _).
  rewrite orb_true_iff. by rewrite str_in_iff.
Qed.

(** X2: [is_sub_content_of] holds exactly between a Season and a Show with
    the same yearless title when the title of the show occurs, as it is, in
    the title of the season. *)
Theorem is_sub_content_of_iff (self content : Content) :
  is_sub_content_of self content = true
  <-> content_type self = "Season" /\ content_type content = "Show"
      /\ yearless_title content = yearless_title self
      /\ exists pre post, title self = pre ++ title content ++ post.
Proof.
  unfold is_sub_content_of.
  destruct (String.eqb_spec (content_type self) "Season") as [Hs|Hs];
    [|split; [done|by intros [? _]]].
  destruct (String.eqb_spec (content_type content) "Show") as [Hw|Hw];
    [|split; [done|by intros (_ & ? & _)]].
  cbn [negb orb]. rewrite andb_true_iff, String.eqb_eq, str_in_iff.
  by intuition.
Qed.

(** ** The constructor *)

(** X3: when [SEASON_REGEX] matches, either group 2 is "Specials" and group
    1 took no part, or group 2 took no part and group 1 is a non-empty run
    of digits: [int] is never handed anything else, and [__init__] raises on
    no title. *)
Theorem season_match_groups (t : string) (m : Re.Match) :
  Re.match_ SEASON_REGEX t = Some m ->
  (Re.group m 2 = Some "Specials" /\ Re.group m 1 = None)
  \/ (Re.group m 2 = None
      /\ exists D, Re.group m 1 = Some D /\ digits D = true).
Proof.
  intros H. apply season_match_sound in H
    as (X & e & _ & _ & [(D & HD0 & HD & _ & ->)|[_ ->]]).
  - right. split; [done|]. exists (text D). split; [done|].
    unfold digits. rewrite chars_text. by destruct D.
  - by left.
Qed.

Lemma season_match_groups_witness :
  exists m, Re.match_ SEASON_REGEX "Bar (2020) - Season 12" = Some m
            /\ Re.group m 2 = None /\ Re.group m 1 = Some "12".
Proof.
  exists [(1, chars "12")]. split; [reflexivity|].
  destruct (season_match_groups "Bar (2020) - Season 12" [(1, chars "12")]
              eq_refl) as [[H _]|[H2 _]].
  - discriminate H.
  - split; [exact H2|reflexivity].
Defined.

Lemma Content_init_number_season id ty t q :
  is_Some (season_number (Content_init id ty t q)) ->
  content_type (Content_init id ty t q) = "Season".
Proof.
  pose proof (Content_init_season id ty t q) as E.
  destruct (Re.match_ SEASON_REGEX t); injection E as -> ->; [done|].
  by intros [? ?].
Qed.

Lemma exec_number_season (es : list event) (st st' : state) :
  (forall a, is_Some (season_number (objs st !!! a)) ->
             content_type (objs st !!! a) = "Season") ->
  exec st es = Ok st' ->
  forall a, is_Some (season_number (objs st' !!! a)) ->
            content_type (objs st' !!! a) = "Season".
Proof.
  revert st. induction es as [|[id ty t q|b] es IH]; intros st Hn;
    cbn [exec].
  - by intros [= <-].
  - apply IH. intros a. rewrite lookup_total_alloc.
    repeat case_decide; [apply Hn|apply Content_init_number_season|].
    by intros [? ?].
  - destruct (add_content st b) as [st1|] eqn:E; [|done]. cbn [bind].
    apply IH. pose proof (add_content_static _ _ _ E) as Hs. intros a.
    to_static Hs. apply Hn.
Qed.

(** X4: after the main loop on posters none of which is declared "Season",
    a record of the store has a season number exactly when its content type
    is Season. *)
Theorem season_number_iff_season (q : bool) (ps : list poster) (st : state)
    (a : addr) :
  (forall p, p ∈ ps -> data_poster_type p <> "Season") ->
  add_posters q empty_state ps = Ok st ->
  is_Some (season_number (objs st !!! a))
  <-> content_type (objs st !!! a) = "Season".
Proof.
  intros Hps Hrun. rewrite add_posters_exec in Hrun. split.
  - eapply exec_number_season; [|exact Hrun].
    intros b. rewrite list_lookup_total_alt. by intros [? ?].
  - eapply exec_numbered; [by apply declared_ok_events_of| |exact Hrun].
    intros b. by rewrite list_lookup_total_alt.
Qed.

Lemma season_number_iff_season_witness :
  exists st,
    add_posters false empty_state
      [mkPoster 3 "Show" "Bar (2020)";
       mkPoster 4 "Show" "Bar (2020) - Season 1"] = Ok st
    /\ (is_Some (season_number (objs st !!! 1))
        <-> content_type (objs st !!! 1) = "Season")
    /\ (is_Some (season_number (objs st !!! 0))
        <-> content_type (objs st !!! 0) = "Season").
Proof.
  eexists. split; [vm_compute; reflexivity|].
  split; eapply (season_number_iff_season false
                   [mkPoster 3 "Show" "Bar (2020)";
                    mkPoster 4 "Show" "Bar (2020) - Season 1"]);
    try (vm_compute; reflexivity);
    intros p [->|[->|H%elem_of_nil]%elem_of_cons]%elem_of_cons;
    try done; discriminate.
Defined.

(** ** A show and the titles of its seasons *)

Lemma last_forallb {A} (f : A -> bool) (l : list A) :
  l <> [] -> forallb f l = true -> exists c, last l = Some c /\ f c = true.
Proof.
  induction l as [|a [|b l] IH]; intros Hl Hf; [done| |].
  - exists a. apply andb_prop in Hf as [Ha _]. by split.
  - apply andb_prop in Hf as [_ Hf]. rewrite last_cons_cons. by apply IH.
Qed.

Lemma last_digits_list (D : list ascii) (e : list ascii) :
  D <> [] -> forallb is_digit D = true ->
  e = [] \/ e = ["010"%char] ->
  exists c, last (D ++ e) = Some c /\ (is_digit c = true \/ c = "010"%char).
Proof.
  intros HD0 HD [->| ->].
  - rewrite app_nil_r. destruct (last_forallb _ D HD0 HD) as (c & Hc & Hd).
    exists c. by split; [|left].
  - rewrite last_snoc. eexists. split; [done|by right].
Qed.

Lemma season_no_match_paren (X : string) :
  Re.match_ SEASON_REGEX (X ++ ")") = None.
Proof.
  destruct (Re.match_ SEASON_REGEX (X ++ ")")) as [m|] eqn:E; [|done].
  exfalso. apply season_match_sound in E
    as (P & e & _ & He & [(D & HD0 & HD & Hc & _)|[Hc _]]);
    apply (f_equal last) in Hc; rewrite chars_app in Hc;
    change (chars ")") with [")"%char] in Hc; rewrite last_snoc in Hc.
  - destruct (last_digits_list D e HD0 HD He) as (c & Hl & Hcase).
    do 2 rewrite last_app in Hc. rewrite Hl in Hc. injection Hc as <-.
    by destruct Hcase as [Hd|Hd]; vm_compute in Hd.
  - rewrite last_app in Hc. destruct He as [->| ->]; by vm_compute in Hc.
Qed.

Lemma digits_single_line (D : string) :
  digits D = true -> single_line D = true.
Proof.
  unfold digits, single_line. destruct (chars D) as [|d l]; [done|].
  generalize (d :: l). clear. intros l. induction l as [|a l IH]; [done|].
  cbn. intros [Ha Hl]%andb_prop. rewrite IH by done.
  by destruct (Ascii.eqb_spec a "010"%char) as [->|].
Qed.

Lemma year_title_paren (X D : string) :
  X ++ " (" ++ D ++ ")" = (X ++ " (" ++ D) ++ ")".
Proof. by rewrite !str_app_assoc. Qed.

(** X5: the record of a poster "X (D) - Season N" (X without line feed, D
    and N runs of digits) is a sub content of the record of a poster
    "X (D)" declared a Show, whatever the ids, the quoting flags and the
    type declared for the season poster. *)
Theorem season_of_show_linked (id1 id2 : Z) (ty X D N : string)
    (q1 q2 : bool) :
  single_line X = true -> digits D = true -> digits N = true ->
  is_sub_content_of
    (Content_init id2 ty (X ++ " (" ++ D ++ ") - Season " ++ N) q2)
    (Content_init id1 "Show" (X ++ " (" ++ D ++ ")") q1) = true.
Proof.
  intros HX HD HN. unfold is_sub_content_of.
  rewrite !Content_init_yearless.
  destruct (yearless_match_year X D HX HD) as (m1 & -> & ->).
  destruct (yearless_match_season X D N HX HD HN) as (m2 & -> & ->).
  cbn [default]. rewrite String.eqb_refl.
  destruct (Content_init_fields id1 "Show" (X ++ " (" ++ D ++ ")") q1)
    as (_ & -> & _).
  destruct (Content_init_fields id2 ty (X ++ " (" ++ D ++ ") - Season " ++ N)
              q2) as (_ & -> & _).
  pose proof (Content_init_season id1 "Show" (X ++ " (" ++ D ++ ")") q1) as E1.
  rewrite year_title_paren, season_no_match_paren in E1.
  rewrite <- year_title_paren in E1. injection E1 as -> _.
  pose proof (Content_init_season id2 ty
                (X ++ " (" ++ D ++ ") - Season " ++ N) q2) as E2.
  assert (X ++ " (" ++ D ++ ") - Season " ++ N
          = (X ++ " (" ++ D ++ ")") ++ " - Season " ++ N) as Et
    by (by rewrite !str_app_assoc).
  assert (single_line (X ++ " (" ++ D ++ ")") = true) as HXD.
  { by rewrite !single_line_app, HX, (digits_single_line D HD). }
  rewrite Et in E2 |- *. rewrite (season_match_numbered _ N HXD HN) in E2.
  injection E2 as -> _. cbn [String.eqb Ascii.eqb Bool.eqb negb orb andb].
  apply str_in_iff. by exists "", (" - Season " ++ N).
Qed.

Lemma season_of_show_linked_witness :
  is_sub_content_of
    (Content_init 4 "Show" "Bar (2020) - Season 1" false)
    (Content_init 3 "Show" "Bar (2020)" false) = true.
Proof.
  apply (season_of_show_linked 3 4 "Show" "Bar" "2020" "1" false false);
    reflexivity.
Defined.

Lemma digits_then_paren (D1 D2 r1 r2 : list ascii) :
  forallb is_digit D1 = true -> forallb is_digit D2 = true ->
  (D1 ++ ")"%char :: r1)%list = (D2 ++ ")"%char :: r2)%list ->
  r1 = r2.
Proof.
  revert D2. induction D1 as [|a D1 IH]; intros [|b D2] H1 H2 E; cbn in *.
  - by injection E.
  - injection E as <- _. apply andb_prop in H2 as [H2 _]. by vm_compute in H2.
  - injection E as -> _. apply andb_prop in H1 as [H1 _]. by vm_compute in H1.
  - injection E as _ E. apply andb_prop in H1 as [_ H1].
    apply andb_prop in H2 as [_ H2]. by eapply IH.
Qed.

(** X6: the record of a poster "X (D) - Specials" is a Season numbered 0,
    but its yearless title is never X, so that it is not a sub content of
    the record of the poster "X (D)" of its show: the year pattern has the
    alternative "Specials", not " - Specials". *)
Theorem specials_not_linked (id1 id2 : Z) (ty1 ty2 X D : string)
    (q1 q2 : bool) :
  single_line X = true -> digits D = true ->
  content_type (Content_init id2 ty2 (X ++ " (" ++ D ++ ") - Specials") q2)
  = "Season"
  /\ season_number
       (Content_init id2 ty2 (X ++ " (" ++ D ++ ") - Specials") q2)
     = Some 0%N
  /\ yearless_title
       (Content_init id2 ty2 (X ++ " (" ++ D ++ ") - Specials") q2) <> X
  /\ is_sub_content_of
       (Content_init id2 ty2 (X ++ " (" ++ D ++ ") - Specials") q2)
       (Content_init id1 ty1 (X ++ " (" ++ D ++ ")") q1) = false.
Proof.
  intros HX HD.
  assert (X ++ " (" ++ D ++ ") - Specials"
          = (X ++ " (" ++ D ++ ")") ++ " - Specials") as Et
    by (by rewrite !str_app_assoc).
  assert (single_line (X ++ " (" ++ D ++ ")") = true) as HXD
    by (by rewrite !single_line_app, HX, (digits_single_line D HD)).
  pose proof (Content_init_season id2 ty2
                (X ++ " (" ++ D ++ ") - Specials") q2) as E2.
  rewrite Et in E2 at 3. rewrite (season_match_specials _ HXD) in E2.
  injection E2 as Hty Hn.
  assert (yearless_title
            (Content_init id2 ty2 (X ++ " (" ++ D ++ ") - Specials") q2)
          <> X) as Hy.
  { rewrite Content_init_yearless.
    destruct (Re.match_ YEARLESS_REGEX _) as [m|] eqn:Em.
    - apply yearless_match_sound in Em
        as (P & D' & rest & Hc & _ & _ & HD' & Hok & ->).
      change (text P <> X). intros <-. rewrite !chars_app, chars_text in Hc.
      apply app_inv_head in Hc. injection Hc as Hc.
      unfold digits in HD. destruct (chars D) as [|d l]; [done|].
      pose proof (digits_then_paren (d :: l) D' _ _ HD HD' Hc) as <-.
      by vm_compute in Hok.
    - intros E. apply (f_equal chars) in E. rewrite chars_app in E.
      rewrite <- (app_nil_r (chars X)) in E at 2.
      apply app_inv_head in E. by rewrite chars_app in E. }
  split; [done|]. split; [done|]. split; [done|].
  unfold is_sub_content_of.
  destruct (negb _ || negb _); [done|].
  rewrite (Content_init_yearless id1).
  destruct (yearless_match_year X D HX HD) as (m1 & -> & ->).
  cbn [default]. apply andb_false_intro1. apply String.eqb_neq.
  by intros E.
Qed.

Lemma specials_not_linked_witness :
  is_sub_content_of
    (Content_init 5 "Show" "Bar (2020) - Specials" false)
    (Content_init 3 "Show" "Bar (2020)" false) = false.
Proof.
  apply (specials_not_linked 3 5 "Show" "Show" "Bar" "2020" false false);
    reflexivity.
Defined.

(** ** The main loop, poster by poster *)

Lemma add_poster_eq (q : bool) (st : state) (p : poster) :
  add_poster q st p
  = add_content (alloc st (record_of q p)) (length (objs st)).
Proof. done. Qed.

Lemma getitem_known_iff cl key :
  known key = true <-> exists l, getitem cl key = Ok l.
Proof.
  unfold known, getitem.
  destruct (String.eqb key "Collection"); [cbn; split; [by eauto|done]|].
  destruct (String.eqb key "Movie"); [cbn; split; [by eauto|done]|].
  destruct (String.eqb key "Show"); [cbn; split; [by eauto|done]|].
  destruct (String.eqb key "Season"); [cbn; split; [by eauto|done]|].
  split; [done|]. by intros [l ?].
Qed.

Lemma add_content_raise (st : state) (new : addr) :
  known (content_type (objs st !!! new)) = false ->
  add_content st new = Raise (KeyError (content_type (objs st !!! new))).
Proof.
  intros Hk. unfold add_content.
  set (h2 := adopt_seasons _ _ _).
  assert (same_static h2 (objs st)) as Hs by (subst h2; eauto with static).
  to_static Hs.
  destruct (getitem (content st) (content_type (objs st !!! new)))
    as [l|e] eqn:E.
  - assert (known (content_type (objs st !!! new)) = true)
      by (apply (getitem_known_iff (content st)); eauto).
    congruence.
  - unfold getitem in E. unfold known in Hk.
    destruct (String.eqb _ "Collection"); [done|].
    destruct (String.eqb _ "Movie"); [done|].
    destruct (String.eqb _ "Show"); [done|].
    destruct (String.eqb _ "Season"); [done|].
    by injection E as <-.
Qed.

Lemma lookup_alloc_new (st : state) (c : Content) :
  objs (alloc st c) !!! length (objs st) = c.
Proof.
  rewrite lookup_total_alloc, decide_False by lia. by rewrite decide_True.
Qed.

Lemma record_of_unknown (q : bool) (p : poster) :
  known (content_type (record_of q p)) = false ->
  content_type (record_of q p) = data_poster_type p.
Proof.
  unfold record_of.
  pose proof (Content_init_season (data_poster_id p) (data_poster_type p)
                (poster_title p) q) as E.
  destruct (Re.match_ SEASON_REGEX _); injection E as -> _; done.
Qed.

Lemma add_posters_ok (q : bool) (ps : list poster) :
  (forall p, p ∈ ps -> known (content_type (record_of q p)) = true) ->
  forall st, exists st', add_posters q st ps = Ok st'.
Proof.
  induction ps as [|p ps IH]; intros Hps st; [by eexists|].
  cbn [add_posters]. rewrite add_poster_eq.
  assert (exists st1, add_content (alloc st (record_of q p))
                                  (length (objs st)) = Ok st1) as [st1 ->].
  { assert (known (content_type (record_of q p)) = true) as Hk
      by apply Hps, list_elem_of_here.
    apply (getitem_known_iff (content (alloc st (record_of q p)))) in Hk
      as [l Hl].
    apply (add_content_ok _ _ l). by rewrite lookup_alloc_new. }
  cbn [bind]. apply IH. intros p' Hp'. apply Hps.
  by apply list_elem_of_further.
Qed.

(** X7: the main loop goes through when every poster gives a record of one
    of the four content types; otherwise it ends at the first poster that
    does not, with a [KeyError] for the type that poster declares, and
    nothing is printed. *)
Theorem main_loop_outcome (depth : nat) (q : bool) (ps : list poster) :
  ((forall p, p ∈ ps -> known (content_type (record_of q p)) = true) ->
   forall st, exists st', add_posters q st ps = Ok st')
  /\ (forall pre p post,
        ps = (pre ++ p :: post)%list ->
        (forall p', p' ∈ pre ->
                    known (content_type (record_of q p')) = true) ->
        known (content_type (record_of q p)) = false ->
        (forall st, add_posters q st ps
                    = Raise (KeyError (data_poster_type p)))
        /\ main depth q ps = ([], Some (KeyError (data_poster_type p)))).
Proof.
  split; [apply add_posters_ok|].
  intros pre p post -> Hpre Hp.
  assert (forall st, add_posters q st (pre ++ p :: post)
                     = Raise (KeyError (data_poster_type p))) as Hraise.
  { induction pre as [|p0 pre IH]; intros st.
    - cbn [app add_posters]. rewrite add_poster_eq, add_content_raise;
        rewrite lookup_alloc_new; [|done].
      by rewrite record_of_unknown.
    - cbn [app add_posters]. rewrite add_poster_eq.
      assert (exists st1, add_content (alloc st (record_of q p0))
                                      (length (objs st)) = Ok st1) as [st1 ->].
      { assert (known (content_type (record_of q p0)) = true) as Hk
          by apply Hpre, list_elem_of_here.
        apply (getitem_known_iff (content (alloc st (record_of q p0)))) in Hk
          as [l Hl].
        apply (add_content_ok _ _ l). by rewrite lookup_alloc_new. }
      cbn [bind]. apply IH. intros p' Hp'. apply Hpre.
      by apply list_elem_of_further. }
  split; [done|]. unfold main. by rewrite Hraise.
Qed.

Lemma main_loop_outcome_witness :
  main 2 false [mkPoster 1 "Movie" "Alpha"; mkPoster 2 "Episode" "Foo";
                mkPoster 3 "Movie" "Beta"]
  = ([], Some (KeyError "Episode")).
Proof.
  refine (proj2 (proj2 (main_loop_outcome 2 false _)
                   [mkPoster 1 "Movie" "Alpha"] (mkPoster 2 "Episode" "Foo")
                   [mkPoster 3 "Movie" "Beta"] eq_refl _ eq_refl)).
  intros p' ->%list_elem_of_singleton. reflexivity.
Defined.

(** ** The four lists and the collision marks after the main loop *)

Lemma of_type_static (h h' : heap) (key : string) :
  same_static h' h -> of_type h' key = of_type h key.
Proof.
  intros H. unfold of_type. rewrite (same_static_length _ _ H).
  apply List.filter_ext. intros a. by to_static H.
Qed.

Lemma of_type_snoc (h : heap) (c : Content) (key : string) :
  of_type (h ++ [c]) key
  = (of_type h key
     ++ if String.eqb (content_type c) key then [length h] else [])%list.
Proof.
  unfold of_type. rewrite length_app. cbn [length].
  rewrite Nat.add_1_r, seq_S, List.filter_app. cbn [List.filter Nat.add].
  rewrite lookup_total_app_r, Nat.sub_diag by done. cbn. f_equal.
  apply List.filter_ext_in. intros a Ha%in_seq.
  by rewrite lookup_total_app_l by lia.
Qed.

Lemma dup_before_static (h h' : heap) (a : addr) :
  same_static h' h -> dup_before h' a = dup_before h a.
Proof.
  intros H. unfold dup_before. induction (seq 0 a) as [|b l IH]; [done|].
  cbn [existsb]. rewrite IH. by to_static H.
Qed.

Lemma dup_before_snoc (h : heap) (c : Content) (a : addr) :
  a < length h -> dup_before (h ++ [c]) a = dup_before h a.
Proof.
  intros Ha. unfold dup_before. rewrite (lookup_total_app_l h [c] a) by done.
  assert (forall l : list addr, (forall b, In b l -> b < List.length h) ->
            existsb (fun b => String.eqb (content_type ((h ++ [c])%list !!! b))
                                         (content_type (h !!! a))
                              && String.eqb (title ((h ++ [c])%list !!! b))
                                            (title (h !!! a))) l
            = existsb (fun b => String.eqb (content_type (h !!! b))
                                           (content_type (h !!! a))
                                && String.eqb (title (h !!! b))
                                              (title (h !!! a))) l) as Hl.
  { induction l as [|b l IH]; intros Hb; [done|]. cbn [existsb].
    rewrite IH by (intros; apply Hb; by right).
    by rewrite lookup_total_app_l by (apply Hb; by left). }
  apply Hl. intros b Hb%in_seq. lia.
Qed.

Lemma existsb_filter {A} (f g : A -> bool) (l : list A) :
  existsb f (List.filter g l) = existsb (fun x => g x && f x) l.
Proof.
  induction l as [|a l IH]; [done|]. cbn [List.filter existsb].
  destruct (g a); cbn [existsb andb orb]; by rewrite IH.
Qed.

(** What the main loop keeps, from a store and four lists that have it:
    each list holds the records of its type in the order of the store, and
    [use_year] of a record tells whether an earlier one has its type and
    title. *)
Lemma add_posters_lists (q : bool) (ps : list poster) (st st' : state) :
  (forall key l, getitem (content st) key = Ok l ->
                 l = of_type (objs st) key) ->
  (forall a, a < length (objs st) ->
             use_year (objs st !!! a) = dup_before (objs st) a) ->
  add_posters q st ps = Ok st' ->
  length (objs st') = length (objs st) + length ps
  /\ static <$> objs st'
     = ((static <$> objs st) ++ (static <$> (record_of q <$> ps)))%list
  /\ (forall key l, getitem (content st') key = Ok l ->
                    l = of_type (objs st') key)
  /\ (forall a, a < length (objs st') ->
                use_year (objs st' !!! a) = dup_before (objs st') a).
Proof.
  revert st. induction ps as [|p ps IH]; intros st Hl Hu; cbn [add_posters].
  - intros [= <-]. cbn. rewrite Nat.add_0_r, app_nil_r. done.
  - rewrite add_poster_eq.
    destruct (add_content _ _) as [st1|] eqn:E; [|done]. cbn [bind].
    pose proof (add_content_static _ _ _ E) as Hs.
    pose proof (same_static_length _ _ Hs) as Hlen.
    destruct (add_content_inv _ _ _ E) as (bucket & Hb & Ho & Ha).
    rewrite lookup_alloc_new in Hb, Ha.
    set (c := record_of q p) in *. set (n := length (objs st)) in *.
    unfold alloc in Hs, Hlen, Hb, Ha, Ho. cbn [objs content] in *.
    rewrite length_app in Hlen. cbn [length] in Hlen.
    assert (forall key l, getitem (content st1) key = Ok l ->
                          l = of_type (objs st1) key) as Hl1.
    { intros key l Hget.
      destruct (getitem_keys (content st) _ _ _ Hget) as [l0 Hl0].
      rewrite (getitem_append _ _ _ _ _ _ Ha Hl0) in Hget.
      injection Hget as <-.
      rewrite (of_type_static _ _ key Hs), of_type_snoc, <- (Hl _ _ Hl0).
      destruct (String.eqb (content_type c) key); [done|].
      by rewrite app_nil_r. }
    assert (forall a, a < length (objs st1) ->
                      use_year (objs st1 !!! a) = dup_before (objs st1) a)
      as Hu1.
    { intros a Ha1. rewrite (dup_before_static _ _ a Hs).
      destruct (decide (a = n)) as [->|Hne].
      - rewrite Ho.
        rewrite (mark_collision_on (objs st ++ [c])) by eauto with static.
        assert (collides (objs st ++ [c]) n bucket
                = dup_before (objs st ++ [c]) n) as ->.
        { rewrite (Hl _ _ Hb). unfold collides, of_type, dup_before.
          rewrite existsb_filter.
          fold n. rewrite lookup_total_app_r, Nat.sub_diag by done.
          cbn [lookup_total list_lookup_total].
          assert (forall l : list addr, (forall b, In b l -> b < n) ->
                    existsb (fun x => String.eqb (content_type (objs st !!! x))
                                                 (content_type c)
                               && String.eqb
                                    (title ((objs st ++ [c])%list !!! x))
                                    (title c)) l
                    = existsb (fun b => String.eqb
                                          (content_type
                                             ((objs st ++ [c])%list !!! b))
                                          (content_type c)
                                 && String.eqb
                                      (title ((objs st ++ [c])%list !!! b))
                                      (title c)) l) as Hex.
          { induction l as [|b l IHl]; intros Hb'; [done|]. cbn [existsb].
            rewrite IHl by (intros; apply Hb'; by right).
            by rewrite (lookup_total_app_l (objs st) [c] b)
              by (apply Hb'; by left). }
          apply Hex. intros b Hb'%in_seq. lia. }
        destruct (dup_before _ _) eqn:Ed.
        + rewrite list_lookup_total_alter_eq; [done|].
          rewrite (same_static_length _ (objs st ++ [c]))
            by eauto with static.
          rewrite length_app. cbn [length]. lia.
        + rewrite use_year_links, lookup_total_app_r, Nat.sub_diag by done.
          change (use_year c = false). subst c. unfold record_of.
          by destruct (Content_init_fields (data_poster_id p)
                         (data_poster_type p) (poster_title p) q)
            as (_ & _ & _ & -> & _).
      - rewrite (add_content_use_year_other _ _ _ _ E) by done.
        unfold alloc. cbn [objs].
        rewrite lookup_total_app_l, dup_before_snoc by lia.
        apply Hu. lia. }
    intros Hrun. destruct (IH st1 Hl1 Hu1 Hrun) as (H1 & H2 & H3 & H4).
    split; [cbn [length]; lia|]. split; [|done].
    rewrite H2, Hs, fmap_app, <- app_assoc. done.
Qed.

Lemma add_posters_from_empty (q : bool) (ps : list poster) (st : state) :
  add_posters q empty_state ps = Ok st ->
  length (objs st) = length ps
  /\ static <$> objs st = static <$> (record_of q <$> ps)
  /\ (forall key l, getitem (content st) key = Ok l ->
                    l = of_type (objs st) key)
  /\ (forall a, a < length (objs st) ->
                use_year (objs st !!! a) = dup_before (objs st) a).
Proof.
  intros H. apply add_posters_lists in H; [done| |].
  - intros key l Hl. unfold getitem in Hl. cbn in Hl.
    by repeat case_match; simplify_eq.
  - intros a Ha. cbn in Ha. lia.
Qed.

Lemma add_posters_records (q : bool) (ps : list poster) (st : state)
    (i : nat) (p : poster) :
  add_posters q empty_state ps = Ok st -> ps !! i = Some p ->
  static (objs st !!! i) = static (record_of q p).
Proof.
  intros (_ & Hst & _)%add_posters_from_empty Hp.
  rewrite list_lookup_total_alt.
  assert ((static <$> objs st) !! i = Some (static (record_of q p))) as Hi.
  { rewrite Hst, !list_lookup_fmap, Hp. done. }
  rewrite list_lookup_fmap in Hi.
  destruct (objs st !! i) as [c|]; cbn in Hi |- *; congruence.
Qed.

(** X8: after the main loop the store holds one record per poster, in the
    order of the posters and with the fields [__init__] gave it, and each
    of the four lists holds exactly the records of its content type, in
    that order. *)
Theorem lists_by_type (q : bool) (ps : list poster) (st : state) :
  add_posters q empty_state ps = Ok st ->
  length (objs st) = length ps
  /\ (forall i p, ps !! i = Some p ->
                  static (objs st !!! i) = static (record_of q p))
  /\ Collection (content st) = of_type (objs st) "Collection"
  /\ Movie (content st) = of_type (objs st) "Movie"
  /\ Show (content st) = of_type (objs st) "Show"
  /\ Season (content st) = of_type (objs st) "Season".
Proof.
  intros Hrun.
  destruct (add_posters_from_empty _ _ _ Hrun) as (Hlen & _ & Hl & _).
  split; [done|]. split.
  - intros i p Hp. by apply (add_posters_records q ps).
  - repeat split; by apply Hl.
Qed.

Lemma lists_by_type_witness :
  exists st,
    add_posters false empty_state
      [mkPoster 1 "Movie" "Alpha"; mkPoster 3 "Show" "Bar (2020)";
       mkPoster 2 "Movie" "Beta"] = Ok st
    /\ Movie (content st) = of_type (objs st) "Movie"
    /\ of_type (objs st) "Movie" = [0; 2].
Proof.
  eexists. split; [vm_compute; reflexivity|].
  split; [|vm_compute; reflexivity].
  refine (proj1 (proj2 (proj2 (proj2 (lists_by_type false
            [mkPoster 1 "Movie" "Alpha"; mkPoster 3 "Show" "Bar (2020)";
             mkPoster 2 "Movie" "Beta"] _ _))))).
  vm_compute. reflexivity.
Defined.

(** X9: after the main loop a record has [use_year] set exactly when an
    earlier record has the same content type and the same raw title: the
    first of several equal posters is left unmarked, every later one is
    marked. *)
Theorem use_year_iff_earlier_duplicate (q : bool) (ps : list poster)
    (st : state) (a : addr) :
  add_posters q empty_state ps = Ok st ->
  a < length (objs st) ->
  use_year (objs st !!! a) = true
  <-> exists b, b < a
                /\ content_type (objs st !!! b) = content_type (objs st !!! a)
                /\ title (objs st !!! b) = title (objs st !!! a).
Proof.
  intros (_ & _ & _ & Hu)%add_posters_from_empty Ha.
  rewrite (Hu a Ha). unfold dup_before. rewrite existsb_exists. split.
  - intros (b & Hb%in_seq & [H1%String.eqb_eq H2%String.eqb_eq]%andb_prop).
    exists b. split; [lia|done].
  - intros (b & Hb & H1 & H2). exists b. split; [apply in_seq; lia|].
    by rewrite H1, H2, !String.eqb_refl.
Qed.

Lemma use_year_iff_earlier_duplicate_witness :
  exists st,
    add_posters false empty_state
      [mkPoster 1 "Movie" "Foo"; mkPoster 2 "Movie" "Foo"] = Ok st
    /\ use_year (objs st !!! 1) = true.
Proof.
  eexists. split; [vm_compute; reflexivity|].
  refine (proj2 (use_year_iff_earlier_duplicate false
                   [mkPoster 1 "Movie" "Foo"; mkPoster 2 "Movie" "Foo"]
                   _ 1 _ _) _).
  - vm_compute. reflexivity.
  - vm_compute. lia.
  - exists 0. split; [lia|]. split; reflexivity.
Defined.

(** ** What [__str__] and [print] do on the registries of a run *)

(** X10: in a registry the program can reach, [__str__] fails on exactly
    one kind of record: a Show with two or more children one of which has
    no season number, where sorting the keys raises [TypeError].  On every
    other record it returns a text. *)
Theorem str_fails_iff (depth : nat) (st : state) (a : addr) :
  reachable st ->
  (content_type (objs st !!! a) = "Show"
   /\ None ∈ dict_keys (sub_content (objs st !!! a))
   /\ 2 <= length (sub_content (objs st !!! a))
   -> str (S depth) (objs st) (objs st !!! a) = Raise TypeError)
  /\ (~ (content_type (objs st !!! a) = "Show"
         /\ None ∈ dict_keys (sub_content (objs st !!! a))
         /\ 2 <= length (sub_content (objs st !!! a)))
      -> exists s, str (S depth) (objs st) (objs st !!! a) = Ok s).
Proof.
  intros Hwf%reachable_wf. split.
  - intros (Hty & Hnone & Hlen). by apply str_type_error.
  - by apply str_wf.
Qed.

Lemma str_fails_iff_witness :
  exists st,
    add_posters false empty_state
      [mkPoster 3 "Show" "Bar (2020)"; mkPoster 4 "Season" "Bar (2020)";
       mkPoster 5 "Show" "Bar (2020) - Season 1"] = Ok st
    /\ dict_keys (sub_content (objs st !!! 0)) = [None; Some 1%N]
    /\ str 1 (objs st) (objs st !!! 0) = Raise TypeError.
Proof.
  eexists. split; [vm_compute; reflexivity|]. split; [reflexivity|].
  refine (proj1 (str_fails_iff 0 _ 0 _) _).
  - eapply (add_posters_reachable false
              [mkPoster 3 "Show" "Bar (2020)"; mkPoster 4 "Season" "Bar (2020)";
               mkPoster 5 "Show" "Bar (2020) - Season 1"]).
    vm_compute. reflexivity.
  - split; [reflexivity|]. split.
    + change (None ∈ [None; Some 1%N]). apply list_elem_of_here.
    + cbn. lia.
Defined.

Lemma each_total {A B} (f : A -> outcome B) (l : list A) :
  (forall a, a ∈ l -> exists b, f a = Ok b) -> exists bs, each f l = Ok bs.
Proof.
  induction l as [|a l IH]; intros H; [by exists []|]. cbn [each].
  destruct (H a) as [b ->]; [apply list_elem_of_here|].
  destruct IH as [bs ->].
  { intros x Hx. apply H. by apply list_elem_of_further. }
  by exists (b :: bs).
Qed.

Lemma print_each_texts (depth : nat) (h : heap) (l : list addr)
    (texts : list string) :
  each (fun a => str depth h (h !!! a)) l = Ok texts ->
  print_each depth h l = (texts, None) /\ length texts = length l.
Proof.
  revert texts. induction l as [|a l IH]; intros texts;
    cbn [each print_each].
  - by intros [= <-].
  - destruct (str depth h (h !!! a)) as [s|]; [|done]. cbn [bind].
    destruct (each _ l) as [bs|]; [|done]. cbn [bind]. intros [= <-].
    destruct (IH bs eq_refl) as [-> Hlen]. split; [done|].
    cbn [length]. by rewrite Hlen.
Qed.

Lemma print_group_texts (depth : nat) (h : heap) (key : string)
    (l : list addr) (rest : list (string * list addr))
    (texts out' : list string) :
  key <> "Season" ->
  each (fun a => str depth h (h !!! a)) l = Ok texts ->
  print_groups depth h rest = (out', None) ->
  print_groups depth h ((key, l) :: rest)
  = ((section_of key texts ++ out')%list, None).
Proof.
  intros Hkey Hl Hrest. cbn [print_groups].
  destruct (String.eqb_spec key "Season") as [|_]; [done|].
  destruct (print_each_texts _ _ _ _ Hl) as [Hp Hlen].
  destruct l as [|a l], texts as [|t texts]; try done.
  cbn [length Nat.eqb orb]. by rewrite Hp, Hrest.
Qed.

Lemma print_groups_season (depth : nat) (h : heap) (l : list addr) :
  print_groups depth h [("Season", l)] = ([], None).
Proof. cbn. by rewrite orb_true_r. Qed.

Lemma declared_known (q : bool) (p : poster) :
  data_poster_type p = "Collection" \/ data_poster_type p = "Movie"
  \/ data_poster_type p = "Show" ->
  known (content_type (record_of q p)) = true
  /\ data_poster_type p <> "Season".
Proof.
  intros Hty. unfold record_of.
  pose proof (Content_init_season (data_poster_id p) (data_poster_type p)
                (poster_title p) q) as E.
  destruct (Re.match_ SEASON_REGEX _); injection E as -> _;
    destruct Hty as [->|[->| ->]]; done.
Qed.

(** X11: when every poster of the page is declared a Collection, a Movie
    or a Show, the main loop goes through, [__str__] returns a text for
    every record of the Collection, Movie and Show lists, and the program
    prints, without an exception, for each of these three lists in this
    order: nothing if the list is empty, otherwise its header and then
    the texts of its records, in the order of the list. *)
Theorem print_succeeds (depth : nat) (q : bool) (ps : list poster) :
  (forall p, p ∈ ps ->
     data_poster_type p = "Collection" \/ data_poster_type p = "Movie"
     \/ data_poster_type p = "Show") ->
  exists st cs ms ss,
    add_posters q empty_state ps = Ok st
    /\ each (fun a => str (S depth) (objs st) (objs st !!! a))
             (Collection (content st)) = Ok cs
    /\ each (fun a => str (S depth) (objs st) (objs st !!! a))
             (Movie (content st)) = Ok ms
    /\ each (fun a => str (S depth) (objs st) (objs st !!! a))
             (Show (content st)) = Ok ss
    /\ main (S depth) q ps
        = ((section_of "Collection" cs ++ section_of "Movie" ms
            ++ section_of "Show" ss)%list, None).
Proof.
  intros Hps.
  destruct (add_posters_ok q ps) with (st := empty_state) as [st Hrun].
  { intros p Hp. by apply declared_known, Hps. }
  assert (forall a, exists s, str (S depth) (objs st) (objs st !!! a) = Ok s)
    as Hstr.
  { intros a.
    destruct (main_keys_numbered q ps st a) as [Hwf Hn]; [|done|].
    { intros p Hp. by apply (declared_known q), Hps. }
    apply str_wf; [done|]. by intros (_ & Hnone & _). }
  destruct (each_total (fun a => str (S depth) (objs st) (objs st !!! a))
              (Collection (content st))) as [cs Hcs]; [by intros|].
  destruct (each_total (fun a => str (S depth) (objs st) (objs st !!! a))
              (Movie (content st))) as [ms Hms]; [by intros|].
  destruct (each_total (fun a => str (S depth) (objs st) (objs st !!! a))
              (Show (content st))) as [ss Hss]; [by intros|].
  exists st, cs, ms, ss. repeat (split; [done|]).
  unfold main. rewrite Hrun. unfold print, items.
  rewrite (print_group_texts _ _ "Collection" _ _ cs
             (section_of "Movie" ms ++ section_of "Show" ss));
    [done|done|done|].
  rewrite (print_group_texts _ _ "Movie" _ _ ms (section_of "Show" ss));
    [done|done|done|].
  rewrite (print_group_texts _ _ "Show" _ _ ss []);
    [by rewrite app_nil_r|done|done|apply print_groups_season].
Qed.

Lemma print_succeeds_witness :
  exists st cs ms ss,
    add_posters false empty_state
      [mkPoster 1 "Movie" "Alpha"; mkPoster 3 "Show" "Bar (2020)";
       mkPoster 4 "Show" "Bar (2020) - Season 1"] = Ok st
    /\ each (fun a => str 1 (objs st) (objs st !!! a))
             (Collection (content st)) = Ok cs
    /\ each (fun a => str 1 (objs st) (objs st !!! a))
             (Movie (content st)) = Ok ms
    /\ each (fun a => str 1 (objs st) (objs st !!! a))
             (Show (content st)) = Ok ss
    /\ main 1 false
          [mkPoster 1 "Movie" "Alpha"; mkPoster 3 "Show" "Bar (2020)";
           mkPoster 4 "Show" "Bar (2020) - Season 1"]
        = ((section_of "Collection" cs ++ section_of "Movie" ms
            ++ section_of "Show" ss)%list, None).
Proof.
  apply (print_succeeds 0 false
           [mkPoster 1 "Movie" "Alpha"; mkPoster 3 "Show" "Bar (2020)";
            mkPoster 4 "Show" "Bar (2020) - Season 1"]).
  intros p Hp. rewrite !elem_of_cons in Hp.
  destruct Hp as [->|[->|[->|Hp]]]; [by right; left|by right; right..|].
  by apply elem_of_nil in Hp.
Defined.

Lemma of_type_none (h : heap) (key : string) :
  (forall a, a < length h -> content_type (h !!! a) <> key) ->
  of_type h key = [].
Proof.
  intros H. unfold of_type.
  assert (forall l, (forall a, a ∈ l -> a < length h) ->
            List.filter (fun a => String.eqb (content_type (h !!! a)) key) l
            = []) as Hl.
  { induction l as [|a l IH]; intros Hin; [done|]. cbn [List.filter].
    destruct (String.eqb_spec (content_type (h !!! a)) key) as [E|_].
    - exfalso. apply (H a); [apply Hin, list_elem_of_here|done].
    - apply IH. intros b Hb. apply Hin. by apply list_elem_of_further. }
  apply Hl. intros a Ha%list_elem_of_In%in_seq. lia.
Qed.

(** X12: a page whose posters all give Season records, declared so or by
    their titles, prints nothing at all and ends without an exception; so
    does a page without posters. *)
Theorem seasons_only_prints_nothing (depth : nat) (q : bool)
    (ps : list poster) :
  (forall p, p ∈ ps -> content_type (record_of q p) = "Season") ->
  main depth q ps = ([], None).
Proof.
  intros Hps. unfold main.
  destruct (add_posters_ok q ps) with (st := empty_state) as [st Hrun].
  { intros p Hp. by rewrite (Hps p Hp). }
  rewrite Hrun.
  destruct (add_posters_from_empty _ _ _ Hrun) as (Hlen & _ & Hl & _).
  assert (forall key, key <> "Season" -> of_type (objs st) key = []) as Hnone.
  { intros key Hkey. apply of_type_none. intros a Ha.
    rewrite Hlen in Ha. apply lookup_lt_is_Some in Ha as [p Hp].
    rewrite content_type_static,
      (add_posters_records q ps st a p Hrun Hp), <- content_type_static.
    rewrite Hps by (by eapply list_elem_of_lookup_2). done. }
  unfold print, items.
  rewrite (Hl "Collection" (Collection (content st)) eq_refl),
    (Hl "Movie" (Movie (content st)) eq_refl),
    (Hl "Show" (Show (content st)) eq_refl), !Hnone by done.
  cbn. by rewrite orb_true_r.
Qed.

Lemma seasons_only_prints_nothing_witness :
  main 0 false [mkPoster 4 "Show" "Bar (2020) - Season 1";
                mkPoster 5 "Show" "Bar (2020) - Specials"]
  = ([], None).
Proof.
  apply seasons_only_prints_nothing. intros p Hp.
  rewrite !elem_of_cons in Hp.
  destruct Hp as [->|[->|Hp]]; [reflexivity..|]. by apply elem_of_nil in Hp.
Defined.

(** ** Filing a season under a show *)

Lemma dict_get_set_ne {V} (d : list (option N * V)) k k' v :
  k' <> k -> dict_get (dict_set d k v) k' = dict_get d k'.
Proof.
  intros Hne. induction d as [|[k0 v0] d IH]; simpl.
  - by rewrite decide_False.
  - destruct (decide (k0 = k)) as [->|Hk]; simpl.
    + by rewrite !decide_False.
    + by rewrite IH.
Qed.

Lemma lookup_add_sub_content (h : heap) (self content p : addr) :
  add_sub_content h self content !!! p
  = if decide (self = p /\ p < length h)
    then set_sub_content
           (dict_set (sub_content (h !!! p)) (season_number (h !!! content))
                     content) (h !!! p)
    else h !!! p.
Proof.
  unfold add_sub_content. rewrite list_lookup_total_alter.
  destruct (decide (self = p)) as [->|Hne]; [done|].
  by rewrite !decide_False by (by intros [? _]).
Qed.

(** X13: [add_sub_content] files the child under its season number in the
    dict of [self]: looking that number up gives the child, every other
    number gives what it gave before, a number already filed keeps its
    place among the keys and a new one goes last; no other object and no
    other field of [self] changes. *)
Theorem add_sub_content_lookup (h : heap) (self content : addr) :
  self < length h ->
  dict_get (sub_content (add_sub_content h self content !!! self))
           (season_number (h !!! content)) = Some content
  /\ (forall k, k <> season_number (h !!! content) ->
        dict_get (sub_content (add_sub_content h self content !!! self)) k
        = dict_get (sub_content (h !!! self)) k)
  /\ dict_keys (sub_content (add_sub_content h self content !!! self))
     = (if decide (season_number (h !!! content)
                     ∈ dict_keys (sub_content (h !!! self)))
        then dict_keys (sub_content (h !!! self))
        else dict_keys (sub_content (h !!! self))
             ++ [season_number (h !!! content)])%list
  /\ (forall p, p <> self -> add_sub_content h self content !!! p = h !!! p)
  /\ static (add_sub_content h self content !!! self) = static (h !!! self)
  /\ use_year (add_sub_content h self content !!! self)
     = use_year (h !!! self).
Proof.
  intros Hlt. rewrite lookup_add_sub_content, decide_True by done.
  cbn [sub_content set_sub_content]. split; [apply dict_get_set|].
  split; [intros k Hk; by apply dict_get_set_ne|].
  split; [apply dict_set_keys|]. split; [|done].
  intros p Hp. rewrite lookup_add_sub_content, decide_False; [done|].
  intros [? _]. congruence.
Qed.

Lemma add_sub_content_lookup_witness :
  dict_keys (sub_content (objs bar_three_seasons !!! 0))
  = [Some 2%N; Some 0%N; Some 1%N]
  /\ dict_get (sub_content (add_sub_content (objs bar_three_seasons) 0 2 !!! 0))
              (Some 0%N) = Some 2
  /\ dict_keys (sub_content (add_sub_content (objs bar_three_seasons) 0 2 !!! 0))
     = [Some 2%N; Some 0%N; Some 1%N].
Proof.
  split; [reflexivity|].
  assert (0 < length (objs bar_three_seasons)) as H by (vm_compute; lia).
  split.
  - exact (proj1 (add_sub_content_lookup (objs bar_three_seasons) 0 2 H)).
  - reflexivity.
Defined.

Lemma attach_to_show_none (h : heap) (new : addr) (shows : list addr) :
  (forall x, x ∈ shows -> is_sub_content_of (h !!! new) (h !!! x) = false) ->
  attach_to_show h new shows = h.
Proof.
  intros H. by rewrite attach_to_show_eq, find_none_iff.
Qed.

Lemma attach_to_show_first (h : heap) (new e : addr) (pre post : list addr) :
  (forall x, x ∈ pre -> is_sub_content_of (h !!! new) (h !!! x) = false) ->
  is_sub_content_of (h !!! new) (h !!! e) = true ->
  attach_to_show h new (pre ++ e :: post) = add_sub_content h e new.
Proof.
  intros Hpre He. induction pre as [|x pre IH]; cbn [app attach_to_show].
  - by rewrite He.
  - rewrite (Hpre x) by apply list_elem_of_here. apply IH.
    intros y Hy. apply Hpre. by apply list_elem_of_further.
Qed.

(** X14: the first loop of [add_content] changes nothing when no show of
    the list takes the new record as a season; otherwise the first show
    that does files it under its season number, and every other object,
    the later matching shows included, is left as it was. *)
Theorem first_show_takes_season (h : heap) (new : addr) (shows : list addr) :
  ((forall x, x ∈ shows -> is_sub_content_of (h !!! new) (h !!! x) = false) ->
   attach_to_show h new shows = h)
  /\ (forall pre e post,
        shows = (pre ++ e :: post)%list ->
        (forall x, x ∈ pre ->
                   is_sub_content_of (h !!! new) (h !!! x) = false) ->
        is_sub_content_of (h !!! new) (h !!! e) = true ->
        dict_get (sub_content (attach_to_show h new shows !!! e))
                 (season_number (h !!! new)) = Some new
        /\ (forall p, p <> e -> attach_to_show h new shows !!! p = h !!! p)
        /\ static (attach_to_show h new shows !!! e) = static (h !!! e)).
Proof.
  split; [apply attach_to_show_none|].
  intros pre e post -> Hpre He. rewrite attach_to_show_first by done.
  destruct (sub_lt _ _ _ He) as [_ Hlt]. split; [|split].
  - rewrite lookup_add_sub_content, decide_True by done. apply dict_get_set.
  - intros p Hp. rewrite lookup_add_sub_content, decide_False; [done|].
    intros [? _]. congruence.
  - by rewrite lookup_add_sub_content, decide_True.
Qed.

Lemma first_show_takes_season_witness :
  exists st,
    exec empty_state
      [New 3 "Show" "Bar (2020)" false; Add 0;
       New 5 "Show" "Bar (2020)" false; Add 1;
       New 4 "Show" "Bar (2020) - Season 1" false] = Ok st
    /\ Show (content st) = [0; 1]
    /\ dict_get (sub_content (attach_to_show (objs st) 2 [0; 1] !!! 0))
                (Some 1%N) = Some 2
    /\ attach_to_show (objs st) 2 [0; 1] !!! 1 = objs st !!! 1.
Proof.
  eexists. split; [vm_compute; reflexivity|]. split; [reflexivity|].
  refine ((fun H => conj (proj1 H) (proj1 (proj2 H) 1 _))
            (proj2 (first_show_takes_season _ 2 [0; 1]) [] 0 [1]
                   eq_refl _ _)).
  - lia.
  - by intros x ?%elem_of_nil.
  - vm_compute. reflexivity.
Defined.

(** ** A show and the seasons that came before it *)

Lemma dict_set_key {V} (d : list (option N * V)) k v :
  k ∈ (dict_set d k v).*1.
Proof.
  rewrite dict_set_keys. case_decide; [done|].
  apply elem_of_app. right. apply list_elem_of_here.
Qed.

Lemma dict_set_keys_mono {V} (d : list (option N * V)) k v k' :
  k' ∈ d.*1 -> k' ∈ (dict_set d k v).*1.
Proof.
  intros H. rewrite dict_set_keys. case_decide; [done|].
  apply elem_of_app. by left.
Qed.

Lemma adopted_keys_mono h new l d k :
  k ∈ d.*1 -> k ∈ (adopted h new l d).*1.
Proof.
  revert d. induction l as [|e l IH]; intros d Hk; [done|].
  rewrite adopted_cons. apply IH. destruct (is_parent_content_of _ _); [|done].
  by apply dict_set_keys_mono.
Qed.

Lemma adopted_key h new l d e :
  e ∈ l -> is_parent_content_of (h !!! new) (h !!! e) = true ->
  season_number (h !!! e) ∈ (adopted h new l d).*1.
Proof.
  revert d. induction l as [|x l IH]; intros d Hin He;
    [by apply elem_of_nil in Hin|].
  rewrite adopted_cons. apply elem_of_cons in Hin as [->|Hin].
  - rewrite He. apply adopted_keys_mono, dict_set_key.
  - by apply IH.
Qed.

(** The child filed under the number of a matching season is a matching
    season of the list with that number. *)
Lemma adopted_get h new l d e :
  e ∈ l -> is_parent_content_of (h !!! new) (h !!! e) = true ->
  exists a, dict_get (adopted h new l d) (season_number (h !!! e)) = Some a
            /\ a ∈ l
            /\ is_parent_content_of (h !!! new) (h !!! a) = true
            /\ season_number (h !!! a) = season_number (h !!! e).
Proof.
  induction l as [|x l IH] using rev_ind; intros Hin He;
    [by apply elem_of_nil in Hin|].
  rewrite adopted_snoc.
  destruct (is_parent_content_of (h !!! new) (h !!! x)) eqn:Ex.
  - destruct (decide (season_number (h !!! e) = season_number (h !!! x)))
      as [Ek|Ek].
    + exists x. rewrite Ek, dict_get_set. split; [done|].
      split; [|done]. apply elem_of_app. right. apply list_elem_of_here.
    + rewrite dict_get_set_ne by done.
      apply elem_of_app in Hin as [Hin| ->%list_elem_of_singleton]; [|done].
      destruct (IH Hin He) as (a & Ha & Hal & Hm & Hk).
      exists a. split; [done|]. split; [|done]. apply elem_of_app. by left.
  - apply elem_of_app in Hin as [Hin| ->%list_elem_of_singleton];
      [|congruence].
    destruct (IH Hin He) as (a & Ha & Hal & Hm & Hk).
    exists a. split; [done|]. split; [|done]. apply elem_of_app. by left.
Qed.

Lemma adopted_elem_in h new l d k a :
  (k, a) ∈ adopted h new l d ->
  (k, a) ∈ d
  \/ (a ∈ l /\ is_parent_content_of (h !!! new) (h !!! a) = true
      /\ season_number (h !!! a) = k).
Proof.
  revert d. induction l as [|e l IH]; intros d; [by left|].
  rewrite adopted_cons. intros [H|(Hin & Hm & Hk)]%IH.
  - destruct (is_parent_content_of (h !!! new) (h !!! e)) eqn:E; [|by left].
    apply dict_set_elem in H as [?|[= -> ->]]; [by left|].
    right. split; [apply list_elem_of_here|done].
  - right. split; [by apply list_elem_of_further|done].
Qed.

(** X15: the second loop of [add_content] gives the new record, for every
    season of the list it is the show of, a child under that season's
    number, which is a season of the list that it is the show of and that
    has this number; it adds no other child, and changes no other
    object. *)
Theorem show_adopts_seasons (h : heap) (new : addr) (seasons : list addr) :
  new < length h ->
  (forall e, e ∈ seasons ->
     is_parent_content_of (h !!! new) (h !!! e) = true ->
     exists a,
       dict_get (sub_content (adopt_seasons h new seasons !!! new))
                (season_number (h !!! e)) = Some a
       /\ a ∈ seasons
       /\ is_parent_content_of (h !!! new) (h !!! a) = true
       /\ season_number (h !!! a) = season_number (h !!! e))
  /\ (forall k a,
        (k, a) ∈ sub_content (adopt_seasons h new seasons !!! new) ->
        (k, a) ∈ sub_content (h !!! new)
        \/ (a ∈ seasons
            /\ is_parent_content_of (h !!! new) (h !!! a) = true
            /\ season_number (h !!! a) = k))
  /\ (forall p, p <> new -> adopt_seasons h new seasons !!! p = h !!! p)
  /\ static (adopt_seasons h new seasons !!! new) = static (h !!! new).
Proof.
  intros Hlt. rewrite adopt_seasons_eq.
  assert (sub_content
            (alter (fun c => set_sub_content
                               (adopted h new seasons (sub_content c)) c)
                   new h !!! new)
          = adopted h new seasons (sub_content (h !!! new))) as ->.
  { rewrite list_lookup_total_alter, decide_True by done. done. }
  split; [intros e; apply adopted_get|].
  split; [intros k a; apply adopted_elem_in|]. split.
  - intros p Hp. by rewrite list_lookup_total_alter_ne.
  - rewrite list_lookup_total_alter, decide_True by done. done.
Qed.

Lemma show_adopts_seasons_witness :
  exists st,
    exec empty_state
      [New 4 "Show" "Bar (2020) - Season 1" false; Add 0;
       New 7 "Show" "Foo (2019) - Season 1" false; Add 1;
       New 5 "Show" "Bar (2020) - Season 2" false; Add 2;
       New 3 "Show" "Bar (2020)" false] = Ok st
    /\ Season (content st) = [0; 1; 2]
    /\ dict_keys (sub_content (adopt_seasons (objs st) 3 [0; 1; 2] !!! 3))
       = [Some 1%N; Some 2%N]
    /\ exists a,
         dict_get (sub_content (adopt_seasons (objs st) 3 [0; 1; 2] !!! 3))
                  (Some 2%N) = Some a
         /\ a ∈ [0; 1; 2].
Proof.
  eexists. split; [vm_compute; reflexivity|]. split; [reflexivity|].
  split; [reflexivity|].
  refine ((fun H => match H with
                    | ex_intro _ a (conj H1 (conj H2 _)) =>
                        ex_intro _ a (conj H1 H2)
                    end)
            (proj1 (show_adopts_seasons _ 3 [0; 1; 2] _) 2 _ _)).
  - vm_compute. lia.
  - apply list_elem_of_further, list_elem_of_further, list_elem_of_here.
  - vm_compute. reflexivity.
Defined.

(** ** Shows and their children after the main loop *)

Lemma of_type_elem (h : heap) (key : string) (a : addr) :
  a ∈ of_type h key <-> a < length h /\ content_type (h !!! a) = key.
Proof.
  unfold of_type. rewrite list_elem_of_In, filter_In, in_seq.
  destruct (String.eqb_spec (content_type (h !!! a)) key); split;
    intros [? ?]; (split; [lia|done]).
Qed.

(** X16: after the main loop, whatever a record holds as a child under the
    number k is a record of the Season list whose season number is k and
    that this record is the show of; the record itself is in the Show
    list, and looking k up in its dict gives that child. *)
Theorem children_are_seasons (q : bool) (ps : list poster) (st : state)
    (p a : addr) (k : option N) :
  add_posters q empty_state ps = Ok st ->
  (k, a) ∈ sub_content (objs st !!! p) ->
  p ∈ Show (content st)
  /\ a ∈ Season (content st)
  /\ season_number (objs st !!! a) = k
  /\ is_sub_content_of (objs st !!! a) (objs st !!! p) = true
  /\ dict_get (sub_content (objs st !!! p)) k = Some a.
Proof.
  intros Hrun Hin.
  pose proof (reachable_wf st (add_posters_reachable _ _ _ Hrun)) as Hwf.
  destruct (add_posters_from_empty _ _ _ Hrun) as (_ & _ & Hl & _).
  destruct (wf_child st Hwf p k a Hin) as [Hsub Hk].
  destruct (is_sub_content_of_types _ _ Hsub) as [Hs Hp].
  destruct (sub_lt _ _ _ Hsub) as [Ha Hlt].
  rewrite (Hl "Show" (Show (content st)) eq_refl),
    (Hl "Season" (Season (content st)) eq_refl), !of_type_elem.
  repeat split; try done.
  apply dict_get_nodup; [apply (wf_keys st Hwf)|done].
Qed.

Lemma children_are_seasons_witness :
  exists st,
    add_posters false empty_state
      [mkPoster 4 "Show" "Bar (2020) - Season 1";
       mkPoster 3 "Show" "Bar (2020)"] = Ok st
    /\ 1 ∈ Show (content st) /\ 0 ∈ Season (content st).
Proof.
  eexists. split; [vm_compute; reflexivity|].
  refine ((fun H => conj (proj1 H) (proj1 (proj2 H)))
            (children_are_seasons false
               [mkPoster 4 "Show" "Bar (2020) - Season 1";
                mkPoster 3 "Show" "Bar (2020)"] _ 1 0 (Some 1%N) _ _)).
  - vm_compute. reflexivity.
  - vm_compute. apply list_elem_of_here.
Defined.

Lemma find_elem {A} (f : A -> bool) (l : list A) (x : A) :
  x ∈ l -> f x = true -> exists y, find f l = Some y /\ f y = true.
Proof.
  induction l as [|a l IH]; [by intros ?%elem_of_nil|].
  intros Hin Hx. cbn [find]. destruct (f a) eqn:Ea; [by exists a|].
  apply elem_of_cons in Hin as [->|Hin]; [congruence|]. by apply IH.
Qed.

Lemma add_content_keys_mono (st st' : state) (new p : addr) k :
  add_content st new = Ok st' ->
  k ∈ (sub_content (objs st !!! p)).*1 ->
  k ∈ (sub_content (objs st' !!! p)).*1.
Proof.
  intros Hadd Hk.
  destruct (add_content_sub_content _ _ new p Hadd)
    as [E|[[-> E]|[Hsub E]]]; rewrite E.
  - done.
  - by apply adopted_keys_mono.
  - by apply dict_set_keys_mono.
Qed.

Lemma sub_content_mark h new bucket p :
  sub_content (mark_collision h new bucket !!! p) = sub_content (h !!! p).
Proof.
  rewrite mark_collision_eq. destruct (collides _ _ _); [|done].
  by apply proj_alter.
Qed.

(** One turn of the main loop keeps: every season that some show of the
    store is the show of has its number filed in such a show. *)
Lemma add_poster_filed (q : bool) (st st' : state) (p : poster) :
  (forall key l, getitem (content st) key = Ok l ->
                 l = of_type (objs st) key) ->
  (forall s x, is_sub_content_of (objs st !!! s) (objs st !!! x) = true ->
     exists x', is_sub_content_of (objs st !!! s) (objs st !!! x') = true
                /\ season_number (objs st !!! s)
                   ∈ dict_keys (sub_content (objs st !!! x'))) ->
  add_poster q st p = Ok st' ->
  forall s x, is_sub_content_of (objs st' !!! s) (objs st' !!! x) = true ->
    exists x', is_sub_content_of (objs st' !!! s) (objs st' !!! x') = true
               /\ season_number (objs st' !!! s)
                  ∈ dict_keys (sub_content (objs st' !!! x')).
Proof.
  intros Hl Hinv Hadd s x. rewrite add_poster_eq in Hadd.
  set (c := record_of q p) in *. set (n := length (objs st)) in *.
  set (st0 := alloc st c) in *.
  pose proof (add_content_static _ _ _ Hadd) as Hs.
  assert (forall a, a < n -> objs st0 !!! a = objs st !!! a) as Hold.
  { intros a Ha. subst st0. rewrite lookup_total_alloc.
    by rewrite decide_True. }
  assert (length (objs st0) = S n) as Hlen.
  { subst st0 n. unfold alloc. cbn [objs]. rewrite length_app.
    cbn [length]. lia. }
  assert (forall x', is_sub_content_of (objs st' !!! s) (objs st' !!! x')
                     = is_sub_content_of (objs st0 !!! s) (objs st0 !!! x'))
    as Esub by (intros x'; by to_static Hs).
  assert (season_number (objs st' !!! s) = season_number (objs st0 !!! s))
    as Enum by (by to_static Hs).
  intros Hsub. rewrite Esub in Hsub.
  destruct (is_sub_content_of_types _ _ Hsub) as [Hts Htx].
  destruct (sub_lt _ _ _ Hsub) as [Hs_lt Hx_lt]. rewrite Hlen in Hs_lt, Hx_lt.
  destruct (decide (s = n)) as [->|Hsn]; [|destruct (decide (x = n))
                                             as [->|Hxn]].
  - (* the new record is the season *)
    assert (x < n) as Hx.
    { destruct (decide (x = n)) as [->|]; [|lia]. congruence. }
    rewrite (add_content_season st0 n Hts) in Hadd.
    assert (objs st' = mark_collision
                         (attach_to_show (objs st0) n (Show (content st0)))
                         n (Season (content st0))) as Hobjs
      by (by injection Hadd as <-).
    destruct (find_elem
                (fun e => is_sub_content_of (objs st0 !!! n) (objs st0 !!! e))
                (Show (content st0)) x) as (e & Hfind & He); [|done|].
    { change (content st0) with (content st).
      rewrite (Hl "Show" (Show (content st)) eq_refl). apply of_type_elem.
      split; [done|]. by rewrite <- Hold. }
    exists e. rewrite Esub, Enum. split; [done|].
    rewrite Hobjs, sub_content_mark, attach_to_show_eq, Hfind,
      lookup_add_sub_content.
    destruct (sub_lt _ _ _ He) as [_ He_lt].
    rewrite decide_True by done. cbn [sub_content set_sub_content].
    apply dict_set_key.
  - (* the new record is the show *)
    assert (s < n) as Hs' by lia.
    rewrite (add_content_show st0 n Htx) in Hadd.
    assert (objs st' = mark_collision
                         (adopt_seasons (objs st0) n (Season (content st0)))
                         n (Show (content st0))) as Hobjs
      by (by injection Hadd as <-).
    exists n. rewrite Esub, Enum. split; [done|].
    rewrite Hobjs, sub_content_mark, adopt_seasons_eq,
      list_lookup_total_alter, decide_True by (split; [done|lia]).
    cbn [sub_content set_sub_content]. apply adopted_key; [|done].
    change (content st0) with (content st).
    rewrite (Hl "Season" (Season (content st)) eq_refl). apply of_type_elem.
    split; [done|]. by rewrite <- Hold.
  - (* both records were in the store *)
    assert (s < n) as Hs' by lia. assert (x < n) as Hx' by lia.
    rewrite !Hold in Hsub by done.
    destruct (Hinv s x Hsub) as (x' & Hsub' & Hk).
    destruct (sub_lt _ _ _ Hsub') as [_ Hx'_lt].
    exists x'. rewrite Esub, Enum, !Hold by done.
    split; [done|].
    apply (add_content_keys_mono st0 st' n x' _ Hadd). by rewrite Hold.
Qed.

Lemma add_posters_filed (q : bool) (ps : list poster) (st st' : state) :
  (forall key l, getitem (content st) key = Ok l ->
                 l = of_type (objs st) key) ->
  (forall a, a < length (objs st) ->
             use_year (objs st !!! a) = dup_before (objs st) a) ->
  (forall s x, is_sub_content_of (objs st !!! s) (objs st !!! x) = true ->
     exists x', is_sub_content_of (objs st !!! s) (objs st !!! x') = true
                /\ season_number (objs st !!! s)
                   ∈ dict_keys (sub_content (objs st !!! x'))) ->
  add_posters q st ps = Ok st' ->
  forall s x, is_sub_content_of (objs st' !!! s) (objs st' !!! x) = true ->
    exists x', is_sub_content_of (objs st' !!! s) (objs st' !!! x') = true
               /\ season_number (objs st' !!! s)
                  ∈ dict_keys (sub_content (objs st' !!! x')).
Proof.
  revert st. induction ps as [|p ps IH]; intros st Hl Hu Hinv.
  - by intros [= <-].
  - cbn [add_posters].
    destruct (add_poster q st p) as [st1|] eqn:E1; [|done]. cbn [bind].
    assert (add_posters q st [p] = Ok st1) as E1'
      by (cbn [add_posters]; by rewrite E1).
    destruct (add_posters_lists q [p] st st1 Hl Hu E1')
      as (_ & _ & Hl1 & Hu1).
    apply IH; [done|done|]. exact (add_poster_filed q st st1 p Hl Hinv E1).
Qed.

(** X17: after the main loop no season stands beside a show it belongs to
    without being filed: if a record of the store is a season of a show of
    the store, its season number is a key of the children of some show
    that it is a season of. *)
Theorem matching_season_filed (q : bool) (ps : list poster) (st : state)
    (s x : addr) :
  add_posters q empty_state ps = Ok st ->
  is_sub_content_of (objs st !!! s) (objs st !!! x) = true ->
  exists x', is_sub_content_of (objs st !!! s) (objs st !!! x') = true
             /\ season_number (objs st !!! s)
                ∈ dict_keys (sub_content (objs st !!! x')).
Proof.
  intros Hrun. apply (add_posters_filed q ps empty_state st); [| | |done].
  - intros key l Hl. unfold getitem in Hl. cbn in Hl.
    by repeat case_match; simplify_eq.
  - intros a Ha. cbn in Ha. lia.
  - intros s' x' H. by rewrite list_lookup_total_alt in H.
Qed.

Lemma matching_season_filed_witness :
  exists st,
    add_posters false empty_state
      [mkPoster 4 "Show" "Bar (2020) - Season 1";
       mkPoster 3 "Show" "Bar (2020)"] = Ok st
    /\ exists x',
         is_sub_content_of (objs st !!! 0) (objs st !!! x') = true
         /\ season_number (objs st !!! 0)
            ∈ dict_keys (sub_content (objs st !!! x')).
Proof.
  eexists. split; [vm_compute; reflexivity|].
  apply (matching_season_filed false
           [mkPoster 4 "Show" "Bar (2020) - Season 1";
            mkPoster 3 "Show" "Bar (2020)"] _ 0 1).
  - vm_compute. reflexivity.
  - vm_compute. reflexivity.
Defined.

(** ** A show poster and a poster of one of its seasons, end to end *)

Lemma show_record (id : Z) (X D : string) (q : bool) :
  single_line X = true -> digits D = true ->
  Content_init id "Show" (X ++ " (" ++ D ++ ")") q
  = mkContent id "Show" (X ++ " (" ++ D ++ ")") false
      (q || str_in ": " (X ++ " (" ++ D ++ ")")) (POSTER_URL id) X None [].
Proof.
  intros HX HD. unfold Content_init.
  destruct (yearless_match_year X D HX HD) as (m & -> & ->).
  replace (Re.match_ SEASON_REGEX (X ++ " (" ++ D ++ ")"))
    with (@None Re.Match)
    by (rewrite year_title_paren; symmetry; apply season_no_match_paren).
  done.
Qed.

Lemma season_record (id : Z) (ty X D N : string) (q : bool) :
  single_line X = true -> digits D = true -> digits N = true ->
  Content_init id ty (X ++ " (" ++ D ++ ") - Season " ++ N) q
  = mkContent id "Season" (X ++ " (" ++ D ++ ") - Season " ++ N) false
      (q || str_in ": " (X ++ " (" ++ D ++ ") - Season " ++ N))
      (POSTER_URL id) X (Some (int N)) [].
Proof.
  intros HX HD HN. unfold Content_init.
  destruct (yearless_match_season X D N HX HD HN) as (m & -> & ->).
  assert (Re.match_ SEASON_REGEX (X ++ " (" ++ D ++ ") - Season " ++ N)
          = Some [(1, chars N)]) as ->.
  { assert (X ++ " (" ++ D ++ ") - Season " ++ N
            = (X ++ " (" ++ D ++ ")") ++ " - Season " ++ N) as ->
      by (by rewrite !str_app_assoc).
    apply season_match_numbered; [|done].
    by rewrite !single_line_app, HX, (digits_single_line D HD). }
  unfold Re.group. cbn. by rewrite text_chars.
Qed.

Lemma add_posters_two (q : bool) (p1 p2 : poster) :
  add_posters q empty_state [p1; p2]
  = do st' <- add_content (alloc empty_state (record_of q p1)) 0;
    add_content (alloc st' (record_of q p2)) (length (objs st')).
Proof.
  cbn [add_posters]. rewrite add_poster_eq.
  change (length (objs empty_state)) with 0.
  destruct (add_content _ 0) as [st'|]; [|done]. cbn [bind].
  rewrite add_poster_eq. by destruct (add_content _ _).
Qed.

(** X18: a page with the poster "X (D)" of a show and the poster
    "X (D) - Season N" of one of its seasons prints, whichever of the two
    comes first, the header of the shows and one text: the title X, quoted
    if asked for or if the show's title holds a colon and a space, the URL
    of the show's poster, and under "seasons:" the line of the season,
    numbered with N read as a number. *)
Theorem show_and_season_printed (depth : nat) (q : bool) (id1 id2 : Z)
    (ty X D N : string) :
  single_line X = true -> digits D = true -> digits N = true ->
  main (S depth) q
    [mkPoster id1 "Show" (X ++ " (" ++ D ++ ")");
     mkPoster id2 ty (X ++ " (" ++ D ++ ") - Season " ++ N)]
  = ([divider ++ nl ++ "# Shows";
      (if q || str_in ": " (X ++ " (" ++ D ++ ")")
       then dquote ++ X ++ dquote else X)
      ++ ":" ++ nl ++ "  url_poster: " ++ POSTER_URL id1 ++ nl
      ++ "  seasons:" ++ nl ++ "    "
      ++ str_of_N (int N) ++ ": {url_poster: " ++ POSTER_URL id2 ++ "}"],
     None)
  /\ main (S depth) q
       [mkPoster id2 ty (X ++ " (" ++ D ++ ") - Season " ++ N);
        mkPoster id1 "Show" (X ++ " (" ++ D ++ ")")]
     = main (S depth) q
         [mkPoster id1 "Show" (X ++ " (" ++ D ++ ")");
          mkPoster id2 ty (X ++ " (" ++ D ++ ") - Season " ++ N)].
Proof.
  intros HX HD HN.
  assert (str_in (X ++ " (" ++ D ++ ")")
                 (X ++ " (" ++ D ++ ") - Season " ++ N) = true) as Hin.
  { apply str_in_iff. exists "", (" - Season " ++ N).
    by rewrite !str_app_assoc. }
  unfold main. rewrite !add_posters_two. unfold record_of.
  cbn [data_poster_id data_poster_type poster_title].
  rewrite show_record, season_record by done.
  remember (X ++ " (" ++ D ++ ")") as T1 eqn:ET1.
  remember (X ++ " (" ++ D ++ ") - Season " ++ N) as T2 eqn:ET2.
  remember (q || str_in ": " T1) as b1 eqn:Eb1.
  remember (q || str_in ": " T2) as b2 eqn:Eb2.
  clear ET1 ET2 Eb1 Eb2 HX HD HN.
  set (cs := mkContent id1 "Show" T1 false b1 (POSTER_URL id1) X None []).
  set (cn := mkContent id2 "Season" T2 false b2 (POSTER_URL id2) X
                       (Some (int N)) []).
  assert (is_sub_content_of cn cs = true) as Hsub.
  { unfold is_sub_content_of, cs, cn.
    cbn [content_type yearless_title title String.eqb Ascii.eqb Bool.eqb
         negb orb].
    by rewrite String.eqb_refl, Hin. }
  assert ((do st' <- add_content (alloc empty_state cs) 0;
           add_content (alloc st' cn) (length (objs st')))
          = Ok (mkState [set_sub_content [(Some (int N), 1)] cs; cn]
                        (mkContentList [] [] [0] [1]))) as ->.
  { unfold empty_state, ContentList_init.
    rewrite add_content_show by reflexivity. cbn [bind].
    rewrite add_content_season by reflexivity.
    cbn [alloc objs content Show Season Collection Movie app adopt_seasons
         mark_collision attach_to_show length].
    change ([cs; cn] !!! 1) with cn. change ([cs; cn] !!! 0) with cs.
    rewrite Hsub. reflexivity. }
  assert ((do st' <- add_content (alloc empty_state cn) 0;
           add_content (alloc st' cs) (length (objs st')))
          = Ok (mkState [cn; set_sub_content [(Some (int N), 0)] cs]
                        (mkContentList [] [] [1] [0]))) as ->.
  { unfold empty_state, ContentList_init.
    rewrite add_content_season by reflexivity. cbn [bind].
    rewrite add_content_show by reflexivity.
    cbn [alloc objs content Show Season Collection Movie app adopt_seasons
         mark_collision attach_to_show length].
    unfold is_parent_content_of.
    change ([cn; cs] !!! 1) with cs. change ([cn; cs] !!! 0) with cn.
    rewrite Hsub. reflexivity. }
  assert (forall h a, h !!! a = cn ->
            str (S depth) h (set_sub_content [(Some (int N), a)] cs)
            = Ok ((if b1 then dquote ++ X ++ dquote else X)
                  ++ ":" ++ nl ++ "  url_poster: " ++ POSTER_URL id1 ++ nl
                  ++ "  seasons:" ++ nl ++ "    "
                  ++ str_of_N (int N) ++ ": {url_poster: " ++ POSTER_URL id2
                  ++ "}")) as Hstr.
  { intros h a Ha. rewrite str_eq. unfold cs.
    cbn [content_type sub_content set_sub_content String.eqb Ascii.eqb
         Bool.eqb orb length Nat.ltb Nat.leb dict_keys fmap list_fmap fst
         sorted bind each dict_get].
    rewrite decide_True by done. rewrite Ha, str_eq. unfold cn.
    cbn [content_type String.eqb Ascii.eqb Bool.eqb orb bind season_number
         url str_of_season join].
    unfold title_block, final_title.
    cbn [use_year must_quote yearless_title url set_sub_content].
    rewrite !str_app_assoc. reflexivity. }
  unfold print, items.
  cbn [objs content Collection Movie Show Season print_groups print_each
       length Nat.eqb orb String.eqb Ascii.eqb Bool.eqb].
  change ([set_sub_content [(Some (int N), 1)] cs; cn] !!! 0)
    with (set_sub_content [(Some (int N), 1)] cs).
  change ([cn; set_sub_content [(Some (int N), 0)] cs] !!! 1)
    with (set_sub_content [(Some (int N), 0)] cs).
  rewrite !Hstr by reflexivity. split; reflexivity.
Qed.

Lemma show_and_season_printed_witness :
  main 1 false [mkPoster 4 "Show" "Bar: Baz (2020) - Season 01";
                mkPoster 3 "Show" "Bar: Baz (2020)"]
  = ([divider ++ nl ++ "# Shows";
      dquote ++ "Bar: Baz" ++ dquote ++ ":" ++ nl
      ++ "  url_poster: https://theposterdb.com/api/assets/3" ++ nl
      ++ "  seasons:" ++ nl
      ++ "    1: {url_poster: https://theposterdb.com/api/assets/4}"],
     None).
Proof.
  refine (eq_trans
            (proj2 (show_and_season_printed 0 false 3 4 "Show" "Bar: Baz"
                      "2020" "01" _ _ _))
            (proj1 (show_and_season_printed 0 false 3 4 "Show" "Bar: Baz"
                      "2020" "01" _ _ _))); reflexivity.
Defined.

(** ** The text of a collection or a movie *)

Lemma static_fields (c c' : Content) :
  static c = static c' ->
  poster_id c = poster_id c' /\ content_type c = content_type c'
  /\ title c = title c' /\ must_quote c = must_quote c'
  /\ url c = url c' /\ yearless_title c = yearless_title c'
  /\ season_number c = season_number c'.
Proof. intros H. by injection H. Qed.

(** X19: after the main loop, the text of the record of a poster that gave
    a Collection or a Movie is a title line and the line of the URL of
    the poster's id.  The title is the raw title if an earlier record has
    the same content type and raw title, else the yearless title; it is
    quoted if quoting was asked for or the raw title holds a colon and a
    space. *)
Theorem movie_text (depth : nat) (q : bool) (ps : list poster) (st : state)
    (a : addr) (p : poster) :
  add_posters q empty_state ps = Ok st ->
  ps !! a = Some p ->
  content_type (record_of q p) = "Collection"
  \/ content_type (record_of q p) = "Movie" ->
  str depth (objs st) (objs st !!! a)
  = Ok ((let t := if dup_before (objs st) a then poster_title p
                  else yearless_title (record_of q p) in
         if q || str_in ": " (poster_title p)
         then dquote ++ t ++ dquote else t)
        ++ ":" ++ nl ++ "  url_poster: " ++ POSTER_URL (data_poster_id p)).
Proof.
  intros Hrun Hp Hty.
  destruct (add_posters_from_empty _ _ _ Hrun) as (Hlen & _ & _ & Hu).
  destruct (static_fields _ _ (add_posters_records q ps st a p Hrun Hp))
    as (_ & Ety & Et & Eq & Eurl & Ey & _).
  destruct (Content_init_fields (data_poster_id p) (data_poster_type p)
              (poster_title p) q) as (_ & Ft & Furl & _ & Fq & _).
  fold (record_of q p) in Ft, Furl, Fq.
  rewrite str_eq, Ety.
  assert (String.eqb (content_type (record_of q p)) "Collection"
          || String.eqb (content_type (record_of q p)) "Movie" = true) as ->.
  { destruct Hty as [-> | ->]; reflexivity. }
  unfold title_block, final_title.
  rewrite Hu by (rewrite Hlen; by eapply lookup_lt_Some).
  by rewrite Et, Eq, Eurl, Ey, Ft, Furl, Fq.
Qed.

Lemma movie_text_witness :
  exists st,
    add_posters false empty_state
      [mkPoster 1 "Movie" "Alpha (1999)"; mkPoster 2 "Movie" "Alpha (1999)"]
    = Ok st
    /\ str 0 (objs st) (objs st !!! 0)
       = Ok ("Alpha:" ++ nl
             ++ "  url_poster: https://theposterdb.com/api/assets/1")
    /\ str 0 (objs st) (objs st !!! 1)
       = Ok ("Alpha (1999):" ++ nl
             ++ "  url_poster: https://theposterdb.com/api/assets/2").
Proof.
  eexists. split; [vm_compute; reflexivity|]. split.
  - refine (movie_text 0 false
              [mkPoster 1 "Movie" "Alpha (1999)";
               mkPoster 2 "Movie" "Alpha (1999)"] _ 0
              (mkPoster 1 "Movie" "Alpha (1999)") _ eq_refl _).
    + vm_compute. reflexivity.
    + right. reflexivity.
  - refine (movie_text 0 false
              [mkPoster 1 "Movie" "Alpha (1999)";
               mkPoster 2 "Movie" "Alpha (1999)"] _ 1
              (mkPoster 2 "Movie" "Alpha (1999)") _ eq_refl _).
    + vm_compute. reflexivity.
    + right. reflexivity.
Defined.
